(** * Anomaly scorer and driver attribution: a shallow embedding

    This development embeds [ai/anomaly.py] and [ai/drivers.py] and proves
    the properties stated for them. Of their callers it embeds the snapshot
    and the expected impact of [ai/explain.py] and the segment filters of
    [api/routes/automations.py].

    Modelling conventions.
    - A Python/NumPy [float] is an exact rational ([Q]) or [NaN]; rounding
      error, overflow and infinities of binary64 are outside the model.
      The values stored in the KPI table and the aggregates returned by
      the queries are numbers, never NULL. The square root used by the
      population standard deviation is an operation of the numeric library
      and is kept abstract ([Sqrt]).
    - Python's true division raises [ZeroDivisionError] on a zero divisor:
      division returns [option], [None] standing for the raised exception,
      and every function that divides lives in the option monad.
    - A calendar date (ISO text in the database) is its day ordinal in [Z];
      parsing, formatting and the representable range of [datetime.date]
      are outside the model.
    - The SQLite connection is a record: the three tables the scorer
      touches are lists of rows, the write statements executed are kept in
      a journal, and the aggregate joins over the fact and dimension tables
      are answered by a query function of the connection. The [id] column
      the database assigns on insert is not modelled.
    - The wall clock read by [datetime.now] is an explicit argument.
    - A list of dictionaries that goes through a pandas frame and back
      comes out with [nan] for [None] in a column that also holds numbers
      ([data_frame]). *)

From stdpp Require Import gmap strings list sorting.
From Stdlib Require Import QArith Qabs Qround Qminmax Lqa.

Set Default Proof Using "Type*".

(** ** Python, pandas and NumPy primitives *)

Module Py.

Inductive float : Type :=
| Fin (q : Q)
| NaN.

Class Sqrt := fsqrt : Q → Q.

Definition Qlt_bool (x y : Q) : bool := negb (Qle_bool y x).

Definition fsub (a b : float) : float :=
  match a, b with
  | Fin x, Fin y => Fin (x - y)
  | _, _ => NaN
  end.

Definition fmul (a b : float) : float :=
  match a, b with
  | Fin x, Fin y => Fin (x * y)
  | _, _ => NaN
  end.

Definition fabs (a : float) : float :=
  match a with
  | Fin x => Fin (Qabs x)
  | NaN => NaN
  end.

(** [a == b], [a > b]: every comparison with [NaN] is false. *)
Definition feqb (a b : float) : bool :=
  match a, b with
  | Fin x, Fin y => Qeq_bool x y
  | _, _ => false
  end.

Definition fgtb (a b : float) : bool :=
  match a, b with
  | Fin x, Fin y => Qlt_bool y x
  | _, _ => false
  end.

(** [numerator / denominator] on rationals. *)
Definition py_div (x y : Q) : option Q :=
  if Qeq_bool y 0 then None else Some (x / y).

(** [a / b] on floats: a zero divisor raises, also under a [NaN] dividend. *)
Definition fdiv (a b : float) : option float :=
  match b with
  | Fin y =>
      if Qeq_bool y 0 then None
      else Some (match a with Fin x => Fin (x / y) | NaN => NaN end)
  | NaN => Some NaN
  end.

(** [round(x, ndigits)]: to the nearest multiple of [10^-ndigits], ties to
    the even one. *)
Definition round_half_even (q : Q) : Z :=
  let f := Qfloor q in
  match (q - inject_Z f ?= 1 # 2)%Q with
  | Lt => f
  | Gt => (f + 1)%Z
  | Eq => if Z.even f then f else (f + 1)%Z
  end.

Definition pow10 (n : nat) : Q := inject_Z (10 ^ Z.of_nat n).

Definition py_round (q : Q) (ndigits : nat) : Q :=
  (inject_Z (round_half_even (q * pow10 ndigits)) / pow10 ndigits)%Q.

Definition fround (a : float) (ndigits : nat) : float :=
  match a with
  | Fin x => Fin (py_round x ndigits)
  | NaN => NaN
  end.

(** A stable sort: [x] goes before the first element it is [leb] to. *)
Fixpoint insert_by {A} (leb : A → A → bool) (x : A) (l : list A) : list A :=
  match l with
  | [] => [x]
  | y :: l' => if leb x y then x :: l else y :: insert_by leb x l'
  end.

Definition sort_by {A} (leb : A → A → bool) (l : list A) : list A :=
  foldr (insert_by leb) [] l.

(** [Series.median()]: [NaN] on an empty series, else the middle value of
    the sorted series, or the mean of the two middle values. *)
Definition median_sorted (s : list Q) : float :=
  let n := length s in
  if (n =? 0)%nat then NaN
  else if Nat.odd n then Fin (nth (n / 2) s 0%Q)
  else Fin ((nth (n / 2 - 1) s 0 + nth (n / 2) s 0) / 2)%Q.

Definition pd_median (l : list Q) : float :=
  median_sorted (sort_by Qle_bool l).

(** [np.median]: [NaN] as soon as one entry is [NaN]. *)
Definition finite_values (l : list float) : option (list Q) :=
  mapM (λ a, match a with Fin q => Some q | NaN => None end) l.

Definition np_median (l : list float) : float :=
  match finite_values l with
  | Some qs => pd_median qs
  | None => NaN
  end.

Definition Qsum (l : list Q) : Q := foldr Qplus 0%Q l.

Definition Qmean (l : list Q) : Q :=
  (Qsum l / inject_Z (Z.of_nat (length l)))%Q.

(** [Series.std(ddof=0)]: population standard deviation, [NaN] when empty. *)
Definition pd_std `{Sqrt} (l : list Q) : float :=
  match l with
  | [] => NaN
  | _ =>
      let m := Qmean l in
      Fin (fsqrt (Qmean (fmap (λ x, (x - m) * (x - m))%Q l)))
  end.

(** [values.iloc[start:stop]] for non-negative [start] and [stop]. *)
Definition iloc_slice {A} (start stop : Z) (l : list A) : list A :=
  take (Z.to_nat (stop - start)) (drop (Z.to_nat start) l).

(** [frame.head(n)]: the first [n] rows; for negative [n], all rows but
    the last [-n]. *)
Definition frame_head {A} (n : Z) (l : list A) : list A :=
  if (0 <=? n)%Z then take (Z.to_nat n) l
  else take (length l - Z.to_nat (- n)) l.

(** [str.strip()] *)
Fixpoint lstrip (s : string) : string :=
  match s with
  | String a s' => if Ascii.is_space a then lstrip s' else s
  | EmptyString => EmptyString
  end.

Definition strip (s : string) : string :=
  String.rev (lstrip (String.rev (lstrip s))).

End Py.

Export Py.

(** A rational square root to twelve decimals, rounded down, under which
    the model can be run on concrete series. *)
Definition sqrt_down (q : Q) : Q :=
  if Qle_bool q 0 then 0%Q
  else
    let n := Qnum q in
    let d := Zpos (Qden q) in
    (inject_Z (Z.sqrt (n * d * 10 ^ 24)) / inject_Z (d * 10 ^ 12))%Q.

(** ** The store *)

Module Store.

(** [fact_kpi_daily], as read by the scorer: [kpi_name, date, value]. *)
Record kpi_row := {
  kpi_name : string;
  date : Z;
  value : Q
}.

(** [scenario_registry]: [scenario_tag, scenario_date, kpi_name]; the tag
    and the KPI name may be NULL. *)
Record scenario_row := {
  sr_scenario_tag : option string;
  sr_scenario_date : Z;
  sr_kpi_name : option string
}.

(** A row of [anomalies], which is also the record returned to the caller. *)
Record anomaly := {
  a_kpi_name : string;
  a_date : Z;
  a_value : Q;
  a_baseline : float;
  a_score : float;
  a_status : string;
  a_scenario_tag : option string;
  a_created_at : string
}.

(** A row of a per-dimension aggregate: [segment, numerator, denominator],
    with [baseline_date] in front for the baseline query. *)
Record agg_row := {
  baseline_date : option Z;
  segment : option string;
  numerator : Q;
  denominator : Q
}.

(** A row of the data-quality aggregate. *)
Record dq_agg_row := {
  dq_baseline_date : option Z;
  dq_segment : string;
  missing_delivered : Q;
  delivered_jobs : Q;
  duplicate_rate : Q
}.

(** The statements that write to the store. *)
Inductive statement : Type :=
| DeleteFromAnomalies
| InsertIntoAnomalies (rows : list anomaly)
| Commit.

Record connection := {
  fact_kpi_daily : list kpi_row;
  scenario_registry : list scenario_row;
  anomalies : list anomaly;
  (** the write statements executed on this connection, oldest first *)
  journal : list statement;
  (** the answer of the database to an aggregate query and its parameters *)
  rate_query : string → list Z → list agg_row;
  dq_query : string → list Z → list dq_agg_row
}.

Definition write (rows : list anomaly) (s : statement) (conn : connection)
  : connection :=
  {| fact_kpi_daily := fact_kpi_daily conn;
     scenario_registry := scenario_registry conn;
     anomalies := rows;
     journal := journal conn ++ [s];
     rate_query := rate_query conn;
     dq_query := dq_query conn |}.

(** [conn.execute("DELETE FROM anomalies")] *)
Definition delete_anomalies (conn : connection) : connection :=
  write [] DeleteFromAnomalies conn.

(** [conn.executemany("INSERT INTO anomalies ...", rows)] *)
Definition insert_anomalies (rows : list anomaly) (conn : connection) : connection :=
  write (anomalies conn ++ rows) (InsertIntoAnomalies rows) conn.

(** [conn.commit()] *)
Definition commit (conn : connection) : connection :=
  write (anomalies conn) Commit conn.

End Store.

Export Store.

(** ** [ai/anomaly.py] *)

Module Anomaly.

Definition _load_scenario_lookup (conn : connection)
  : gmap (string * Z) (option string) :=
  foldl
    (λ mapping row,
       match sr_kpi_name row with
       | Some k =>
           if bool_decide (k = "") then mapping
           else <[(k, sr_scenario_date row) := sr_scenario_tag row]> mapping
       | None => mapping
       end)
    ∅ (scenario_registry conn).

(** [scenario_lookup.get(key)] *)
Definition lookup_get (m : gmap (string * Z) (option string)) (key : string * Z)
  : option string :=
  default None (m !! key).

(** [ORDER BY kpi_name, date] *)
Definition kpi_date_leb (r1 r2 : kpi_row) : bool :=
  match String.compare (kpi_name r1) (kpi_name r2) with
  | Lt => true
  | Eq => (date r1 <=? date r2)%Z
  | Gt => false
  end.

Definition date_leb (r1 r2 : kpi_row) : bool := (date r1 <=? date r2)%Z.

(** The query of [recompute_anomalies]; [if kpi_names:] adds the
    [WHERE ... IN] for a list that is neither missing nor empty. *)
Definition read_kpi_frame (conn : connection) (kpi_names : option (list string))
  : list kpi_row :=
  let rows :=
    match kpi_names with
    | Some (n :: ns) =>
        filter (λ r, kpi_name r ∈ n :: ns) (fact_kpi_daily conn)
    | _ => fact_kpi_daily conn
    end in
  sort_by kpi_date_leb rows.

(** [frame.groupby("kpi_name")]: one group per name, names ascending. *)
Definition groupby_kpi_name (frame : list kpi_row) : list (string * list kpi_row) :=
  fmap (λ k, (k, filter (λ r, kpi_name r = k) frame))
      (sort_by String.leb (remove_dups (fmap kpi_name frame))).

(** [values.iloc[max(0, idx - window_days):idx]] *)
Definition trailing_window (window_days : Z) (values : list kpi_row) (idx : nat)
  : list kpi_row :=
  iloc_slice (Z.max 0 (Z.of_nat idx - window_days)) (Z.of_nat idx) values.

Inductive scoring : Type :=
| Skipped
| Scored (baseline score : float).

Section scorer.
Context `{Sqrt}.

(** The body of the inner loop up to the computation of [score]. *)
Definition score_index (window_days min_history : Z) (values : list kpi_row)
    (idx : nat) (current : kpi_row) : option scoring :=
  if (Z.of_nat idx <? min_history)%Z then Some Skipped
  else
    let history := trailing_window window_days values idx in
    if (Z.of_nat (length history) <? min_history)%Z then Some Skipped
    else
      let hv := fmap value history in
      let baseline := pd_median hv in
      let mad := np_median (fmap (λ v, fabs (fsub (Fin v) baseline)) hv) in
      score ←
        (if feqb mad (Fin 0) then
           let std := pd_std hv in
           let denom := if fgtb std (Fin 0) then std else Fin 1e-9 in
           fdiv (fabs (fsub (Fin (value current)) baseline)) denom
         else
           fdiv (fabs (fsub (Fin (value current)) baseline))
                (fmul (Fin 1.4826) mad));
      Some (Scored baseline score).

Definition make_record (scenario_lookup : gmap (string * Z) (option string))
    (created_at : string) (name : string) (current : kpi_row)
    (baseline score : float) : anomaly :=
  let current_date := date current in
  {| a_kpi_name := name;
     a_date := current_date;
     a_value := py_round (value current) 4;
     a_baseline := fround baseline 4;
     a_score := fround score 4;
     a_status := "open";
     a_scenario_tag := lookup_get scenario_lookup (name, current_date);
     a_created_at := created_at |}.

(** The records appended by one pass of the inner loop. *)
Definition flag (threshold : Q)
    (scenario_lookup : gmap (string * Z) (option string)) (created_at : string)
    (name : string) (current : kpi_row) (s : scoring) : list anomaly :=
  match s with
  | Scored baseline score =>
      if fgtb score (Fin threshold)
      then [make_record scenario_lookup created_at name current baseline score]
      else []
  | Skipped => []
  end.

(** [for idx in range(len(values))], from [idx] on; [rest] is [values]
    without its first [idx] rows. *)
Fixpoint scan_series (threshold : Q) (window_days min_history : Z)
    (scenario_lookup : gmap (string * Z) (option string)) (created_at : string)
    (name : string) (values : list kpi_row) (idx : nat) (rest : list kpi_row)
  : option (list anomaly) :=
  match rest with
  | [] => Some []
  | current :: rest' =>
      s ← score_index window_days min_history values idx current;
      out ← scan_series threshold window_days min_history scenario_lookup
              created_at name values (S idx) rest';
      Some (flag threshold scenario_lookup created_at name current s ++ out)
  end.

(** [for kpi_name, group in frame.groupby("kpi_name")] *)
Fixpoint scan_groups (threshold : Q) (window_days min_history : Z)
    (scenario_lookup : gmap (string * Z) (option string)) (created_at : string)
    (groups : list (string * list kpi_row)) : option (list anomaly) :=
  match groups with
  | [] => Some []
  | (name, group) :: groups' =>
      let values := sort_by date_leb group in
      out1 ← scan_series threshold window_days min_history scenario_lookup
               created_at name values 0 values;
      out2 ← scan_groups threshold window_days min_history scenario_lookup
               created_at groups';
      Some (out1 ++ out2)
  end.

(** [recompute_anomalies]; [now] is the reading of the clock. The result
    is the returned list and the connection after the call. *)
Definition recompute_anomalies (conn : connection) (threshold : Q)
    (window_days min_history : Z) (kpi_names : option (list string))
    (now : string) : option (list anomaly * connection) :=
  let frame := read_kpi_frame conn kpi_names in
  match frame with
  | [] => Some ([], conn)
  | _ =>
      let scenario_lookup := _load_scenario_lookup conn in
      let created_at := now in
      out ← scan_groups threshold window_days min_history scenario_lookup
              created_at (groupby_kpi_name frame);
      let conn1 := delete_anomalies conn in
      let conn2 :=
        match out with
        | [] => conn1
        | _ => insert_anomalies out conn1
        end in
      Some (out, commit conn2)
  end.

End scorer.

End Anomaly.

(** ** [ai/drivers.py] *)

Module Drivers.

Record DimensionQueryConfig := {
  dimension : string;
  segment_expr : string;
  from_clause : string;
  numerator_expr : string;
  denominator_expr : string;
  extra_where : string
}.

(** The constructor with the default [extra_where = "1=1"]. *)
Definition config (dimension segment_expr from_clause numerator_expr
    denominator_expr : string) : DimensionQueryConfig :=
  {| dimension := dimension;
     segment_expr := segment_expr;
     from_clause := from_clause;
     numerator_expr := numerator_expr;
     denominator_expr := denominator_expr;
     extra_where := "1=1" |}.

(** A driver row; [driver_score] is absent once the column is dropped, and
    on the rows of the data-quality path. A [delta_pct] of [None] is
    Python's [None], as the loops write it; [Some NaN] is the float [nan]
    that a frame holds in its place. *)
Record driver_row := {
  dr_dimension : string;
  dr_segment : string;
  delta_abs : Q;
  delta_pct : option float;
  contribution_share : Q;
  supporting_stats : list (string * Q);
  driver_score : option Q
}.

Record evidence_entry := {
  ev_dimension : string;
  anomaly_sql : string;
  anomaly_params : list Z;
  baseline_sql : string;
  baseline_params : list Z;
  top_rows : list driver_row
}.

Record attribution := {
  drivers : list driver_row;
  evidence : list evidence_entry
}.

Definition _safe_rate (numerator denominator : Q) : option Q :=
  if Qeq_bool denominator 0 then Some 0%Q
  else py_div numerator denominator.

Definition _run_df (conn : connection) (sql : string) (params : list Z)
  : list agg_row :=
  rate_query conn sql params.

(** *** Frames *)

(** Descending order on a list of sort keys, the first key first. *)
Fixpoint lex_geb (k1 k2 : list Q) : bool :=
  match k1, k2 with
  | x :: k1', y :: k2' =>
      match (x ?= y)%Q with
      | Gt => true
      | Lt => false
      | Eq => lex_geb k1' k2'
      end
  | _, _ => true
  end.

(** [sort_values(by=keys, ascending=False)] *)
Definition sort_values_desc {A} (keys : A → list Q) (l : list A) : list A :=
  sort_by (λ r1 r2, lex_geb (keys r1) (keys r2)) l.

Section frames.
Context {L R G : Type}.

(** [df.groupby("segment", as_index=False)[cols].mean()]: one row per
    segment, segments ascending. *)
Definition groupby_mean (key : R → string) (mean_of : list R → G)
    (df : list R) : list (string * G) :=
  fmap (λ k, (k, mean_of (filter (λ r, key r = k) df)))
      (sort_by String.leb (remove_dups (fmap key df))).

(** [left.merge(right, on="segment", how="outer")]: the union of the keys,
    ascending; a key missing on one side leaves that side empty. The keys
    of [right] are distinct. *)
Definition merge_outer (key : L → string) (left : list L)
    (right : list (string * G)) : list (string * option L * option G) :=
  flat_map
    (λ k,
       let g := snd <$> head (filter (λ p, fst p = k) right) in
       match filter (λ r, key r = k) left with
       | [] => [(k, None, g)]
       | rows => fmap (λ r, (k, Some r, g)) rows
       end)
    (sort_by String.leb (remove_dups (fmap key left ++ fmap fst right))).

End frames.

(** *** The rate path *)

(** [fillna("Unknown").astype(str)] on the segment column. *)
Definition segment_label (r : agg_row) : string :=
  default "Unknown" (segment r).

Record merged_row := {
  m_segment : string;
  numerator_anomaly : Q;
  denominator_anomaly : Q;
  numerator_baseline : Q;
  denominator_baseline : Q
}.

(** [.fillna(0.0)] on a row of the outer merge. *)
Definition fill_zero (m : string * option agg_row * option (Q * Q)) : merged_row :=
  let '(k, a, b) := m in
  {| m_segment := k;
     numerator_anomaly := from_option numerator 0%Q a;
     denominator_anomaly := from_option denominator 0%Q a;
     numerator_baseline := from_option fst 0%Q b;
     denominator_baseline := from_option snd 0%Q b |}.

Definition merge_frames (anomaly_df baseline_df : list agg_row) : list merged_row :=
  let baseline_grouped :=
    groupby_mean segment_label
      (λ g, (Qmean (fmap numerator g), Qmean (fmap denominator g)))
      baseline_df in
  fmap fill_zero (merge_outer segment_label anomaly_df baseline_grouped).

Definition total_num_delta (merged : list merged_row) : Q :=
  let total_anomaly_num := Qsum (fmap numerator_anomaly merged) in
  let total_baseline_num := Qsum (fmap numerator_baseline merged) in
  (total_anomaly_num - total_baseline_num)%Q.

(** The values computed by one pass of the loop over the merged rows. *)
Record row_values := {
  v_anomaly_rate : Q;
  v_baseline_rate : Q;
  v_delta_abs : Q;
  v_delta_pct : option Q;
  v_numerator_delta : Q;
  v_contribution_share : Q
}.

Definition row_computation (total : Q) (row : merged_row) : option row_values :=
  let a_num := numerator_anomaly row in
  let a_den := denominator_anomaly row in
  let b_num := numerator_baseline row in
  let b_den := denominator_baseline row in
  anomaly_rate ← _safe_rate a_num a_den;
  baseline_rate ← _safe_rate b_num b_den;
  let delta_abs := (anomaly_rate - baseline_rate)%Q in
  delta_pct ←
    (if Qlt_bool 0 baseline_rate
     then q ← py_div delta_abs baseline_rate; Some (Some (q * 100)%Q)
     else Some None);
  let numerator_delta := (a_num - b_num)%Q in
  contribution_share ←
    (if negb (Qeq_bool total 0) then py_div numerator_delta total
     else Some 0%Q);
  Some {| v_anomaly_rate := anomaly_rate;
          v_baseline_rate := baseline_rate;
          v_delta_abs := delta_abs;
          v_delta_pct := delta_pct;
          v_numerator_delta := numerator_delta;
          v_contribution_share := contribution_share |}.

(** The dictionary appended to [rows]. *)
Definition row_dict (dimension : string) (row : merged_row) (v : row_values)
  : driver_row :=
  {| dr_dimension := dimension;
     dr_segment := m_segment row;
     delta_abs := py_round (v_delta_abs v) 6;
     delta_pct := (λ p, Fin (py_round p 4)) <$> v_delta_pct v;
     contribution_share := py_round (v_contribution_share v) 6;
     supporting_stats :=
       [("anomaly_numerator", py_round (numerator_anomaly row) 4);
        ("anomaly_denominator", py_round (denominator_anomaly row) 4);
        ("baseline_numerator", py_round (numerator_baseline row) 4);
        ("baseline_denominator", py_round (denominator_baseline row) 4);
        ("anomaly_rate", py_round (v_anomaly_rate v) 6);
        ("baseline_rate", py_round (v_baseline_rate v) 6)];
     driver_score :=
       Some (Qabs (v_numerator_delta v)
             * Qmax 0.01 (Qabs (v_delta_abs v)))%Q |}.

Definition build_row (dimension : string) (total : Q) (row : merged_row)
  : option driver_row :=
  v ← row_computation total row;
  Some (row_dict dimension row v).

(** [.drop(columns=["driver_score"])] *)
Definition drop_driver_score (r : driver_row) : driver_row :=
  {| dr_dimension := dr_dimension r;
     dr_segment := dr_segment r;
     delta_abs := delta_abs r;
     delta_pct := delta_pct r;
     contribution_share := contribution_share r;
     supporting_stats := supporting_stats r;
     driver_score := None |}.

(** The [driver_score] column of a frame all of whose rows carry it. *)
Definition driver_score_col (r : driver_row) : Q := default 0%Q (driver_score r).

(** A row as a float column of [delta_pct] holds it: [None] reads [nan]. *)
Definition nan_delta_pct (r : driver_row) : driver_row :=
  {| dr_dimension := dr_dimension r;
     dr_segment := dr_segment r;
     delta_abs := delta_abs r;
     delta_pct := Some (default NaN (delta_pct r));
     contribution_share := contribution_share r;
     supporting_stats := supporting_stats r;
     driver_score := driver_score r |}.

(** [pd.DataFrame(rows)], as its rows read back with
    [to_dict(orient="records")]: the column [delta_pct] is a float column
    as soon as one row has a number there, and then holds [nan] where a row
    had [None]; a column of [None] only is kept as it is. The other columns
    read back as they were written. *)
Definition data_frame (rows : list driver_row) : list driver_row :=
  if bool_decide (Exists (λ r, is_Some (delta_pct r)) rows)
  then fmap nan_delta_pct rows
  else rows.

Definition _build_driver_rows (dimension : string)
    (anomaly_df baseline_df : list agg_row) (top_n : Z)
  : option (list driver_row * list driver_row) :=
  match anomaly_df, baseline_df with
  | [], [] => Some ([], [])
  | _, _ =>
      let merged := merge_frames anomaly_df baseline_df in
      let total := total_num_delta merged in
      rows ← mapM (build_row dimension total) merged;
      let evidence_rows :=
        fmap drop_driver_score
          (frame_head top_n
             (sort_values_desc
                (λ r, [driver_score_col r; contribution_share r])
                (data_frame rows))) in
      Some (rows, evidence_rows)
  end.

Definition nl : string := String (Ascii.ascii_of_nat 10) EmptyString.

(** A triple-quoted text, given by its lines. *)
Definition text (lines : list string) : string := String.concat nl lines.

Definition sla_from_clause : string :=
  text ["";
    "            fact_comms fc";
    "            JOIN dim_date dd ON dd.date_key = fc.date_key";
    "            JOIN dim_site ds ON ds.site_id = fc.site_id";
    "            JOIN dim_customer dc ON dc.customer_id = fc.customer_id";
    "            JOIN dim_category dcat ON dcat.category_id = fc.category_id";
    "            LEFT JOIN fact_incidents fi ON fi.job_id = fc.job_id";
    "            LEFT JOIN dim_carrier dcar ON dcar.carrier_id = fc.carrier_id";
    "            LEFT JOIN dim_product dp ON dp.product_id = fc.product_id";
    "        "].

Definition exception_from_clause : string :=
  text ["";
    "            fact_jobs fj";
    "            JOIN dim_date dd ON dd.date_key = fj.date_key";
    "            JOIN dim_site ds ON ds.site_id = fj.site_id";
    "            JOIN dim_customer dc ON dc.customer_id = fj.customer_id";
    "            LEFT JOIN fact_incidents fi ON fi.job_id = fj.job_id";
    "            LEFT JOIN fact_comms fc ON fc.job_id = fj.job_id AND fc.date_key = fj.date_key";
    "            LEFT JOIN dim_category dcat ON dcat.category_id = fc.category_id";
    "            JOIN dim_carrier dcar ON dcar.carrier_id = fj.carrier_id";
    "            JOIN dim_product dp ON dp.product_id = fj.product_id";
    "        "].

Definition _dimension_configs_for_kpi (kpi_name : string)
  : list DimensionQueryConfig :=
  if bool_decide (kpi_name = "sla_breach_rate_pct") then
    let from_clause := sla_from_clause in
    let numerator :=
      "SUM(CASE WHEN fc.sla_sensitive_bool = 1 AND fc.breached_bool = 1 THEN 1 ELSE 0 END)" in
    let denominator :=
      "SUM(CASE WHEN fc.sla_sensitive_bool = 1 THEN 1 ELSE 0 END)" in
    [ config "site" "ds.site_name" from_clause numerator denominator;
      config "customer_tier" "dc.tier" from_clause numerator denominator;
      config "category" "dcat.category_name" from_clause numerator denominator;
      config "incident_type" "COALESCE(fi.incident_type, 'No incident')"
        from_clause numerator denominator;
      config "carrier" "COALESCE(dcar.carrier_name, 'Unknown carrier')"
        from_clause numerator denominator;
      config "product_family" "COALESCE(dp.product_family, 'Unknown product')"
        from_clause numerator denominator ]
  else if bool_decide (kpi_name = "exception_rate_per_100_jobs") then
    let from_clause := exception_from_clause in
    let numerator := "COUNT(DISTINCT fi.incident_id)" in
    let denominator := "COUNT(DISTINCT fj.job_id)" in
    [ config "site" "ds.site_name" from_clause numerator denominator;
      config "customer_tier" "dc.tier" from_clause numerator denominator;
      config "category" "COALESCE(dcat.category_name, 'No comm category')"
        from_clause numerator denominator;
      config "incident_type" "COALESCE(fi.incident_type, 'No incident')"
        from_clause numerator denominator;
      config "carrier" "dcar.carrier_name" from_clause numerator denominator;
      config "product_family" "dp.product_family" from_clause numerator denominator ]
  else [].

Definition rate_anomaly_sql (cfg : DimensionQueryConfig) : string :=
  text ["";
    "            SELECT " +:+ segment_expr cfg +:+ " AS segment,";
    "                   " +:+ numerator_expr cfg +:+ " AS numerator,";
    "                   " +:+ denominator_expr cfg +:+ " AS denominator";
    "            FROM " +:+ from_clause cfg;
    "            WHERE " +:+ extra_where cfg;
    "              AND dd.date = ?";
    "            GROUP BY " +:+ segment_expr cfg;
    "        "].

Definition rate_baseline_sql (cfg : DimensionQueryConfig) : string :=
  text ["";
    "            SELECT dd.date AS baseline_date,";
    "                   " +:+ segment_expr cfg +:+ " AS segment,";
    "                   " +:+ numerator_expr cfg +:+ " AS numerator,";
    "                   " +:+ denominator_expr cfg +:+ " AS denominator";
    "            FROM " +:+ from_clause cfg;
    "            WHERE " +:+ extra_where cfg;
    "              AND dd.date BETWEEN ? AND ?";
    "            GROUP BY dd.date, " +:+ segment_expr cfg;
    "        "].

(** [for cfg in _dimension_configs_for_kpi(kpi_name)]: the pooled rows and
    the evidence entries. *)
Fixpoint analyze_dimensions (conn : connection)
    (target_date baseline_start baseline_end : Z)
    (cfgs : list DimensionQueryConfig)
  : option (list driver_row * list evidence_entry) :=
  match cfgs with
  | [] => Some ([], [])
  | cfg :: cfgs' =>
      let anomaly_sql := rate_anomaly_sql cfg in
      let baseline_sql := rate_baseline_sql cfg in
      let anomaly_df := _run_df conn anomaly_sql [target_date] in
      let baseline_df :=
        _run_df conn baseline_sql [baseline_start; baseline_end] in
      '(rows, top_rows) ←
        _build_driver_rows (dimension cfg) anomaly_df baseline_df 5;
      '(all_rows, evidence) ←
        analyze_dimensions conn target_date baseline_start baseline_end cfgs';
      Some (rows ++ all_rows,
            {| ev_dimension := dimension cfg;
               anomaly_sql := strip anomaly_sql;
               anomaly_params := [target_date];
               baseline_sql := strip baseline_sql;
               baseline_params := [baseline_start; baseline_end];
               top_rows := top_rows |} :: evidence)
  end.

(** The boolean mask of [positive]. *)
Definition is_positive (r : driver_row) : bool :=
  Qlt_bool 0 (delta_abs r) && Qlt_bool 0 (contribution_share r).

Definition rank_score (r : driver_row) : Q :=
  (Qabs (contribution_share r) * Qabs (delta_abs r))%Q.

Definition rank_keys (r : driver_row) : list Q :=
  [rank_score r; contribution_share r; delta_abs r].

(** The frame [ranked] is built from. *)
Definition ranking_pool (all_rows : list driver_row) : list driver_row :=
  match filter (λ r, is_positive r) all_rows with
  | [] => all_rows
  | positive => positive
  end.

Definition rank_drivers (all_rows : list driver_row) (top_n : Z)
  : list driver_row :=
  let drivers_frame := data_frame all_rows in
  let ranked := ranking_pool drivers_frame in
  let ranked := sort_values_desc rank_keys ranked in
  frame_head top_n ranked.

Definition _analyze_rate_kpi (conn : connection) (kpi_name : string)
    (target_date : Z) (baseline_days top_n : Z) : option attribution :=
  let target := target_date in
  let baseline_start := (target - baseline_days)%Z in
  let baseline_end := (target - 1)%Z in
  '(all_rows, evidence) ←
    analyze_dimensions conn target_date baseline_start baseline_end
      (_dimension_configs_for_kpi kpi_name);
  match all_rows with
  | [] => Some {| drivers := []; evidence := evidence |}
  | _ => Some {| drivers := rank_drivers all_rows top_n; evidence := evidence |}
  end.

(** *** The data-quality path *)

Definition dq_anomaly_sql : string :=
  text ["";
    "        SELECT";
    "            ds.site_name AS segment,";
    "            SUM(CASE WHEN fj.status = 'Delivered' AND fj.delivered_date_key IS NULL THEN 1 ELSE 0 END) AS missing_delivered,";
    "            SUM(CASE WHEN fj.status = 'Delivered' THEN 1 ELSE 0 END) AS delivered_jobs,";
    "            AVG(fj.duplicate_flag) AS duplicate_rate";
    "        FROM fact_jobs fj";
    "        JOIN dim_date dd ON dd.date_key = fj.date_key";
    "        JOIN dim_site ds ON ds.site_id = fj.site_id";
    "        WHERE dd.date = ?";
    "        GROUP BY ds.site_name";
    "    "].

Definition dq_baseline_sql : string :=
  text ["";
    "        SELECT";
    "            dd.date AS baseline_date,";
    "            ds.site_name AS segment,";
    "            SUM(CASE WHEN fj.status = 'Delivered' AND fj.delivered_date_key IS NULL THEN 1 ELSE 0 END) AS missing_delivered,";
    "            SUM(CASE WHEN fj.status = 'Delivered' THEN 1 ELSE 0 END) AS delivered_jobs,";
    "            AVG(fj.duplicate_flag) AS duplicate_rate";
    "        FROM fact_jobs fj";
    "        JOIN dim_date dd ON dd.date_key = fj.date_key";
    "        JOIN dim_site ds ON ds.site_id = fj.site_id";
    "        WHERE dd.date BETWEEN ? AND ?";
    "        GROUP BY dd.date, ds.site_name";
    "    "].

Record dq_merged_row := {
  dq_m_segment : string;
  missing_delivered_anomaly : Q;
  delivered_jobs_anomaly : Q;
  duplicate_rate_anomaly : Q;
  missing_delivered_baseline : Q;
  delivered_jobs_baseline : Q;
  duplicate_rate_baseline : Q
}.

Definition dq_fill_zero
    (m : string * option dq_agg_row * option (Q * Q * Q)) : dq_merged_row :=
  let '(k, a, b) := m in
  {| dq_m_segment := k;
     missing_delivered_anomaly := from_option missing_delivered 0%Q a;
     delivered_jobs_anomaly := from_option delivered_jobs 0%Q a;
     duplicate_rate_anomaly := from_option duplicate_rate 0%Q a;
     missing_delivered_baseline := from_option (λ t, t.1.1) 0%Q b;
     delivered_jobs_baseline := from_option (λ t, t.1.2) 0%Q b;
     duplicate_rate_baseline := from_option (λ t, t.2) 0%Q b |}.

Definition dq_merge_frames (anomaly_df baseline_df : list dq_agg_row)
  : list dq_merged_row :=
  let baseline_grouped :=
    groupby_mean dq_segment
      (λ g, (Qmean (fmap missing_delivered g), Qmean (fmap delivered_jobs g),
             Qmean (fmap duplicate_rate g)))
      baseline_df in
  fmap dq_fill_zero (merge_outer dq_segment anomaly_df baseline_grouped).

Definition dq_build_row (row : dq_merged_row) : option driver_row :=
  let a_missing := missing_delivered_anomaly row in
  let a_delivered := delivered_jobs_anomaly row in
  let b_missing := missing_delivered_baseline row in
  let b_delivered := delivered_jobs_baseline row in
  let a_dup := duplicate_rate_anomaly row in
  let b_dup := duplicate_rate_baseline row in
  a_missing_rate ← _safe_rate a_missing a_delivered;
  b_missing_rate ← _safe_rate b_missing b_delivered;
  let anomaly_penalty := (a_missing_rate * 70 + a_dup * 30)%Q in
  let baseline_penalty := (b_missing_rate * 70 + b_dup * 30)%Q in
  let delta_abs := (anomaly_penalty - baseline_penalty)%Q in
  delta_pct ←
    (if Qlt_bool 0 baseline_penalty
     then q ← py_div delta_abs baseline_penalty; Some (Some (q * 100)%Q)
     else Some None);
  Some {| dr_dimension := "site";
          dr_segment := dq_m_segment row;
          delta_abs := py_round delta_abs 6;
          delta_pct := (λ p, Fin (py_round p 4)) <$> delta_pct;
          contribution_share := 0;
          supporting_stats :=
            [("anomaly_missing_delivered", py_round a_missing 2);
             ("anomaly_delivered_jobs", py_round a_delivered 2);
             ("baseline_missing_delivered", py_round b_missing 2);
             ("baseline_delivered_jobs", py_round b_delivered 2);
             ("anomaly_duplicate_rate", py_round a_dup 6);
             ("baseline_duplicate_rate", py_round b_dup 6);
             ("anomaly_penalty", py_round anomaly_penalty 6);
             ("baseline_penalty", py_round baseline_penalty 6)];
          driver_score := None |}.

(** [item["contribution_share"] = ...] *)
Definition set_contribution_share (share : Q) (r : driver_row) : driver_row :=
  {| dr_dimension := dr_dimension r;
     dr_segment := dr_segment r;
     delta_abs := delta_abs r;
     delta_pct := delta_pct r;
     contribution_share := share;
     supporting_stats := supporting_stats r;
     driver_score := driver_score r |}.

(** [sum(max(0.0, r["delta_abs"]) for r in rows) or 1.0] *)
Definition dq_total_delta (rows : list driver_row) : Q :=
  let s := Qsum (fmap (λ r, Qmax 0 (delta_abs r)) rows) in
  if Qeq_bool s 0 then 1%Q else s.

Definition dq_share_rows (rows : list driver_row) : option (list driver_row) :=
  let total_delta := dq_total_delta rows in
  mapM (λ item,
          q ← py_div (Qmax 0 (delta_abs item)) total_delta;
          Some (set_contribution_share (py_round q 6) item))
       rows.

Definition _analyze_data_quality (conn : connection) (target_date : Z)
    (baseline_days top_n : Z) : option attribution :=
  let target := target_date in
  let baseline_start := (target - baseline_days)%Z in
  let baseline_end := (target - 1)%Z in
  let anomaly_df := dq_query conn dq_anomaly_sql [target_date] in
  let baseline_df :=
    dq_query conn dq_baseline_sql [baseline_start; baseline_end] in
  let merged := dq_merge_frames anomaly_df baseline_df in
  rows ← mapM dq_build_row merged;
  rows ← dq_share_rows rows;
  let ranked := data_frame rows in
  let ranked :=
    sort_values_desc (λ r, [contribution_share r; delta_abs r]) ranked in
  let drivers := frame_head top_n ranked in
  let evidence :=
    [ {| ev_dimension := "site";
         anomaly_sql := strip dq_anomaly_sql;
         anomaly_params := [target_date];
         baseline_sql := strip dq_baseline_sql;
         baseline_params := [baseline_start; baseline_end];
         top_rows := drivers |} ] in
  Some {| drivers := drivers; evidence := evidence |}.

Definition rate_kpis : gset string :=
  {[ "sla_breach_rate_pct"; "exception_rate_per_100_jobs" ]}.

Definition compute_top_drivers (conn : connection) (kpi_name : string)
    (target_date : Z) (baseline_days top_n : Z) : option attribution :=
  if bool_decide (kpi_name ∈ rate_kpis) then
    _analyze_rate_kpi conn kpi_name target_date baseline_days top_n
  else if bool_decide (kpi_name = "data_quality_score") then
    _analyze_data_quality conn target_date baseline_days top_n
  else Some {| drivers := []; evidence := [] |}.

End Drivers.

(** ** Vocabulary of the statements and sample data *)

Module Spec.
Import Anomaly.

(** The days of a list of anomaly records. *)
Definition flagged_days (out : list anomaly) : list (string * Z) :=
  (λ r, (a_kpi_name r, a_date r)) <$> out.

Definition with_created_at (now : string) (r : anomaly) : anomaly :=
  {| a_kpi_name := a_kpi_name r;
     a_date := a_date r;
     a_value := a_value r;
     a_baseline := a_baseline r;
     a_score := a_score r;
     a_status := a_status r;
     a_scenario_tag := a_scenario_tag r;
     a_created_at := now |}.

Definition restamp (now : string) (out : list anomaly) : list anomaly :=
  with_created_at now <$> out.

(** A record with its [created_at] blanked. *)
Definition without_created_at (r : anomaly) : anomaly := with_created_at "" r.

(** Stored records of KPIs outside the filter survive the call. *)
Definition unselected_kept (kpi_names : list string) (before after : connection)
  : Prop :=
  ∀ r, r ∈ anomalies before → a_kpi_name r ∉ kpi_names → r ∈ anomalies after.

(** The statements a call appended to the journal. *)
Definition executed (before after : connection) (stmts : list statement) : Prop :=
  journal after = journal before ++ stmts.

(** The call executed the delete, which left the table empty. *)
Definition delete_performed (before after : connection) : Prop :=
  ∃ stmts,
    executed before after stmts ∧
    DeleteFromAnomalies ∈ stmts ∧
    anomalies after = [].

(** The score of section 4.1, steps 3 to 5, from the values of the window
    and the current value. *)
Definition spec_baseline (window : list Q) : float := pd_median window.

Definition spec_mad (window : list Q) : float :=
  np_median ((λ v, fabs (fsub (Fin v) (spec_baseline window))) <$> window).

Definition spec_denominator `{Sqrt} (window : list Q) : float :=
  let mad := spec_mad window in
  if feqb mad (Fin 0) then
    let std := pd_std window in
    if feqb std (Fin 0) then Fin 1e-9 else std
  else fmul (Fin 1.4826) mad.

Definition spec_score `{Sqrt} (window : list Q) (current : Q) : option float :=
  fdiv (fabs (fsub (Fin current) (spec_baseline window)))
       (spec_denominator window).

(** A day of the series [values] scored above the threshold, and the record
    made for it. *)
Definition flagged_at `{Sqrt} (threshold : Q) (window_days min_history : Z)
    (lookup : gmap (string * Z) (option string)) (now name : string)
    (values : list kpi_row) (r : anomaly) : Prop :=
  ∃ idx current baseline score,
    values !! idx = Some current ∧
    score_index window_days min_history values idx current
      = Some (Scored baseline (Fin score)) ∧
    (threshold < score)%Q ∧
    r = make_record lookup now name current baseline (Fin score).

(** The connection after a call that found KPI rows to score. *)
Definition replaced (conn : connection) (out : list anomaly) : connection :=
  commit
    match out with
    | [] => delete_anomalies conn
    | _ => insert_anomalies out (delete_anomalies conn)
    end.

End Spec.

Module DriverSpec.
Import Drivers.

#[export] Instance Qlt_decision (x y : Q) : Decision (x < y)%Q :=
  match Qlt_le_dec x y with
  | left Hlt => left Hlt
  | right Hle => right (Qle_not_lt _ _ Hle)
  end.



(** [r1] may stand before [r2] in the ranking: a larger product of the
    absolute contribution share and the absolute rate delta; on a tie a
    larger contribution share; on a tie again a rate delta at least as
    large. *)
Definition ranks_before (r1 r2 : driver_row) : Prop :=
  (rank_score r2 < rank_score r1)%Q ∨
  ((rank_score r1 == rank_score r2)%Q ∧
   ((contribution_share r2 < contribution_share r1)%Q ∨
    ((contribution_share r1 == contribution_share r2)%Q ∧
     (delta_abs r2 <= delta_abs r1)%Q))).

(** The column [delta_pct] of the frame of [rows] is a float column: some
    row has a number there. *)
Definition float_column (rows : list driver_row) : Prop :=
  Exists (λ r, is_Some (delta_pct r)) rows.

(** The row [r] as it reads back from the frame of [rows]: with [nan] for a
    null [delta_pct] when the column is a float column, else as it is. *)
Definition read_back (rows : list driver_row) (r : driver_row) : driver_row :=
  if bool_decide (float_column rows) then nan_delta_pct r else r.

(** The KPIs [compute_top_drivers] attributes. *)
Definition supported (kpi_name : string) : Prop :=
  kpi_name ∈ rate_kpis ∨ kpi_name = "data_quality_score".

(** The dimensions a supported KPI is analysed along: those of its
    configurations, and the site for the data-quality score. *)
Definition configured_dimensions (kpi_name : string) : list string :=
  if bool_decide (kpi_name ∈ rate_kpis) then
    dimension <$> _dimension_configs_for_kpi kpi_name
  else if bool_decide (kpi_name = "data_quality_score") then ["site"]
  else [].

(** The rows a call computes over all its dimensions, before ranking. *)
Definition pooled_rows (conn : connection) (kpi_name : string)
    (target_date baseline_days : Z) : option (list driver_row) :=
  if bool_decide (kpi_name ∈ rate_kpis) then
    fst <$> analyze_dimensions conn target_date (target_date - baseline_days)
              (target_date - 1) (_dimension_configs_for_kpi kpi_name)
  else if bool_decide (kpi_name = "data_quality_score") then
    mapM dq_build_row
      (dq_merge_frames
         (dq_query conn dq_anomaly_sql [target_date])
         (dq_query conn dq_baseline_sql
            [(target_date - baseline_days)%Z; (target_date - 1)%Z]))
  else Some [].

End DriverSpec.

Module Examples.

Definition obs (k : string) (d : Z) (v : Q) : kpi_row :=
  {| kpi_name := k; date := d; value := v |}.

Definition stale : anomaly :=
  {| a_kpi_name := "exception_rate_per_100_jobs";
     a_date := 3;
     a_value := 9;
     a_baseline := Fin 5;
     a_score := Fin 40;
     a_status := "open";
     a_scenario_tag := None;
     a_created_at := "2026-02-09T08:00:00+00:00" |}.

(** Two short series and one stored anomaly of an earlier run. *)
Definition sample_conn : connection :=
  {| fact_kpi_daily :=
       [ obs "sla_breach_rate_pct" 1 1; obs "sla_breach_rate_pct" 2 1;
         obs "sla_breach_rate_pct" 3 2; obs "sla_breach_rate_pct" 4 10;
         obs "exception_rate_per_100_jobs" 1 5;
         obs "exception_rate_per_100_jobs" 2 5;
         obs "exception_rate_per_100_jobs" 3 9 ];
     scenario_registry :=
       [ {| sr_scenario_tag := Some "Scenario A";
            sr_scenario_date := 4;
            sr_kpi_name := Some "sla_breach_rate_pct" |} ];
     anomalies := [stale];
     journal := [];
     rate_query := λ _ _, [];
     dq_query := λ _ _, [] |}.

(** A series whose fourth day scores 4.44781 / 1.4826, a little above 3,
    against the three days before it. *)
Definition rounding_conn : connection :=
  {| fact_kpi_daily :=
       [ obs "sla_breach_rate_pct" 1 1; obs "sla_breach_rate_pct" 2 2;
         obs "sla_breach_rate_pct" 3 3; obs "sla_breach_rate_pct" 4 6.44781 ];
     scenario_registry := [];
     anomalies := [];
     journal := [];
     rate_query := λ _ _, [];
     dq_query := λ _ _, [] |}.

(** A filter that names a KPI without observations in [sample_conn]. *)
Definition unloaded_kpi : option (list string) :=
  Some ["cost_leakage_estimate_gbp"].

Definition day_row (s : option string) (n d : Q) : agg_row :=
  {| baseline_date := None; segment := s; numerator := n; denominator := d |}.

Definition base_row (day : Z) (s : option string) (n d : Q) : agg_row :=
  {| baseline_date := Some day; segment := s; numerator := n; denominator := d |}.

(** Every dimension answers alike: two segments on the target day, one of
    them without a label, and two baseline days. *)
Definition attribution_conn : connection :=
  {| fact_kpi_daily := [];
     scenario_registry := [];
     anomalies := [];
     journal := [];
     rate_query := λ _ params,
       match params with
       | [_] => [day_row (Some "NorthHaul") 5 10; day_row None 1 10]
       | _ => [base_row 8 (Some "NorthHaul") 1 10;
               base_row 9 (Some "NorthHaul") 2 10;
               base_row 8 (Some "Dover") 1 0]
       end;
     dq_query := λ _ _, [] |}.

End Examples.

(** ** Vocabulary of the further properties *)

Module Further.
Import Anomaly.

(** The registry rows that speak for a KPI name and a date. *)
Definition registry_rows_for (conn : connection) (k : string) (d : Z)
  : list scenario_row :=
  filter (λ row, sr_kpi_name row = Some k ∧ sr_scenario_date row = d)
         (scenario_registry conn).

(** The order of the returned records: by KPI name, then by date. *)
Definition reported_before (r1 r2 : anomaly) : Prop :=
  (String.le (a_kpi_name r1) (a_kpi_name r2) ∧ a_kpi_name r1 ≠ a_kpi_name r2) ∨
  (a_kpi_name r1 = a_kpi_name r2 ∧ (a_date r1 ≤ a_date r2)%Z).

End Further.

(** ** [ai/explain.py]: the snapshot and the expected impact *)

Module Explain.
Import Anomaly Drivers.

Record snapshot := {
  s_kpi_name : string;
  s_date : Z;
  s_value : Q;
  baseline_mean : Q;
  baseline_min : Q;
  baseline_max : Q;
  baseline_observations : nat;
  anomaly_score : option float;
  anomaly_baseline : option float;
  anomaly_status : option string;
  s_scenario_tag : option string
}.

(** What a call comes to: the [ValueError] it raised, or the dictionary it
    returned. *)
Inductive outcome : Type :=
| ValueError
| Returned (s : snapshot).

(** [SELECT value FROM fact_kpi_daily WHERE kpi_name = ? AND date = ?],
    [fetchone()]: the first matching row of the table. *)
Definition value_row (conn : connection) (kpi_name : string) (target_date : Z)
  : option kpi_row :=
  head (filter (λ r, Store.kpi_name r = kpi_name ∧ date r = target_date)
          (fact_kpi_daily conn)).

(** The rows of the aggregate [WHERE kpi_name = ? AND date BETWEEN ? AND ?]. *)
Definition baseline_values (conn : connection) (kpi_name : string)
    (baseline_start baseline_end : Z) : list Q :=
  value <$>
    filter (λ r, Store.kpi_name r = kpi_name ∧
                 (baseline_start ≤ date r)%Z ∧ (date r ≤ baseline_end)%Z)
      (fact_kpi_daily conn).

(** [AVG], [MIN], [MAX]: NULL over no rows. *)
Definition sql_avg (l : list Q) : option Q :=
  match l with
  | [] => None
  | _ => Some (Qmean l)
  end.

Definition sql_min (l : list Q) : option Q :=
  match l with
  | [] => None
  | x :: l' => Some (foldr Qmin x l')
  end.

Definition sql_max (l : list Q) : option Q :=
  match l with
  | [] => None
  | x :: l' => Some (foldr Qmax x l')
  end.

(** [float(x or 0.0)] *)
Definition or_zero (x : option Q) : Q := default 0%Q x.

(** [ORDER BY score DESC]; a score that is not a number goes last. Rows of
    equal score keep the order of the table. *)
Definition score_desc (r1 r2 : anomaly) : bool :=
  match a_score r1, a_score r2 with
  | Fin x, Fin y => Qle_bool y x
  | Fin _, NaN => true
  | NaN, Fin _ => false
  | NaN, NaN => true
  end.

(** [SELECT score, baseline, status, scenario_tag FROM anomalies
     WHERE kpi_name = ? AND date = ? ORDER BY score DESC LIMIT 1],
    [fetchone()] *)
Definition anomaly_row (conn : connection) (kpi_name : string)
    (target_date : Z) : option anomaly :=
  head (sort_by score_desc
          (filter (λ r, a_kpi_name r = kpi_name ∧ a_date r = target_date)
             (anomalies conn))).

Section snapshot.
Context `{Sqrt}.

(** [_get_kpi_snapshot]; [now] is the reading of the clock of the
    [recompute_anomalies] it may call, with that function's defaults. The
    result is the outcome and the connection after the call. *)
Definition _get_kpi_snapshot (conn : connection) (kpi_name : string)
    (target_date : Z) (now : string) : option (outcome * connection) :=
  match value_row conn kpi_name target_date with
  | None => Some (ValueError, conn)
  | Some row =>
      let target := target_date in
      let baseline_start := (target - 14)%Z in
      let baseline_end := (target - 1)%Z in
      let baseline_row :=
        baseline_values conn kpi_name baseline_start baseline_end in
      '(anomaly_row, conn) ←
        match anomaly_row conn kpi_name target_date with
        | Some a => Some (Some a, conn)
        | None =>
            '(_, conn) ←
              recompute_anomalies conn 3 14 14 (Some [kpi_name]) now;
            Some (anomaly_row conn kpi_name target_date, conn)
        end;
      Some (Returned
              {| s_kpi_name := kpi_name;
                 s_date := target_date;
                 s_value := value row;
                 baseline_mean := or_zero (sql_avg baseline_row);
                 baseline_min := or_zero (sql_min baseline_row);
                 baseline_max := or_zero (sql_max baseline_row);
                 baseline_observations := length baseline_row;
                 anomaly_score := a_score <$> anomaly_row;
                 anomaly_baseline := a_baseline <$> anomaly_row;
                 anomaly_status := a_status <$> anomaly_row;
                 s_scenario_tag := anomaly_row ≫= a_scenario_tag |},
            conn)
  end.

End snapshot.

Record impact := {
  expected_kpi_improvement_pct : Q;
  expected_hours_saved : Q;
  expected_gbp_saved : Q
}.

Definition _expected_impact_from_driver (driver : driver_row) : impact :=
  let magnitude := Qabs (delta_abs driver) in
  let contribution := Qabs (contribution_share driver) in
  let pct_reduction :=
    Qmax 5 (Qmin 45 (magnitude * 18 + contribution * 28))%Q in
  let est_hours := py_round (Qmax 2 (pct_reduction * 0.25)) 2 in
  let est_gbp := py_round (est_hours * 42) 2 in
  {| expected_kpi_improvement_pct := py_round pct_reduction 2;
     expected_hours_saved := est_hours;
     expected_gbp_saved := est_gbp |}.

End Explain.

(** ** [api/routes/automations.py]: the segment filters *)

Module Automations.
Import Drivers.

Section segment_filters.
(** The values of a filter are JSON values; [str] and [str.lower] are kept
    abstract. *)
Context {Any : Type} (str : Any → string) (lower : string → string).

(** [by_dimension.setdefault(dimension.lower(), set()).add(segment.lower())]
    for every driver. *)
Definition by_dimension_of (drivers : list driver_row)
  : gmap string (gset string) :=
  foldl
    (λ by_dimension item,
       let k := lower (dr_dimension item) in
       <[k := default ∅ (by_dimension !! k) ∪ {[lower (dr_segment item)]}]>
         by_dimension)
    ∅ drivers.

Definition alias : gmap string string :=
  list_to_map
    [ ("site", "site");
      ("category", "category");
      ("carrier", "carrier");
      ("product", "product_family");
      ("product_family", "product_family");
      ("customer", "customer_tier");
      ("customer_tier", "customer_tier") ].

(** The dimension a filter key stands for:
    [alias.get(str(key).lower(), str(key).lower())]. *)
Definition filter_dimension (key : string) : string :=
  default (lower key) (alias !! lower key).

(** [for key, expected in filters.items()] *)
Fixpoint filters_loop (by_dimension : gmap string (gset string))
    (filters : list (string * Any)) : bool :=
  match filters with
  | [] => true
  | (key, expected) :: filters' =>
      let dim := default (lower key) (alias !! lower key) in
      let expected_str := lower (str expected) in
      if bool_decide (expected_str ∉ default ∅ (by_dimension !! dim))
      then false
      else filters_loop by_dimension filters'
  end.

(** [_segment_filters_match]; [filters] lists the items of the dictionary
    in its order. *)
Definition _segment_filters_match (conn : connection) (anomaly : anomaly)
    (filters : list (string * Any)) : option bool :=
  match filters with
  | [] => Some true
  | _ =>
      res ← compute_top_drivers conn (a_kpi_name anomaly) (a_date anomaly)
              14 15;
      let drivers := drivers res in
      let by_dimension := by_dimension_of drivers in
      Some (filters_loop by_dimension filters)
  end.

End segment_filters.

End Automations.

(** * Properties *)

(** ** Facts about the primitives *)

Section py_facts.

Lemma Qlt_bool_iff (x y : Q) : Qlt_bool x y = true ↔ (x < y)%Q.
Proof.
  unfold Qlt_bool. rewrite negb_true_iff. split.
  - intros Hb. apply Qnot_le_lt. intros Hle.
    apply Qle_bool_iff in Hle. congruence.
  - intros Hlt. destruct (Qle_bool y x) eqn:Hb; [|done].
    apply Qle_bool_iff in Hb. exfalso. by eapply Qlt_not_le.
Qed.

Lemma Qlt_bool_false (x y : Q) : Qlt_bool x y = false ↔ (y <= x)%Q.
Proof.
  unfold Qlt_bool. rewrite negb_false_iff. apply Qle_bool_iff.
Qed.

Lemma Qeq_bool_false (x y : Q) : Qeq_bool x y = false ↔ ¬ (x == y)%Q.
Proof.
  split.
  - intros Hb Heq. apply Qeq_bool_iff in Heq. congruence.
  - intros Hne. destruct (Qeq_bool x y) eqn:Hb; [|done].
    by apply Qeq_bool_iff in Hb.
Qed.

Lemma fgtb_Fin (a : float) (t : Q) :
  fgtb a (Fin t) = true ↔ ∃ s, a = Fin s ∧ (t < s)%Q.
Proof.
  destruct a as [s|]; simpl.
  - rewrite Qlt_bool_iff. split; [eauto|]. by intros (? & [= <-] & ?).
  - split; [done|]. by intros (? & ? & ?).
Qed.

Lemma py_div_Some (x y : Q) : ¬ (y == 0)%Q → py_div x y = Some (x / y)%Q.
Proof. intros Hy. unfold py_div. by rewrite (proj2 (Qeq_bool_false _ _) Hy). Qed.

(** A division whose divisor does not compare equal to zero succeeds. *)
Lemma fdiv_is_Some (a b : float) : feqb b (Fin 0) = false → is_Some (fdiv a b).
Proof.
  destruct b as [y|]; simpl; [|by eauto].
  intros ->. eauto.
Qed.

Lemma Qdiv_nonneg (x y : Q) : (0 <= x)%Q → (0 < y)%Q → (0 <= x / y)%Q.
Proof.
  intros Hx Hy. apply Qle_shift_div_l; [done|]. by rewrite Qmult_0_l.
Qed.

Lemma round_half_even_nonneg (q : Q) : (0 <= q)%Q → (0 ≤ round_half_even q)%Z.
Proof.
  intros Hq. unfold round_half_even. cbv zeta.
  pose proof (Qfloor_resp_le _ _ Hq) as Hf. change (Qfloor 0) with 0%Z in Hf.
  destruct (_ ?= _)%Q; [destruct (Z.even _)|..]; lia.
Qed.

Lemma pow10_pos (n : nat) : (0 < pow10 n)%Q.
Proof.
  unfold pow10. change 0%Q with (inject_Z 0). rewrite <- Zlt_Qlt.
  apply Z.pow_pos_nonneg; lia.
Qed.

(** Rounding a non-negative number gives a non-negative number. *)
Lemma py_round_nonneg (q : Q) (ndigits : nat) :
  (0 <= q)%Q → (0 <= py_round q ndigits)%Q.
Proof.
  intros Hq. unfold py_round. apply Qdiv_nonneg; [|apply pow10_pos].
  change 0%Q with (inject_Z 0). rewrite <- Zle_Qle.
  apply round_half_even_nonneg. apply Qmult_le_0_compat; [done|].
  apply Qlt_le_weak, pow10_pos.
Qed.

(** *** The sort *)

Context {A : Type} (leb : A → A → bool).

Lemma insert_by_Permutation (x : A) (l : list A) :
  insert_by leb x l ≡ₚ x :: l.
Proof.
  induction l as [|y l IH]; simpl; [done|].
  destruct (leb x y); [done|]. rewrite IH. apply Permutation_swap.
Qed.

Lemma sort_by_Permutation (l : list A) : sort_by leb l ≡ₚ l.
Proof.
  induction l as [|x l IH]; simpl; [done|].
  rewrite insert_by_Permutation. by f_equiv.
Qed.

Lemma elem_of_sort_by (x : A) (l : list A) : x ∈ sort_by leb l ↔ x ∈ l.
Proof. by rewrite sort_by_Permutation. Qed.

Hypothesis leb_total : ∀ x y, leb x y = true ∨ leb y x = true.

Lemma insert_by_Sorted (x : A) (l : list A) :
  Sorted (λ a b, leb a b = true) l →
  Sorted (λ a b, leb a b = true) (insert_by leb x l).
Proof.
  induction 1 as [|y l Hs IH Hhd]; simpl; [by repeat constructor|].
  destruct (leb x y) eqn:Hxy.
  - by repeat constructor.
  - assert (leb y x = true) as Hyx
      by (destruct (leb_total x y); [congruence|done]).
    constructor; [done|].
    destruct l as [|z l]; simpl in *; [by constructor|].
    destruct (leb x z); constructor; [done|].
    by inversion Hhd.
Qed.

Lemma sort_by_Sorted (l : list A) :
  Sorted (λ a b, leb a b = true) (sort_by leb l).
Proof.
  induction l as [|x l IH]; simpl; [constructor|].
  by apply insert_by_Sorted.
Qed.

End py_facts.

(** *** Rounding *)

Section rounding.

Lemma round_half_even_error (y : Q) :
  (Qabs (inject_Z (round_half_even y) - y) <= 1 # 2)%Q.
Proof.
  unfold round_half_even. cbv zeta.
  pose proof (Qfloor_le y) as Hlo. pose proof (Qlt_floor y) as Hhi.
  rewrite inject_Z_plus in Hhi. change (inject_Z 1) with 1%Q in Hhi.
  apply Qabs_Qle_condition.
  destruct (y - inject_Z (Qfloor y) ?= 1 # 2)%Q eqn:Hc.
  - apply Qeq_alt in Hc. destruct (Z.even (Qfloor y)).
    + split; lra.
    + rewrite inject_Z_plus. change (inject_Z 1) with 1%Q. split; lra.
  - apply Qlt_alt in Hc. split; lra.
  - apply Qgt_alt in Hc. rewrite inject_Z_plus.
    change (inject_Z 1) with 1%Q. split; lra.
Qed.

Lemma pow10_nonzero (n : nat) : ¬ (pow10 n == 0)%Q.
Proof.
  intros Hz. pose proof (pow10_pos n) as Hpos. rewrite Hz in Hpos.
  by apply Qlt_irrefl in Hpos.
Qed.

(** [round(x, n)] is within half a unit of the [n]-th decimal of [x]. *)
Lemma py_round_error (q : Q) (ndigits : nat) :
  (Qabs (py_round q ndigits - q) <= (1 # 2) / pow10 ndigits)%Q.
Proof.
  unfold py_round. set (p := pow10 ndigits).
  pose proof (pow10_pos ndigits) as Hp. fold p in Hp.
  assert (¬ (p == 0)%Q) as Hnz by apply pow10_nonzero.
  set (r := inject_Z (round_half_even (q * p))).
  assert ((r / p - q == (r - q * p) / p)%Q) as -> by (by field).
  unfold Qdiv at 1. rewrite Qabs_Qmult.
  rewrite (Qabs_pos (/ p)) by (apply Qlt_le_weak, Qinv_lt_0_compat, Hp).
  apply Qmult_le_compat_r; [apply round_half_even_error|].
  apply Qlt_le_weak, Qinv_lt_0_compat, Hp.
Qed.

Lemma round_half_even_le (y : Q) (z : Z) :
  (y <= inject_Z z)%Q → (round_half_even y ≤ z)%Z.
Proof.
  intros Hy. unfold round_half_even. cbv zeta.
  pose proof (Qfloor_le y) as Hlo.
  pose proof (Qfloor_resp_le _ _ Hy) as Hf. rewrite Qfloor_Z in Hf.
  destruct (y - inject_Z (Qfloor y) ?= 1 # 2)%Q eqn:Hc; [|done|].
  - apply Qeq_alt in Hc.
    assert (Qfloor y ≠ z) as Hne.
    { intros Heq. rewrite Heq in Hc. lra. }
    destruct (Z.even _); lia.
  - apply Qgt_alt in Hc.
    assert (Qfloor y ≠ z) as Hne.
    { intros Heq. rewrite Heq in Hc. lra. }
    lia.
Qed.

Lemma round_half_even_ge (y : Q) (z : Z) :
  (inject_Z z <= y)%Q → (z ≤ round_half_even y)%Z.
Proof.
  intros Hy. unfold round_half_even. cbv zeta.
  pose proof (Qfloor_resp_le _ _ Hy) as Hf. rewrite Qfloor_Z in Hf.
  destruct (_ ?= _)%Q; [destruct (Z.even _)|..]; lia.
Qed.

(** Rounding keeps a number on its side of a bound that has itself no more
    than [n] decimals. *)
Lemma py_round_le (q : Q) (ndigits : nat) (z : Z) :
  (q <= inject_Z z / pow10 ndigits)%Q →
  (py_round q ndigits <= inject_Z z / pow10 ndigits)%Q.
Proof.
  intros Hq. pose proof (pow10_pos ndigits) as Hp. unfold py_round.
  apply Qmult_le_compat_r; [|apply Qlt_le_weak, Qinv_lt_0_compat, Hp].
  rewrite <- Zle_Qle. apply round_half_even_le.
  apply (Qmult_le_compat_r _ _ (pow10 ndigits)) in Hq;
    [|by apply Qlt_le_weak].
  assert ((inject_Z z / pow10 ndigits * pow10 ndigits == inject_Z z)%Q) as Hz
    by (field; apply pow10_nonzero).
  by rewrite Hz in Hq.
Qed.

Lemma py_round_ge (q : Q) (ndigits : nat) (z : Z) :
  (inject_Z z / pow10 ndigits <= q)%Q →
  (inject_Z z / pow10 ndigits <= py_round q ndigits)%Q.
Proof.
  intros Hq. pose proof (pow10_pos ndigits) as Hp. unfold py_round.
  apply Qmult_le_compat_r; [|apply Qlt_le_weak, Qinv_lt_0_compat, Hp].
  rewrite <- Zle_Qle. apply round_half_even_ge.
  apply (Qmult_le_compat_r _ _ (pow10 ndigits)) in Hq;
    [|by apply Qlt_le_weak].
  assert ((inject_Z z / pow10 ndigits * pow10 ndigits == inject_Z z)%Q) as Hz
    by (field; apply pow10_nonzero).
  by rewrite Hz in Hq.
Qed.

End rounding.

(** *** Medians of non-negative values *)

Lemma nth_nonneg (s : list Q) (i : nat) :
  Forall (λ x, 0 <= x)%Q s → (0 <= nth i s 0)%Q.
Proof.
  intros Hs. revert i.
  induction Hs as [|x s Hx Hs IH]; intros [|i]; simpl; auto; done.
Qed.

Lemma median_sorted_nonneg (s : list Q) (m : Q) :
  Forall (λ x, 0 <= x)%Q s → median_sorted s = Fin m → (0 <= m)%Q.
Proof.
  intros Hs. unfold median_sorted.
  destruct (length s =? 0)%nat; [done|].
  destruct (Nat.odd (length s)); intros [= <-].
  - by apply nth_nonneg.
  - apply Qdiv_nonneg; [|done].
    apply (Qplus_le_compat 0 _ 0 _); by apply nth_nonneg.
Qed.

Lemma pd_median_nonneg (l : list Q) (m : Q) :
  Forall (λ x, 0 <= x)%Q l → pd_median l = Fin m → (0 <= m)%Q.
Proof.
  intros Hl. apply median_sorted_nonneg.
  by rewrite sort_by_Permutation.
Qed.

(** The median of absolute deviations is never negative. *)
Lemma mad_nonneg (baseline : float) (hv : list Q) (m : Q) :
  np_median ((λ v, fabs (fsub (Fin v) baseline)) <$> hv) = Fin m →
  (0 <= m)%Q.
Proof.
  unfold np_median, finite_values.
  destruct (mapM _ _) as [qs|] eqn:Hqs; [|done].
  apply pd_median_nonneg.
  apply mapM_Some in Hqs. clear m.
  revert qs Hqs. induction hv as [|v hv IH]; intros qs Hqs.
  - inversion Hqs. constructor.
  - rewrite fmap_cons in Hqs. inversion Hqs as [|a q ? qs' Hq Hqs']; subst.
    constructor; [|by apply IH].
    destruct baseline as [b|]; cbn [fabs fsub] in Hq; [|done].
    assert (q = Qabs (v - b)) as -> by congruence. apply Qabs_nonneg.
Qed.

Lemma fdiv_fabs_nonneg (a : float) (d s : Q) :
  (0 < d)%Q → fdiv (fabs a) (Fin d) = Some (Fin s) → (0 <= s)%Q.
Proof.
  intros Hd. simpl. destruct (Qeq_bool d 0); [done|].
  destruct a as [x|]; simpl; [|done].
  intros [= <-]. apply Qdiv_nonneg; [apply Qabs_nonneg|done].
Qed.

(** ** The anomaly scorer *)

Section anomaly_facts.
Import Anomaly Spec.
Context `{Sqrt}.

Implicit Types (values rest group : list kpi_row) (current : kpi_row).
Implicit Types (threshold : Q) (window_days min_history : Z).
Implicit Types (lookup : gmap (string * Z) (option string)).

(** No pass of the loop divides by zero. *)
Lemma score_index_is_Some window_days min_history values idx current :
  is_Some (score_index window_days min_history values idx current).
Proof.
  unfold score_index.
  destruct (_ <? _)%Z; [by eauto|].
  destruct (_ <? _)%Z; [by eauto|].
  cbv zeta.
  set (baseline := pd_median _). set (mad := np_median _).
  set (dev := fabs _).
  assert (∀ den, feqb den (Fin 0) = false →
    is_Some (score ← fdiv dev den; Some (Scored baseline score))) as Hden.
  { intros den Hz. destruct (fdiv_is_Some dev den Hz) as [sc ->]. by eauto. }
  destruct (feqb mad (Fin 0)) eqn:Hmad.
  - apply Hden. destruct (fgtb (pd_std _) (Fin 0)) eqn:Hstd; [|done].
    apply fgtb_Fin in Hstd as (d & -> & Hd). simpl.
    apply Qeq_bool_false. intros Hz. rewrite Hz in Hd.
    by apply Qlt_irrefl in Hd.
  - apply Hden. destruct mad as [m|]; simpl in *; [|done].
    apply Qeq_bool_false. apply Qeq_bool_false in Hmad.
    intros Hz. apply Hmad.
    apply Qmult_integral in Hz as [Hz|Hz]; [done|exact Hz].
Qed.

(** What a scored index satisfies: both history guards passed, and the
    score is not negative. *)
Lemma score_index_Scored window_days min_history values idx current b sc :
  score_index window_days min_history values idx current = Some (Scored b sc) →
  (min_history ≤ Z.of_nat idx)%Z ∧
  (min_history ≤ Z.of_nat (length (trailing_window window_days values idx)))%Z ∧
  b = pd_median (value <$> trailing_window window_days values idx) ∧
  ∀ s, sc = Fin s → (0 <= s)%Q.
Proof.
  unfold score_index.
  destruct (Z.ltb_spec (Z.of_nat idx) min_history); [done|].
  destruct (Z.ltb_spec
    (Z.of_nat (length (trailing_window window_days values idx))) min_history);
    [done|].
  cbv zeta.
  set (hv := value <$> _). set (baseline := pd_median _).
  set (mad := np_median _).
  intros Hsc. split_and!; [done|done| |].
  - destruct (feqb mad (Fin 0)); destruct (fdiv _ _); by simplify_eq/=.
  - intros s ->. destruct (feqb mad (Fin 0)) eqn:Hmad.
    + destruct (fgtb (pd_std hv) (Fin 0)) eqn:Hstd.
      * apply fgtb_Fin in Hstd as (d & Hd & Hpos). rewrite Hd in Hsc.
        destruct (fdiv _ (Fin d)) as [sc|] eqn:Hdiv;
          cbn [mbind option_bind] in Hsc; simplify_eq.
        eapply fdiv_fabs_nonneg; [|exact Hdiv]; done || reflexivity.
      * destruct (fdiv _ (Fin 1e-9)) as [sc|] eqn:Hdiv;
          cbn [mbind option_bind] in Hsc; simplify_eq.
        eapply fdiv_fabs_nonneg; [|exact Hdiv]; done || reflexivity.
    + destruct mad as [m|] eqn:Hm; simpl in Hmad.
      * destruct (fdiv _ (fmul _ _)) as [sc|] eqn:Hdiv;
          cbn [mbind option_bind] in Hsc; simplify_eq.
        eapply fdiv_fabs_nonneg; [|exact Hdiv].
        apply Qeq_bool_false in Hmad.
        pose proof (mad_nonneg _ _ _ Hm) as Hge.
        apply Qmult_lt_0_compat; [done|].
        apply Qle_lteq in Hge as [Hlt|Heq]; [done|].
        exfalso. apply Hmad. by symmetry.
      * simpl in Hsc. simplify_eq/=.
Qed.

Lemma scan_series_is_Some threshold window_days min_history lookup now name
    values idx rest :
  is_Some (scan_series threshold window_days min_history lookup now name
             values idx rest).
Proof.
  revert idx. induction rest as [|current rest IH]; intros idx; simpl.
  - by eauto.
  - destruct (score_index_is_Some window_days min_history values idx current)
      as [s ->].
    destruct (IH (S idx)) as [out ->]. simpl. by eauto.
Qed.

Lemma scan_groups_is_Some threshold window_days min_history lookup now groups :
  is_Some (scan_groups threshold window_days min_history lookup now groups).
Proof.
  induction groups as [|[name group] groups [out2 IH]]; simpl.
  - by eauto.
  - destruct (scan_series_is_Some threshold window_days min_history lookup now
                name (sort_by date_leb group) 0 (sort_by date_leb group))
      as [out1 ->].
    rewrite IH. simpl. by eauto.
Qed.

Lemma drop_cons_inv {A} (l rest : list A) (x : A) (i : nat) :
  drop i l = x :: rest → l !! i = Some x ∧ drop (S i) l = rest.
Proof.
  intros Hd. split.
  - rewrite <- (Nat.add_0_r i), <- lookup_drop. by rewrite Hd.
  - replace (S i) with (i + 1)%nat by lia.
    rewrite <- drop_drop. by rewrite Hd.
Qed.

Lemma scan_series_elem threshold window_days min_history lookup now name
    values idx rest out r :
  scan_series threshold window_days min_history lookup now name values idx rest
    = Some out →
  drop idx values = rest →
  r ∈ out →
  flagged_at threshold window_days min_history lookup now name values r.
Proof.
  revert idx out. induction rest as [|current rest IH]; intros idx out; simpl.
  - intros [= <-] _ Hr. by apply elem_of_nil in Hr.
  - destruct (score_index _ _ _ _ _) as [s|] eqn:Hs; [|done]. simpl.
    destruct (scan_series _ _ _ _ _ _ _ _ _) as [out'|] eqn:Hout; [|done].
    simpl. intros [= <-] Hdrop Hr.
    apply drop_cons_inv in Hdrop as [Hidx Hdrop].
    apply elem_of_app in Hr as [Hr|Hr]; [|by eapply IH].
    destruct s as [|baseline sc]; simpl in Hr; [by apply elem_of_nil in Hr|].
    destruct (fgtb sc (Fin threshold)) eqn:Hgt; [|by apply elem_of_nil in Hr].
    apply list_elem_of_singleton in Hr as ->.
    apply fgtb_Fin in Hgt as (score & -> & Hlt).
    by exists idx, current, baseline, score.
Qed.

Lemma scan_groups_elem threshold window_days min_history lookup now groups out r :
  scan_groups threshold window_days min_history lookup now groups = Some out →
  r ∈ out →
  ∃ name group,
    (name, group) ∈ groups ∧
    flagged_at threshold window_days min_history lookup now name
      (sort_by date_leb group) r.
Proof.
  revert out. induction groups as [|[name group] groups IH]; intros out; simpl.
  - intros [= <-] Hr. by apply elem_of_nil in Hr.
  - destruct (scan_series _ _ _ _ _ _ _ _ _) as [out1|] eqn:Hout1; [|done].
    simpl. destruct (scan_groups _ _ _ _ _ _) as [out2|] eqn:Hout2; [|done].
    simpl. intros [= <-] Hr.
    apply elem_of_app in Hr as [Hr|Hr].
    + exists name, group. split; [by left|].
      by eapply scan_series_elem.
    + destruct (IH out2 eq_refl Hr) as (name' & group' & Hin & Hfl).
      exists name', group'. split; [by right|done].
Qed.

Lemma recompute_anomalies_unfold conn threshold window_days min_history
    kpi_names now :
  recompute_anomalies conn threshold window_days min_history kpi_names now =
  match read_kpi_frame conn kpi_names with
  | [] => Some ([], conn)
  | frame =>
      out ← scan_groups threshold window_days min_history
              (_load_scenario_lookup conn) now (groupby_kpi_name frame);
      Some (out, replaced conn out)
  end.
Proof.
  unfold recompute_anomalies. by destruct (read_kpi_frame conn kpi_names).
Qed.

Lemma anomalies_replaced conn out : anomalies (replaced conn out) = out.
Proof. by destruct out. Qed.

(** The call never raises. *)
Lemma recompute_anomalies_is_Some conn threshold window_days min_history
    kpi_names now :
  is_Some (recompute_anomalies conn threshold window_days min_history
             kpi_names now).
Proof.
  rewrite recompute_anomalies_unfold.
  destruct (read_kpi_frame conn kpi_names) as [|row frame]; [by eauto|].
  destruct (scan_groups_is_Some threshold window_days min_history
              (_load_scenario_lookup conn) now
              (groupby_kpi_name (row :: frame))) as [out ->].
  simpl. by eauto.
Qed.

End anomaly_facts.

Section scorer_properties.
Import Anomaly Spec.
Context `{Sqrt}.

(** An index whose trailing window is too short is skipped. *)
Lemma short_history_skipped window_days min_history (values : list kpi_row)
    (idx : nat) (current : kpi_row) :
  (Z.of_nat (length (trailing_window window_days values idx)) < min_history)%Z →
  score_index window_days min_history values idx current = Some Skipped.
Proof.
  intros Hshort. unfold score_index.
  destruct (_ <? _)%Z; [done|].
  by destruct (Z.ltb_spec
    (Z.of_nat (length (trailing_window window_days values idx))) min_history);
    [|lia].
Qed.

(** C6, amended. Every record returned by [recompute_anomalies] was made
    for a day of a KPI series whose computed score is not negative and
    strictly above the threshold, and whose trailing window holds at least
    [min_history] observations; the call itself always returns. The score
    the record stores is the computed score rounded to four decimals: it is
    not negative, it is strictly above the threshold less 0.00005, and it
    is at least the threshold when the threshold has no more than four
    decimals; it need not be strictly above the threshold. An index with
    fewer observations in its window is skipped: it gets no score, so no
    record. *)
Theorem flagged_records_exceed_threshold (conn : connection) (threshold : Q)
    (window_days min_history : Z) (kpi_names : option (list string))
    (now : string) :
  (∃ out conn',
     recompute_anomalies conn threshold window_days min_history kpi_names now
       = Some (out, conn') ∧
     ∀ r, r ∈ out →
       ∃ group idx current baseline score,
         (a_kpi_name r, group)
           ∈ groupby_kpi_name (read_kpi_frame conn kpi_names) ∧
         sort_by date_leb group !! idx = Some current ∧
         a_date r = date current ∧
         score_index window_days min_history (sort_by date_leb group) idx current
           = Some (Scored baseline (Fin score)) ∧
         (0 <= score)%Q ∧
         (threshold < score)%Q ∧
         a_score r = Fin (py_round score 4) ∧
         (0 <= py_round score 4)%Q ∧
         (threshold - 0.00005 < py_round score 4)%Q ∧
         (∀ z, (threshold == inject_Z z / pow10 4)%Q →
               (threshold <= py_round score 4)%Q) ∧
         (min_history ≤ Z.of_nat (length
            (trailing_window window_days (sort_by date_leb group) idx)))%Z) ∧
  (∀ values idx current,
     (Z.of_nat (length (trailing_window window_days values idx))
        < min_history)%Z →
     score_index window_days min_history values idx current = Some Skipped).
Proof.
  split; [|apply short_history_skipped].
  destruct (recompute_anomalies_is_Some conn threshold window_days min_history
              kpi_names now) as [[out conn'] Hrun].
  exists out, conn'. split; [done|].
  rewrite recompute_anomalies_unfold in Hrun.
  destruct (read_kpi_frame conn kpi_names) as [|row frame] eqn:Hframe.
  { injection Hrun as <- <-. intros r Hr. by apply elem_of_nil in Hr. }
  destruct (scan_groups _ _ _ _ _ _) as [out'|] eqn:Hscan; [|done].
  injection Hrun as <- <-. intros r Hr.
  destruct (scan_groups_elem _ _ _ _ _ _ _ _ Hscan Hr)
    as (name & group & Hgroup & idx & current & baseline & score
        & Hidx & Hscore & Hlt & ->).
  exists group, idx, current, baseline, score.
  destruct (score_index_Scored _ _ _ _ _ _ _ Hscore) as (_ & Hwin & _ & Hpos).
  specialize (Hpos score eq_refl).
  split_and!; try done.
  - by apply py_round_nonneg.
  - pose proof (py_round_error score 4) as Herr.
    assert (((1 # 2) / pow10 4 == 0.00005)%Q) as E by reflexivity.
    rewrite E in Herr. apply Qabs_Qle_condition in Herr as [Hlo _]. lra.
  - intros z Hz. rewrite Hz. apply py_round_ge. rewrite <- Hz.
    by apply Qlt_le_weak.
Qed.

Lemma flag_threshold_sublist (t1 t2 : Q) lookup (now name : string)
    (current : kpi_row) (s : scoring) :
  (t1 <= t2)%Q →
  flag t2 lookup now name current s `sublist_of` flag t1 lookup now name current s.
Proof.
  intros Hle. destruct s as [|baseline sc]; simpl; [done|].
  destruct (fgtb sc (Fin t2)) eqn:H2; [|apply sublist_nil_l].
  apply fgtb_Fin in H2 as (s & -> & Hlt).
  assert (fgtb (Fin s) (Fin t1) = true) as ->; [|done].
  apply fgtb_Fin. exists s. split; [done|]. by eapply Qle_lt_trans.
Qed.

Lemma scan_series_threshold (t1 t2 : Q) window_days min_history lookup
    (now name : string) values idx rest out1 out2 :
  (t1 <= t2)%Q →
  scan_series t1 window_days min_history lookup now name values idx rest
    = Some out1 →
  scan_series t2 window_days min_history lookup now name values idx rest
    = Some out2 →
  out2 `sublist_of` out1.
Proof.
  intros Hle. revert idx out1 out2.
  induction rest as [|current rest IH]; intros idx out1 out2; simpl.
  - by intros [= <-] [= <-].
  - destruct (score_index _ _ _ _ _) as [s|]; [|done]. simpl.
    destruct (scan_series t1 _ _ _ _ _ _ _ _) as [o1|] eqn:H1; [|done].
    destruct (scan_series t2 _ _ _ _ _ _ _ _) as [o2|] eqn:H2; [|done].
    simpl. intros [= <-] [= <-].
    apply sublist_app; [by apply flag_threshold_sublist|by eapply IH].
Qed.

Lemma scan_groups_threshold (t1 t2 : Q) window_days min_history lookup
    (now : string) groups out1 out2 :
  (t1 <= t2)%Q →
  scan_groups t1 window_days min_history lookup now groups = Some out1 →
  scan_groups t2 window_days min_history lookup now groups = Some out2 →
  out2 `sublist_of` out1.
Proof.
  intros Hle. revert out1 out2.
  induction groups as [|[name group] groups IH]; intros out1 out2; simpl.
  - by intros [= <-] [= <-].
  - destruct (scan_series t1 _ _ _ _ _ _ _ _) as [a1|] eqn:Ha1; [|done].
    destruct (scan_series t2 _ _ _ _ _ _ _ _) as [a2|] eqn:Ha2; [|done].
    simpl.
    destruct (scan_groups t1 _ _ _ _ _) as [b1|] eqn:Hb1; [|done].
    destruct (scan_groups t2 _ _ _ _ _) as [b2|] eqn:Hb2; [|done].
    simpl. intros [= <-] [= <-].
    apply sublist_app; [by eapply scan_series_threshold|by eapply IH].
Qed.

(** C9. For the same store, window, minimum history and filter, and
    thresholds [t1 <= t2], the records flagged at [t2] are a sublist of
    those flagged at [t1]: the flagged days at [t2] are among the flagged
    days at [t1], and there are no more of them. *)
Theorem threshold_monotone (conn : connection) (t1 t2 : Q)
    (window_days min_history : Z) (kpi_names : option (list string))
    (now : string) :
  (t1 <= t2)%Q →
  ∃ out1 conn1 out2 conn2,
    recompute_anomalies conn t1 window_days min_history kpi_names now
      = Some (out1, conn1) ∧
    recompute_anomalies conn t2 window_days min_history kpi_names now
      = Some (out2, conn2) ∧
    out2 `sublist_of` out1 ∧
    flagged_days out2 ⊆ flagged_days out1 ∧
    length out2 ≤ length out1.
Proof.
  intros Hle.
  destruct (recompute_anomalies_is_Some conn t1 window_days min_history
              kpi_names now) as [[out1 conn1] Hrun1].
  destruct (recompute_anomalies_is_Some conn t2 window_days min_history
              kpi_names now) as [[out2 conn2] Hrun2].
  exists out1, conn1, out2, conn2.
  assert (out2 `sublist_of` out1) as Hsub.
  { rewrite recompute_anomalies_unfold in Hrun1, Hrun2.
    destruct (read_kpi_frame conn kpi_names) as [|row frame].
    - by simplify_eq.
    - destruct (scan_groups t1 _ _ _ _ _) as [o1|] eqn:H1; [|done].
      destruct (scan_groups t2 _ _ _ _ _) as [o2|] eqn:H2; [|done].
      simpl in *. simplify_eq. by eapply scan_groups_threshold. }
  split_and!; [done|done|done| |by apply sublist_length].
  apply sublist_subseteq. unfold flagged_days. by apply fmap_sublist.
Qed.

End scorer_properties.

Lemma sqrt_down_nonneg (x : Q) : (0 <= sqrt_down x)%Q.
Proof.
  unfold sqrt_down. destruct (Qle_bool x 0); [apply Qle_refl|].
  apply Qdiv_nonneg.
  - change 0%Q with (inject_Z 0). rewrite <- Zle_Qle. apply Z.sqrt_nonneg.
  - change 0%Q with (inject_Z 0). rewrite <- Zlt_Qlt.
    apply Z.mul_pos_pos; [apply Pos2Z.is_pos|done].
Qed.

Section score_formula.
Import Anomaly Spec.
Context `{Sqrt}.

Lemma length_trailing_window window_days (values : list kpi_row) (idx : nat) :
  length (trailing_window window_days values idx) ≤ idx.
Proof.
  unfold trailing_window, iloc_slice. rewrite length_take. lia.
Qed.

(** The window holds the observations at the positions
    [max(0, idx - window_days)] up to, and without, [idx]. *)
Lemma trailing_window_lookup window_days (values : list kpi_row) (idx j : nat) :
  idx ≤ length values →
  let start := Z.to_nat (Z.max 0 (Z.of_nat idx - window_days)) in
  trailing_window window_days values idx !! j =
    if decide (start + j < idx)%nat then values !! (start + j)%nat else None.
Proof.
  intros Hidx start. unfold trailing_window, iloc_slice. fold start.
  destruct (decide (start + j < idx)%nat) as [Hlt|Hge].
  - rewrite lookup_take_lt by lia. by rewrite lookup_drop.
  - apply lookup_ge_None. rewrite length_take, length_drop. lia.
Qed.

(** With a square root that is never negative, "[std] if [std > 0] else
    epsilon" and "epsilon if [std] is 0, else [std]" agree wherever the
    code reaches them. *)
Lemma denominator_agrees (hv : list Q) :
  (∀ x, 0 <= fsqrt x)%Q →
  hv ≠ [] →
  (if fgtb (pd_std hv) (Fin 0) then pd_std hv else Fin 1e-9) =
  (if feqb (pd_std hv) (Fin 0) then Fin 1e-9 else pd_std hv).
Proof.
  intros Hsqrt Hhv. destruct hv as [|v hv]; [done|].
  unfold pd_std. set (d := fsqrt _). simpl.
  destruct (Qlt_bool 0 d) eqn:Hpos.
  - apply Qlt_bool_iff in Hpos.
    assert (Qeq_bool d 0 = false) as ->; [|done].
    apply Qeq_bool_false. intros Hz. rewrite Hz in Hpos.
    by apply Qlt_irrefl in Hpos.
  - apply Qlt_bool_false in Hpos.
    assert (Qeq_bool d 0 = true) as ->; [|done].
    apply Qeq_bool_iff. apply Qle_antisym; [done|apply Hsqrt].
Qed.

(** C2. At an index whose trailing window holds at least [min_history]
    observations, the loop scores the day: the baseline is the median of
    the window values, and the score is the one of the formula, with the
    median of absolute deviations scaled by 1.4826 as the denominator,
    the population standard deviation when that median is 0, and 1e-9
    when the deviation is 0 as well. The square root is assumed to be
    never negative. The window is the run of observations at the positions
    from [max(0, idx - window_days)] up to [idx], [idx] left out. *)
Theorem score_matches_formula (window_days min_history : Z)
    (values : list kpi_row) (idx : nat) (current : kpi_row) :
  (∀ x, 0 <= fsqrt x)%Q →
  (min_history ≤ Z.of_nat (length (trailing_window window_days values idx)))%Z →
  let window := value <$> trailing_window window_days values idx in
  (∃ score,
     spec_score window (value current) = Some score ∧
     score_index window_days min_history values idx current
       = Some (Scored (spec_baseline window) score)) ∧
  (idx ≤ length values →
   let start := Z.to_nat (Z.max 0 (Z.of_nat idx - window_days)) in
   ∀ j, trailing_window window_days values idx !! j =
        if decide (start + j < idx)%nat then values !! (start + j)%nat
        else None).
Proof.
  intros Hsqrt Hwin window.
  split; [|intros Hidx start j; by apply trailing_window_lookup].
  pose proof (length_trailing_window window_days values idx) as Hlen.
  pose proof (score_index_is_Some window_days min_history values idx current)
    as [s Hs].
  revert Hs. unfold score_index.
  destruct (Z.ltb_spec (Z.of_nat idx) min_history); [lia|].
  destruct (Z.ltb_spec
    (Z.of_nat (length (trailing_window window_days values idx))) min_history);
    [lia|].
  cbv zeta. fold window.
  unfold spec_score, spec_denominator, spec_mad, spec_baseline.
  set (mad := np_median _). set (dev := fabs _).
  assert (feqb mad (Fin 0) = true → window ≠ []) as Hne.
  { intros Hmad Hw. unfold mad in Hmad. by rewrite Hw in Hmad. }
  destruct (feqb mad (Fin 0)) eqn:Hmad.
  - rewrite (denominator_agrees window Hsqrt (Hne eq_refl)).
    destruct (fdiv dev _) as [score|]; [|done]. by eauto.
  - destruct (fdiv dev _) as [score|]; [|done]. by eauto.
Qed.

End score_formula.

(** The formula at the fourth day of a series of four, window 2. *)
Lemma score_matches_formula_sample :
  let values :=
    [ Examples.obs "sla_breach_rate_pct" 1 1;
      Examples.obs "sla_breach_rate_pct" 2 1;
      Examples.obs "sla_breach_rate_pct" 3 2;
      Examples.obs "sla_breach_rate_pct" 4 10 ] in
  let window := value <$> Anomaly.trailing_window 2 values 3 in
  (∃ score,
     Spec.spec_score (H:=sqrt_down) window 10 = Some score ∧
     Anomaly.score_index (H:=sqrt_down) 2 2 values 3
       (Examples.obs "sla_breach_rate_pct" 4 10)
       = Some (Anomaly.Scored (Spec.spec_baseline window) score)) ∧
  (3 ≤ length values →
   let start := Z.to_nat (Z.max 0 (Z.of_nat 3 - 2)) in
   ∀ j, Anomaly.trailing_window 2 values 3 !! j =
        if decide (start + j < 3)%nat then values !! (start + j)%nat
        else None).
Proof.
  apply (score_matches_formula (H:=sqrt_down) 2 2 _ 3
           (Examples.obs "sla_breach_rate_pct" 4 10)).
  - apply sqrt_down_nonneg.
  - vm_compute. discriminate.
Defined.

(** Thresholds 3 and 5 on the sample store. *)
Lemma threshold_monotone_sample :
  ∃ out1 conn1 out2 conn2,
    Anomaly.recompute_anomalies (H:=sqrt_down) Examples.sample_conn 3 2 2 None
      "2026-02-10T09:00:00+00:00" = Some (out1, conn1) ∧
    Anomaly.recompute_anomalies (H:=sqrt_down) Examples.sample_conn 5 2 2 None
      "2026-02-10T09:00:00+00:00" = Some (out2, conn2) ∧
    out2 `sublist_of` out1 ∧
    Spec.flagged_days out2 ⊆ Spec.flagged_days out1 ∧
    length out2 ≤ length out1.
Proof.
  apply (threshold_monotone (H:=sqrt_down) Examples.sample_conn 3 5 2 2 None).
  vm_compute. discriminate.
Defined.

Section store_properties.
Import Anomaly Spec.
Context `{Sqrt}.

Lemma flag_clock threshold lookup (now1 now2 name : string)
    (current : kpi_row) (s : scoring) :
  flag threshold lookup now2 name current s =
  with_created_at now2 <$> flag threshold lookup now1 name current s.
Proof.
  destruct s as [|baseline sc]; simpl; [done|].
  by destruct (fgtb sc (Fin threshold)).
Qed.

Lemma scan_series_clock threshold window_days min_history lookup
    (now1 now2 name : string) values idx rest :
  scan_series threshold window_days min_history lookup now2 name values idx rest =
  restamp now2 <$>
    scan_series threshold window_days min_history lookup now1 name values idx rest.
Proof.
  revert idx. induction rest as [|current rest IH]; intros idx; simpl; [done|].
  destruct (score_index _ _ _ _ _) as [s|]; [|done]. simpl.
  rewrite IH.
  destruct (scan_series _ _ _ _ now1 _ _ _ _) as [out|]; [|done]. simpl.
  unfold restamp. by rewrite fmap_app, <- flag_clock.
Qed.

Lemma scan_groups_clock threshold window_days min_history lookup
    (now1 now2 : string) groups :
  scan_groups threshold window_days min_history lookup now2 groups =
  restamp now2 <$>
    scan_groups threshold window_days min_history lookup now1 groups.
Proof.
  induction groups as [|[name group] groups IH]; simpl; [done|].
  rewrite (scan_series_clock _ _ _ _ now1 now2).
  destruct (scan_series _ _ _ _ now1 _ _ _ _) as [out1|]; [|done]. simpl.
  rewrite IH.
  destruct (scan_groups _ _ _ _ now1 _) as [out2|]; [|done]. simpl.
  unfold restamp. by rewrite fmap_app.
Qed.

Lemma without_with_created_at (now : string) (out : list anomaly) :
  without_created_at <$> (with_created_at now <$> out) = without_created_at <$> out.
Proof. rewrite <- list_fmap_compose. by apply list_fmap_ext. Qed.

(** C3, amended. Two runs over the same store with the same parameters
    always return, and their records agree in every field but [created_at],
    which holds the clock reading of the run; so do the tables they leave
    behind. Under the same clock reading the two runs are identical. *)
Theorem recompute_deterministic_up_to_clock (conn : connection) (threshold : Q)
    (window_days min_history : Z) (kpi_names : option (list string))
    (now1 now2 : string) :
  ∃ out1 conn1 out2 conn2,
    recompute_anomalies conn threshold window_days min_history kpi_names now1
      = Some (out1, conn1) ∧
    recompute_anomalies conn threshold window_days min_history kpi_names now2
      = Some (out2, conn2) ∧
    out2 = with_created_at now2 <$> out1 ∧
    without_created_at <$> out1 = without_created_at <$> out2 ∧
    without_created_at <$> anomalies conn1
      = without_created_at <$> anomalies conn2 ∧
    (now1 = now2 → out1 = out2 ∧ conn1 = conn2).
Proof.
  destruct (recompute_anomalies_is_Some conn threshold window_days min_history
              kpi_names now1) as [[out1 conn1] Hrun1].
  exists out1, conn1.
  pose proof Hrun1 as Hrun1'.
  rewrite recompute_anomalies_unfold in Hrun1.
  rewrite !recompute_anomalies_unfold.
  destruct (read_kpi_frame conn kpi_names) as [|row frame].
  - injection Hrun1 as <- <-. exists [], conn.
    by split_and!.
  - rewrite (scan_groups_clock _ _ _ _ now1 now2).
    destruct (scan_groups _ _ _ _ now1 _) as [out|] eqn:Hscan; [|done].
    simpl in Hrun1. injection Hrun1 as <- <-.
    exists (with_created_at now2 <$> out),
           (replaced conn (with_created_at now2 <$> out)).
    split_and!; try done.
    + by rewrite without_with_created_at.
    + by rewrite !anomalies_replaced, without_with_created_at.
    + intros <-. rewrite recompute_anomalies_unfold in Hrun1'.
      assert (with_created_at now1 <$> out = out) as ->; [|done].
      destruct (read_kpi_frame conn kpi_names) as [|row' frame'].
      * by simplify_eq.
      * rewrite (scan_groups_clock _ _ _ _ now1 now1) in Hscan.
        destruct (scan_groups _ _ _ _ now1 _) as [out'|]; [|done].
        simpl in Hscan. injection Hscan as <-. unfold restamp.
        rewrite <- list_fmap_compose. by apply list_fmap_ext.
Qed.

Lemma groupby_kpi_name_elem (frame : list kpi_row) (name : string)
    (group : list kpi_row) :
  (name, group) ∈ groupby_kpi_name frame →
  ∃ row, row ∈ frame ∧ kpi_name row = name.
Proof.
  unfold groupby_kpi_name. intros Hin.
  apply list_elem_of_fmap in Hin as (k & [= -> ->] & Hk).
  rewrite elem_of_sort_by, elem_of_remove_dups in Hk.
  apply list_elem_of_fmap in Hk as (row & -> & Hrow). by exists row.
Qed.

Lemma read_kpi_frame_filtered (conn : connection) (n : string)
    (ns : list string) (row : kpi_row) :
  row ∈ read_kpi_frame conn (Some (n :: ns)) → kpi_name row ∈ n :: ns.
Proof.
  unfold read_kpi_frame. intros Hrow.
  rewrite elem_of_sort_by, list_elem_of_filter in Hrow. by destruct Hrow.
Qed.

(** C1, amended. A call that finds KPI rows to score, filtered or not,
    deletes the whole anomaly table and leaves in it exactly the records
    flagged by this call: it executes the delete, one insert of the flagged
    records when there are any, and the commit. Under a filter all these
    records belong to the selected KPIs, so no stored record of another
    KPI remains. The other tables are left as they were. *)
Theorem recompute_replaces_whole_table (conn : connection) (threshold : Q)
    (window_days min_history : Z) (kpi_names : option (list string))
    (now : string) :
  read_kpi_frame conn kpi_names ≠ [] →
  ∃ out conn',
    recompute_anomalies conn threshold window_days min_history kpi_names now
      = Some (out, conn') ∧
    anomalies conn' = out ∧
    executed conn conn'
      (DeleteFromAnomalies
         :: match out with [] => [] | _ => [InsertIntoAnomalies out] end
         ++ [Commit]) ∧
    (∀ n ns, kpi_names = Some (n :: ns) →
       ∀ r, r ∈ anomalies conn' → a_kpi_name r ∈ n :: ns) ∧
    fact_kpi_daily conn' = fact_kpi_daily conn ∧
    scenario_registry conn' = scenario_registry conn.
Proof.
  intros Hframe.
  destruct (recompute_anomalies_is_Some conn threshold window_days min_history
              kpi_names now) as [[out conn'] Hrun].
  exists out, conn'. split; [done|].
  rewrite recompute_anomalies_unfold in Hrun.
  destruct (read_kpi_frame conn kpi_names) as [|row frame] eqn:Hread; [done|].
  destruct (scan_groups _ _ _ _ _ _) as [out'|] eqn:Hscan; [|done].
  simpl in Hrun. injection Hrun as <- <-.
  split_and!.
  - apply anomalies_replaced.
  - unfold executed. destruct out'; simpl; by rewrite <- ?(assoc_L (++)).
  - intros n ns -> r. rewrite anomalies_replaced. intros Hr.
    destruct (scan_groups_elem _ _ _ _ _ _ _ _ Hscan Hr)
      as (name & group & Hgroup & idx & current & baseline & score
          & _ & _ & _ & ->).
    simpl. apply groupby_kpi_name_elem in Hgroup as (row' & Hrow' & <-).
    apply (read_kpi_frame_filtered conn). by rewrite Hread.
  - by destruct out'.
  - by destruct out'.
Qed.

Lemma read_kpi_frame_nil (conn : connection) (kpi_names : option (list string)) :
  (∀ row, row ∈ fact_kpi_daily conn →
     ∃ n ns, kpi_names = Some (n :: ns) ∧ kpi_name row ∉ n :: ns) →
  read_kpi_frame conn kpi_names = [].
Proof.
  intros Hnone. unfold read_kpi_frame.
  assert (match kpi_names with
          | Some (n :: ns) =>
              filter (λ r, kpi_name r ∈ n :: ns) (fact_kpi_daily conn)
          | _ => fact_kpi_daily conn
          end = []) as ->; [|done].
  destruct kpi_names as [[|n ns]|].
  - apply elem_of_nil_inv. intros row Hrow.
    by destruct (Hnone row Hrow) as (? & ? & ? & _).
  - apply elem_of_nil_inv. intros row [Hin Hrow]%list_elem_of_filter.
    destruct (Hnone row Hrow) as (n' & ns' & [= <- <-] & Hnot). done.
  - apply elem_of_nil_inv. intros row Hrow.
    by destruct (Hnone row Hrow) as (? & ? & ? & _).
Qed.

(** C4, amended. When no KPI observation matches the query, because the
    KPI table is empty or because the filter selects none of its rows, the
    call returns the empty list and leaves the connection as it was:
    neither the delete nor an insert is executed, and the anomaly table
    keeps its rows. *)
Theorem recompute_empty_frame (conn : connection) (threshold : Q)
    (window_days min_history : Z) (kpi_names : option (list string))
    (now : string) :
  (∀ row, row ∈ fact_kpi_daily conn →
     ∃ n ns, kpi_names = Some (n :: ns) ∧ kpi_name row ∉ n :: ns) →
  read_kpi_frame conn kpi_names = [] ∧
  recompute_anomalies conn threshold window_days min_history kpi_names now
    = Some ([], conn).
Proof.
  intros Hnone. pose proof (read_kpi_frame_nil conn kpi_names Hnone) as Hframe.
  split; [done|].
  rewrite recompute_anomalies_unfold. by rewrite Hframe.
Qed.

End store_properties.

(** The amended C1 on the sample store, filtered to one KPI. *)
Lemma recompute_replaces_whole_table_sample :
  Anomaly.read_kpi_frame Examples.sample_conn (Some ["sla_breach_rate_pct"]) ≠ [] ∧
  ∃ out conn',
    Anomaly.recompute_anomalies (H:=sqrt_down) Examples.sample_conn 3 2 2
      (Some ["sla_breach_rate_pct"]) "2026-02-10T09:00:00+00:00"
      = Some (out, conn') ∧
    anomalies conn' = out ∧
    Spec.executed Examples.sample_conn conn'
      (DeleteFromAnomalies
         :: match out with [] => [] | _ => [InsertIntoAnomalies out] end
         ++ [Commit]) ∧
    (∀ n ns, Some ["sla_breach_rate_pct"] = Some (n :: ns) →
       ∀ r, r ∈ anomalies conn' → a_kpi_name r ∈ n :: ns) ∧
    fact_kpi_daily conn' = fact_kpi_daily Examples.sample_conn ∧
    scenario_registry conn' = scenario_registry Examples.sample_conn.
Proof.
  assert (Anomaly.read_kpi_frame Examples.sample_conn
            (Some ["sla_breach_rate_pct"]) ≠ []) as Hframe.
  { vm_compute. discriminate. }
  split; [exact Hframe|].
  exact (recompute_replaces_whole_table (H:=sqrt_down) Examples.sample_conn
           3 2 2 (Some ["sla_breach_rate_pct"]) "2026-02-10T09:00:00+00:00"
           Hframe).
Defined.

(** C1 as stated fails: a run filtered to the SLA breach rate removes the
    stored anomaly of the exception rate, a KPI outside the filter. *)
Lemma filtered_run_drops_other_kpis :
  ∃ out conn',
    Anomaly.recompute_anomalies (H:=sqrt_down) Examples.sample_conn 3 2 2
      (Some ["sla_breach_rate_pct"]) "2026-02-10T09:00:00+00:00"
      = Some (out, conn') ∧
    ¬ Spec.unselected_kept ["sla_breach_rate_pct"] Examples.sample_conn conn'.
Proof.
  destruct (Anomaly.recompute_anomalies (H:=sqrt_down) Examples.sample_conn
              3 2 2 (Some ["sla_breach_rate_pct"]) "2026-02-10T09:00:00+00:00")
    as [[out conn']|] eqn:Hrun; vm_compute in Hrun; [|discriminate].
  exists out, conn'. split; [reflexivity|].
  injection Hrun as <- <-. intros Hkept.
  specialize (Hkept Examples.stale).
  assert (Examples.stale ∈ anomalies Examples.sample_conn) as Hold by (by left).
  assert (a_kpi_name Examples.stale ∉ ["sla_breach_rate_pct"]) as Hother.
  { intros Hin. apply list_elem_of_singleton in Hin. discriminate. }
  specialize (Hkept Hold Hother). simpl in Hkept.
  repeat (apply elem_of_cons in Hkept as [Hkept|Hkept]; [discriminate|]).
  by apply elem_of_nil in Hkept.
Qed.

(** C3 as stated fails: two runs over the same store with the same
    parameters, one second apart, return different records. *)
Lemma clock_reading_is_persisted :
  ∃ out1 conn1 out2 conn2,
    Anomaly.recompute_anomalies (H:=sqrt_down) Examples.sample_conn 3 2 2 None
      "2026-02-10T09:00:00+00:00" = Some (out1, conn1) ∧
    Anomaly.recompute_anomalies (H:=sqrt_down) Examples.sample_conn 3 2 2 None
      "2026-02-10T09:00:01+00:00" = Some (out2, conn2) ∧
    out1 ≠ out2 ∧
    anomalies conn1 ≠ anomalies conn2.
Proof.
  destruct (Anomaly.recompute_anomalies (H:=sqrt_down) Examples.sample_conn
              3 2 2 None "2026-02-10T09:00:00+00:00")
    as [[out1 conn1]|] eqn:Hrun1; vm_compute in Hrun1; [|discriminate].
  destruct (Anomaly.recompute_anomalies (H:=sqrt_down) Examples.sample_conn
              3 2 2 None "2026-02-10T09:00:01+00:00")
    as [[out2 conn2]|] eqn:Hrun2; vm_compute in Hrun2; [|discriminate].
  exists out1, conn1, out2, conn2.
  injection Hrun1 as <- <-. injection Hrun2 as <- <-.
  split_and!; [reflexivity|reflexivity|discriminate|simpl; discriminate].
Qed.

(** C6 as stated fails: at a threshold of 3 the fourth day of
    [Examples.rounding_conn] is flagged, its computed score being a little
    above 3, and the record stores a score of exactly 3, which is not
    strictly greater than the threshold. *)
Lemma stored_score_equals_threshold :
  ∃ out conn' r s,
    Anomaly.recompute_anomalies (H:=sqrt_down) Examples.rounding_conn 3 3 3
      None "2026-02-10T09:00:00+00:00" = Some (out, conn') ∧
    r ∈ out ∧
    a_score r = Fin s ∧
    (s == 3)%Q ∧
    ¬ (3 < s)%Q.
Proof.
  destruct (Anomaly.recompute_anomalies (H:=sqrt_down) Examples.rounding_conn
              3 3 3 None "2026-02-10T09:00:00+00:00")
    as [[out conn']|] eqn:Hrun; vm_compute in Hrun; [|discriminate].
  injection Hrun as <- <-.
  eexists _, _, _, _. split; [reflexivity|]. split; [by left|].
  split; [reflexivity|]. split; [reflexivity|].
  apply Qle_not_lt. by vm_compute.
Qed.

(** The amended C4 on the sample store, filtered to a KPI that has no
    observations. *)
Lemma recompute_empty_frame_sample :
  (∀ row, row ∈ fact_kpi_daily Examples.sample_conn →
     ∃ n ns, Examples.unloaded_kpi = Some (n :: ns) ∧ kpi_name row ∉ n :: ns) ∧
  Anomaly.read_kpi_frame Examples.sample_conn Examples.unloaded_kpi = [] ∧
  Anomaly.recompute_anomalies (H:=sqrt_down) Examples.sample_conn 3 14 14
    Examples.unloaded_kpi "2026-02-10T09:00:00+00:00"
    = Some ([], Examples.sample_conn).
Proof.
  assert (∀ row, row ∈ fact_kpi_daily Examples.sample_conn →
     ∃ n ns, Examples.unloaded_kpi = Some (n :: ns) ∧ kpi_name row ∉ n :: ns)
    as Hnone.
  { intros row Hrow. eexists _, _. split; [reflexivity|].
    intros Hin%list_elem_of_singleton. simpl in Hrow.
    repeat (apply elem_of_cons in Hrow as [->|Hrow]; [discriminate|]).
    by apply elem_of_nil in Hrow. }
  split; [exact Hnone|].
  exact (recompute_empty_frame (H:=sqrt_down) Examples.sample_conn 3 14 14
           Examples.unloaded_kpi "2026-02-10T09:00:00+00:00" Hnone).
Defined.

(** C4 as stated fails: with no KPI observation to read, the call returns
    the empty list before the delete is reached, and the stored anomaly
    stays in the table. *)
Lemma empty_frame_skips_delete :
  Anomaly.read_kpi_frame Examples.sample_conn Examples.unloaded_kpi = [] ∧
  ∃ out conn',
    Anomaly.recompute_anomalies (H:=sqrt_down) Examples.sample_conn 3 14 14
      Examples.unloaded_kpi "2026-02-10T09:00:00+00:00" = Some (out, conn') ∧
    out = [] ∧
    anomalies conn' = [Examples.stale] ∧
    ¬ Spec.delete_performed Examples.sample_conn conn'.
Proof.
  split; [reflexivity|].
  exists [], Examples.sample_conn.
  split_and!; [reflexivity|reflexivity|reflexivity|].
  intros (stmts & _ & _ & Hempty). discriminate.
Qed.

(** ** Driver attribution *)

Section driver_facts.
Import Drivers.

Lemma _safe_rate_Some (n d : Q) :
  ∃ r, _safe_rate n d = Some r ∧
       ((d == 0)%Q → r = 0%Q) ∧
       (¬ (d == 0)%Q → r = (n / d)%Q).
Proof.
  unfold _safe_rate, py_div. destruct (Qeq_bool d 0) eqn:Hd.
  - apply Qeq_bool_iff in Hd. exists 0%Q. by split_and!.
  - apply Qeq_bool_false in Hd. exists (n / d)%Q. by split_and!.
Qed.

(** The loop body never divides by zero, and computes these values. *)
Lemma row_computation_Some (total : Q) (row : merged_row) :
  ∃ v, row_computation total row = Some v ∧
    _safe_rate (numerator_anomaly row) (denominator_anomaly row)
      = Some (v_anomaly_rate v) ∧
    _safe_rate (numerator_baseline row) (denominator_baseline row)
      = Some (v_baseline_rate v) ∧
    v_delta_abs v = (v_anomaly_rate v - v_baseline_rate v)%Q ∧
    v_delta_pct v =
      (if Qlt_bool 0 (v_baseline_rate v)
       then Some (v_delta_abs v / v_baseline_rate v * 100)%Q else None) ∧
    v_numerator_delta v = (numerator_anomaly row - numerator_baseline row)%Q ∧
    v_contribution_share v =
      (if Qeq_bool total 0 then 0 else v_numerator_delta v / total)%Q.
Proof.
  unfold row_computation.
  destruct (_safe_rate_Some (numerator_anomaly row) (denominator_anomaly row))
    as (ar & -> & _).
  destruct (_safe_rate_Some (numerator_baseline row) (denominator_baseline row))
    as (br & -> & _).
  cbn [mbind option_bind].
  assert (∃ pct,
    (if Qlt_bool 0 br
     then q ← py_div (ar - br) br; Some (Some (q * 100)%Q)
     else Some None) = Some pct ∧
    pct = if Qlt_bool 0 br then Some ((ar - br) / br * 100)%Q else None)
    as (pct & -> & Hpct).
  { destruct (Qlt_bool 0 br) eqn:Hbr; [|by eauto].
    apply Qlt_bool_iff in Hbr. rewrite py_div_Some; [by eauto|].
    intros Hz. rewrite Hz in Hbr. by apply Qlt_irrefl in Hbr. }
  cbn [mbind option_bind].
  set (nd := (numerator_anomaly row - numerator_baseline row)%Q).
  assert (∃ share,
    (if negb (Qeq_bool total 0) then py_div nd total else Some 0%Q)
      = Some share ∧
    share = (if Qeq_bool total 0 then 0 else nd / total)%Q)
    as (share & -> & Hshare).
  { destruct (Qeq_bool total 0) eqn:Ht; simpl; [by eauto|].
    apply Qeq_bool_false in Ht. rewrite py_div_Some by done. by eauto. }
  cbn [mbind option_bind]. eexists. split; [done|]. simpl. by split_and!.
Qed.

Lemma build_row_is_Some (dimension : string) (total : Q) (row : merged_row) :
  is_Some (build_row dimension total row).
Proof.
  unfold build_row.
  destruct (row_computation_Some total row) as (v & -> & _). by eauto.
Qed.

Lemma _build_driver_rows_unfold (dimension : string)
    (anomaly_df baseline_df : list agg_row) (top_n : Z) :
  _build_driver_rows dimension anomaly_df baseline_df top_n =
  let merged := merge_frames anomaly_df baseline_df in
  rows ← mapM (build_row dimension (total_num_delta merged)) merged;
  Some (rows,
        drop_driver_score <$>
          frame_head top_n
            (sort_values_desc
               (λ r, [driver_score_col r; contribution_share r])
               (data_frame rows))).
Proof.
  unfold _build_driver_rows. destruct anomaly_df, baseline_df; try reflexivity.
  change (merge_frames [] []) with (@nil merged_row). simpl.
  change (data_frame []) with (@nil driver_row). simpl.
  unfold frame_head. destruct (0 <=? top_n)%Z; by rewrite take_nil.
Qed.

Lemma _build_driver_rows_is_Some (dimension : string)
    (anomaly_df baseline_df : list agg_row) (top_n : Z) :
  is_Some (_build_driver_rows dimension anomaly_df baseline_df top_n).
Proof.
  rewrite _build_driver_rows_unfold. cbv zeta.
  destruct (mapM_is_Some_2
              (build_row dimension
                 (total_num_delta (merge_frames anomaly_df baseline_df)))
              (merge_frames anomaly_df baseline_df)) as [rows ->].
  - apply Forall_forall. intros row _. apply build_row_is_Some.
  - by eauto.
Qed.

(** The loop over the dimensions returns, with one evidence entry per
    configuration, in the order of the configurations. *)
Lemma analyze_dimensions_Some (conn : connection)
    (target_date baseline_start baseline_end : Z)
    (cfgs : list DimensionQueryConfig) :
  ∃ all_rows evidence,
    analyze_dimensions conn target_date baseline_start baseline_end cfgs
      = Some (all_rows, evidence) ∧
    ev_dimension <$> evidence = dimension <$> cfgs.
Proof.
  induction cfgs as [|cfg cfgs (all_rows & evidence & IH & Hdims)]; simpl.
  - by exists [], [].
  - destruct (_build_driver_rows_is_Some (dimension cfg)
                (_run_df conn (rate_anomaly_sql cfg) [target_date])
                (_run_df conn (rate_baseline_sql cfg)
                   [baseline_start; baseline_end]) 5)
      as [[rows top] ->].
    rewrite IH. simpl. eexists _, _. split; [done|].
    rewrite !fmap_cons. by rewrite Hdims.
Qed.

Lemma _analyze_rate_kpi_unfold (conn : connection) (kpi_name : string)
    (target_date baseline_days top_n : Z) all_rows evidence :
  analyze_dimensions conn target_date (target_date - baseline_days)
    (target_date - 1) (_dimension_configs_for_kpi kpi_name)
    = Some (all_rows, evidence) →
  _analyze_rate_kpi conn kpi_name target_date baseline_days top_n =
  Some {| drivers :=
            match all_rows with
            | [] => []
            | _ => rank_drivers all_rows top_n
            end;
          evidence := evidence |}.
Proof.
  intros Hloop. unfold _analyze_rate_kpi. rewrite Hloop. simpl.
  by destruct all_rows.
Qed.

Lemma elem_of_rate_kpis (kpi_name : string) :
  kpi_name ∈ rate_kpis ↔
  kpi_name = "sla_breach_rate_pct" ∨ kpi_name = "exception_rate_per_100_jobs".
Proof. unfold rate_kpis. set_solver. Qed.

Lemma rate_kpi_dimensions (kpi_name : string) :
  kpi_name ∈ rate_kpis →
  dimension <$> _dimension_configs_for_kpi kpi_name =
  ["site"; "customer_tier"; "category"; "incident_type"; "carrier";
   "product_family"].
Proof.
  intros [-> | ->]%elem_of_rate_kpis; reflexivity.
Qed.

(** When every query comes back empty, no dimension contributes a row. *)
Lemma analyze_dimensions_no_rows (conn : connection)
    (target_date baseline_start baseline_end : Z)
    (cfgs : list DimensionQueryConfig) all_rows evidence :
  (∀ sql params, rate_query conn sql params = []) →
  analyze_dimensions conn target_date baseline_start baseline_end cfgs
    = Some (all_rows, evidence) →
  all_rows = [] ∧ Forall (λ e, top_rows e = []) evidence.
Proof.
  intros Hempty. revert all_rows evidence.
  induction cfgs as [|cfg cfgs IH]; intros all_rows evidence; simpl.
  - intros [= <- <-]. by split.
  - unfold _run_df. rewrite !Hempty. simpl.
    destruct (analyze_dimensions _ _ _ _ cfgs) as [[rows ev]|]; [|done].
    simpl. intros [= <- <-].
    destruct (IH rows ev eq_refl) as [-> Hev]. split; [done|].
    by constructor.
Qed.

End driver_facts.

Section attribution_properties.
Import Drivers DriverSpec.

(** C10. For both rate KPIs, whatever the store answers to the queries,
    attribution returns, with six evidence entries, one per dimension in
    the declared order. When all queries come back without rows, the six
    entries are still there, with no top rows, and there is no driver. *)
Theorem rate_kpi_evidence_dimensions (conn : connection) (kpi_name : string)
    (target_date baseline_days top_n : Z) :
  kpi_name ∈ rate_kpis →
  ∃ res,
    compute_top_drivers conn kpi_name target_date baseline_days top_n
      = Some res ∧
    ev_dimension <$> evidence res =
      ["site"; "customer_tier"; "category"; "incident_type"; "carrier";
       "product_family"] ∧
    ((∀ sql params, rate_query conn sql params = []) →
     drivers res = [] ∧ Forall (λ e, top_rows e = []) (evidence res)).
Proof.
  intros Hkpi. unfold compute_top_drivers.
  rewrite bool_decide_eq_true_2 by done.
  destruct (analyze_dimensions_Some conn target_date
              (target_date - baseline_days) (target_date - 1)
              (_dimension_configs_for_kpi kpi_name))
    as (all_rows & ev & Hloop & Hdims).
  rewrite (_analyze_rate_kpi_unfold _ _ _ _ _ _ _ Hloop).
  eexists. split; [done|]. simpl. split.
  - by rewrite Hdims, rate_kpi_dimensions.
  - intros Hempty.
    by destruct (analyze_dimensions_no_rows _ _ _ _ _ _ _ Hempty Hloop) as [-> ?].
Qed.


(** *** The ranking *)




#[local] Instance ranks_before_trans : Transitive ranks_before.
Proof.
  intros r1 r2 r3. unfold ranks_before.
  generalize (rank_score r1) (rank_score r2) (rank_score r3)
    (contribution_share r1) (contribution_share r2) (contribution_share r3)
    (delta_abs r1) (delta_abs r2) (delta_abs r3).
  intros s1 s2 s3 c1 c2 c3 d1 d2 d3 H12 H23.
  destruct H12 as [H12|[E12 [H12|[F12 H12]]]];
    destruct H23 as [H23|[E23 [H23|[F23 H23]]]];
    first [ left; lra
          | right; split; [lra|]; first [left; lra | right; split; lra] ].
Qed.

Lemma Sorted_weaken {A} (R1 R2 : relation A) (l : list A) :
  (∀ x y, R1 x y → R2 x y) → Sorted R1 l → Sorted R2 l.
Proof.
  intros Himpl. induction 1 as [|x l Hs IH Hhd]; constructor; [done|].
  destruct Hhd; constructor. by apply Himpl.
Qed.




Lemma frame_head_nonneg {A} (n : Z) (l : list A) :
  (0 ≤ n)%Z → frame_head n l = take (Z.to_nat n) l.
Proof.
  intros Hn. unfold frame_head. by destruct (Z.leb_spec 0 n); [|lia].
Qed.


(** *** The data-quality path and the dispatch *)

Lemma frame_head_nil {A} (n : Z) : frame_head n (@nil A) = [].
Proof. unfold frame_head. destruct (0 <=? n)%Z; apply take_nil. Qed.

Lemma dq_build_row_is_Some (row : dq_merged_row) : is_Some (dq_build_row row).
Proof.
  unfold dq_build_row.
  destruct (_safe_rate_Some (missing_delivered_anomaly row)
              (delivered_jobs_anomaly row)) as (ar & -> & _).
  destruct (_safe_rate_Some (missing_delivered_baseline row)
              (delivered_jobs_baseline row)) as (br & -> & _).
  cbn [mbind option_bind].
  set (bp := (br * 70 + duplicate_rate_baseline row * 30)%Q).
  set (da := (_ - bp)%Q).
  destruct (Qlt_bool 0 bp) eqn:Hbp; [|by eauto].
  apply Qlt_bool_iff in Hbp. rewrite py_div_Some; [by eauto|].
  intros Hz. rewrite Hz in Hbp. by apply Qlt_irrefl in Hbp.
Qed.

Lemma dq_total_delta_nonzero (rows : list driver_row) :
  ¬ (dq_total_delta rows == 0)%Q.
Proof.
  unfold dq_total_delta. cbv zeta.
  destruct (Qeq_bool _ 0) eqn:Hs; [done|]. by apply Qeq_bool_false.
Qed.

Lemma dq_share_rows_is_Some (rows : list driver_row) :
  is_Some (dq_share_rows rows).
Proof.
  unfold dq_share_rows. cbv zeta. apply mapM_is_Some_2, Forall_forall.
  intros item _. simpl.
  rewrite py_div_Some by apply dq_total_delta_nonzero. by eauto.
Qed.

Lemma _analyze_data_quality_Some (conn : connection)
    (target_date baseline_days top_n : Z) :
  ∃ res,
    _analyze_data_quality conn target_date baseline_days top_n = Some res ∧
    ev_dimension <$> evidence res = ["site"] ∧
    (pooled_rows conn "data_quality_score" target_date baseline_days = Some [] →
     drivers res = []).
Proof.
  unfold _analyze_data_quality, pooled_rows. cbv zeta.
  rewrite bool_decide_eq_false_2 by (by intros [?|?]%elem_of_rate_kpis).
  rewrite bool_decide_eq_true_2 by done.
  set (merged := dq_merge_frames _ _).
  destruct (mapM_is_Some_2 dq_build_row merged) as [rows Hrows].
  { apply Forall_forall. intros row _. apply dq_build_row_is_Some. }
  rewrite Hrows. cbn [mbind option_bind].
  destruct (dq_share_rows_is_Some rows) as [shared Hshared].
  rewrite Hshared. cbn [mbind option_bind].
  eexists. split; [done|]. split; [done|].
  intros [= ->]. simpl. injection Hshared as <-. apply frame_head_nil.
Qed.

Lemma supported_configured (kpi_name : string) :
  supported kpi_name ↔ configured_dimensions kpi_name ≠ [].
Proof.
  unfold supported, configured_dimensions.
  destruct (decide (kpi_name ∈ rate_kpis)) as [Hrate|Hrate].
  - rewrite bool_decide_eq_true_2 by done.
    rewrite rate_kpi_dimensions by done. split; [done|by left].
  - rewrite bool_decide_eq_false_2 by done.
    destruct (decide (kpi_name = "data_quality_score")) as [Hdq|Hdq].
    + rewrite bool_decide_eq_true_2 by done. split; [done|by right].
    + rewrite bool_decide_eq_false_2 by done. split; [|done].
      by intros [?|?].
Qed.

(** C8. Attribution always returns. For a KPI with no configured dimension
    the result is exactly empty drivers and empty evidence. For a supported
    KPI the evidence has one entry per configured dimension, in order, and
    when no dimension yields a row the drivers are empty. So the evidence is
    empty exactly when the KPI is not supported. *)
Theorem unsupported_iff_no_evidence (conn : connection) (kpi_name : string)
    (target_date baseline_days top_n : Z) :
  ∃ res,
    compute_top_drivers conn kpi_name target_date baseline_days top_n
      = Some res ∧
    (configured_dimensions kpi_name = [] →
     res = {| drivers := []; evidence := [] |}) ∧
    (supported kpi_name →
     ev_dimension <$> evidence res = configured_dimensions kpi_name ∧
     (pooled_rows conn kpi_name target_date baseline_days = Some [] →
      drivers res = [])) ∧
    (evidence res = [] ↔ ¬ supported kpi_name).
Proof.
  pose proof (supported_configured kpi_name) as Hsup.
  unfold compute_top_drivers.
  assert (∀ res : attribution,
    ev_dimension <$> evidence res = configured_dimensions kpi_name →
    supported kpi_name →
    (configured_dimensions kpi_name = [] →
       res = {| drivers := []; evidence := [] |}) ∧
    (evidence res = [] ↔ ¬ supported kpi_name)) as Hcase.
  { intros res Hdims Hyes. apply Hsup in Hyes as Hne. split; [done|].
    split; [|done]. intros Hnil. rewrite Hnil in Hdims. by symmetry in Hdims. }
  destruct (decide (kpi_name ∈ rate_kpis)) as [Hrate|Hrate].
  - rewrite bool_decide_eq_true_2 by done.
    destruct (analyze_dimensions_Some conn target_date
                (target_date - baseline_days) (target_date - 1)
                (_dimension_configs_for_kpi kpi_name))
      as (all_rows & ev & Hloop & Hdims).
    rewrite (_analyze_rate_kpi_unfold _ _ _ _ _ _ _ Hloop).
    eexists. split; [done|].
    assert (ev_dimension <$> ev = configured_dimensions kpi_name) as Hcfg.
    { unfold configured_dimensions. by rewrite bool_decide_eq_true_2. }
    destruct (Hcase {| drivers := match all_rows with
                                  | [] => []
                                  | _ => rank_drivers all_rows top_n
                                  end;
                       evidence := ev |} Hcfg) as [H1 H2]; [by left|].
    split_and!; [done| |done].
    intros _. split; [done|]. unfold pooled_rows.
    rewrite bool_decide_eq_true_2 by done. rewrite Hloop. simpl.
    by intros [= ->].
  - rewrite bool_decide_eq_false_2 by done.
    destruct (decide (kpi_name = "data_quality_score")) as [->|Hdq].
    + rewrite bool_decide_eq_true_2 by done.
      destruct (_analyze_data_quality_Some conn target_date baseline_days top_n)
        as (res & -> & Hdims & Hrows).
      exists res. split; [done|].
      destruct (Hcase res Hdims) as [H1 H2]; [by right|].
      by split_and!.
    + rewrite bool_decide_eq_false_2 by done.
      eexists. split; [done|]. simpl.
      assert (¬ supported kpi_name) as Hno by (by intros [?|?]).
      split_and!; [done|done|done].
Qed.

End attribution_properties.

(** C10 on the sample store, whose queries return no rows, for the SLA
    breach rate. *)
Lemma rate_kpi_evidence_dimensions_sample :
  "sla_breach_rate_pct" ∈ Drivers.rate_kpis ∧
  ∃ res,
    Drivers.compute_top_drivers Examples.sample_conn
      "sla_breach_rate_pct" 10 14 3 = Some res ∧
    Drivers.ev_dimension <$> Drivers.evidence res =
      ["site"; "customer_tier"; "category"; "incident_type"; "carrier";
       "product_family"] ∧
    Drivers.drivers res = [] ∧
    Forall (λ e, Drivers.top_rows e = []) (Drivers.evidence res).
Proof.
  assert ("sla_breach_rate_pct" ∈ Drivers.rate_kpis) as Hkpi
    by (apply elem_of_rate_kpis; by left).
  split; [exact Hkpi|].
  destruct (rate_kpi_evidence_dimensions Examples.sample_conn
              "sla_breach_rate_pct" 10 14 3 Hkpi)
    as (res & Hrun & Hdims & Hempty).
  exists res. split; [exact Hrun|]. split; [exact Hdims|].
  apply Hempty. reflexivity.
Defined.


(** ** The model on the sample stores *)

Example sample_flagged_days :
  Spec.flagged_days <$>
    (fst <$> Anomaly.recompute_anomalies (H:=sqrt_down) Examples.sample_conn
               3 2 2 None "2026-02-10T09:00:00+00:00") =
  Some [("exception_rate_per_100_jobs", 3%Z); ("sla_breach_rate_pct", 3%Z);
        ("sla_breach_rate_pct", 4%Z)].
Proof. vm_compute. reflexivity. Qed.

Example sample_scenario_tags :
  (λ p : list anomaly * connection, a_scenario_tag <$> p.1) <$>
    Anomaly.recompute_anomalies (H:=sqrt_down) Examples.sample_conn
      3 2 2 None "2026-02-10T09:00:00+00:00" =
  Some [None; None; Some "Scenario A"].
Proof. vm_compute. reflexivity. Qed.

Example sample_top_drivers :
  (λ res, (λ r, (Drivers.dr_dimension r, Drivers.dr_segment r))
            <$> Drivers.drivers res) <$>
    Drivers.compute_top_drivers Examples.attribution_conn
      "sla_breach_rate_pct" 10 14 3 =
  Some [("site", "NorthHaul"); ("customer_tier", "NorthHaul");
        ("category", "NorthHaul")].
Proof. vm_compute. reflexivity. Qed.

Example sample_unsupported_kpi :
  Drivers.compute_top_drivers Examples.attribution_conn
    "manual_workload_hours_weekly" 10 14 3 =
  Some {| Drivers.drivers := []; Drivers.evidence := [] |}.
Proof. reflexivity. Qed.

Example round_half_even_sample :
  py_round 3.00001 4 = 3.0000%Q ∧ py_round 0.12345 4 = 0.1234%Q ∧
  py_round 0.12355 4 = 0.1236%Q.
Proof. vm_compute. done. Qed.

(** * Further properties of the scorer *)

Section scenario_lookup.
Import Anomaly Further.

Lemma scenario_lookup_foldl (rows : list scenario_row) (k : string) (d : Z) :
  foldl
    (λ (mapping : gmap (string * Z) (option string)) row,
       match sr_kpi_name row with
       | Some k' =>
           if bool_decide (k' = "") then mapping
           else <[(k', sr_scenario_date row) := sr_scenario_tag row]> mapping
       | None => mapping
       end)
    ∅ rows !! (k, d) =
  if bool_decide (k = "") then None
  else last (sr_scenario_tag <$>
               filter (λ row, sr_kpi_name row = Some k ∧ sr_scenario_date row = d)
                      rows).
Proof.
  set (step := λ (mapping : gmap (string * Z) (option string)) row, _).
  destruct (decide (k = "")) as [->|Hk].
  - rewrite bool_decide_eq_true_2 by done.
    induction rows as [|row rows IH] using rev_ind; [apply lookup_empty|].
    rewrite foldl_snoc. unfold step at 1. cbv beta.
    destruct (sr_kpi_name row) as [k'|]; [|done].
    case_bool_decide as Hempty; [done|].
    rewrite lookup_insert_ne; [done|]. intros [= ? _]. done.
  - rewrite bool_decide_eq_false_2 by done.
    induction rows as [|row rows IH] using rev_ind; [apply lookup_empty|].
    rewrite foldl_snoc, filter_app, fmap_app.
    unfold step at 1. cbv beta.
    assert (sr_kpi_name row ≠ Some k ∨ sr_scenario_date row ≠ d →
      last ((sr_scenario_tag <$>
               filter (λ row, sr_kpi_name row = Some k ∧ sr_scenario_date row = d)
                 rows) ++
            (sr_scenario_tag <$>
               filter (λ row, sr_kpi_name row = Some k ∧ sr_scenario_date row = d)
                 [row])) = foldl step ∅ rows !! (k, d)) as Hskip.
    { intros Hother.
      rewrite filter_cons_False, filter_nil, app_nil_r; [done|].
      intros [??]. by destruct Hother. }
    destruct (sr_kpi_name row) as [k'|] eqn:Hk'.
    + case_bool_decide as Hempty.
      * rewrite Hskip; [done|]. left. congruence.
      * destruct (decide ((k', sr_scenario_date row) = (k, d)))
          as [[= -> Hd]|Hne].
        -- rewrite Hd, lookup_insert_eq.
           rewrite filter_cons_True by done. rewrite filter_nil.
           cbn [fmap list_fmap]. by rewrite last_snoc.
        -- rewrite lookup_insert_ne by done. rewrite Hskip; [done|].
           destruct (decide (k' = k)) as [->|?]; [|left; congruence].
           right. intros Hd. apply Hne. by rewrite Hd.
    + rewrite Hskip; [done|]. by left.
Qed.

(** X1. The lookup built from the scenario registry answers a KPI name and a
    date with the tag of the last registry row for that pair; rows whose KPI
    name is NULL or empty are passed over, and a pair without a row, like a
    row with a NULL tag, gives no tag. *)
Theorem scenario_lookup_last_row_wins (conn : connection) (k : string) (d : Z) :
  lookup_get (_load_scenario_lookup conn) (k, d) =
  if bool_decide (k = "") then None
  else default None (last (sr_scenario_tag <$> registry_rows_for conn k d)).
Proof.
  unfold lookup_get, _load_scenario_lookup, registry_rows_for.
  rewrite scenario_lookup_foldl. by case_bool_decide.
Qed.

End scenario_lookup.

Section scorer_behaviour.
Import Anomaly Spec Further.
Context `{Sqrt}.

Implicit Types (values rest group : list kpi_row) (current : kpi_row).
Implicit Types (threshold : Q) (window_days min_history : Z).
Implicit Types (lookup : gmap (string * Z) (option string)).

Lemma scan_series_complete threshold window_days min_history lookup
    (now name : string) values idx rest out i current baseline score :
  scan_series threshold window_days min_history lookup now name values idx rest
    = Some out →
  drop idx values = rest →
  idx ≤ i →
  values !! i = Some current →
  score_index window_days min_history values i current
    = Some (Scored baseline (Fin score)) →
  (threshold < score)%Q →
  make_record lookup now name current baseline (Fin score) ∈ out.
Proof.
  revert idx out. induction rest as [|c rest IH]; intros idx out; simpl.
  - intros _ Hdrop Hle Hi. apply lookup_lt_Some in Hi.
    assert (length (drop idx values) = 0%nat) as Hlen by (by rewrite Hdrop).
    rewrite length_drop in Hlen. lia.
  - destruct (score_index _ _ _ idx c) as [s|] eqn:Hs; [|done]. simpl.
    destruct (scan_series _ _ _ _ _ _ _ _ _) as [out'|] eqn:Hout; [|done].
    simpl. intros [= <-] Hdrop Hle Hi Hscore Hlt.
    apply drop_cons_inv in Hdrop as [Hidx Hdrop].
    apply elem_of_app.
    destruct (decide (i = idx)) as [->|Hne].
    + left. rewrite Hidx in Hi. injection Hi as ->.
      rewrite Hscore in Hs. injection Hs as <-. cbn [flag].
      assert (fgtb (Fin score) (Fin threshold) = true) as ->.
      { apply fgtb_Fin. by exists score. }
      by left.
    + right. eapply IH; try done. lia.
Qed.

Lemma scan_groups_complete threshold window_days min_history lookup
    (now : string) (groups : list (string * list kpi_row)) out name group r :
  scan_groups threshold window_days min_history lookup now groups = Some out →
  (name, group) ∈ groups →
  flagged_at threshold window_days min_history lookup now name
    (sort_by date_leb group) r →
  r ∈ out.
Proof.
  revert out. induction groups as [|[name' group'] groups IH]; intros out; simpl.
  - intros _ Hin. by apply elem_of_nil in Hin.
  - destruct (scan_series _ _ _ _ _ _ _ _ _) as [out1|] eqn:Hout1; [|done].
    simpl. destruct (scan_groups _ _ _ _ _ _) as [out2|] eqn:Hout2; [|done].
    simpl. intros [= <-] Hin Hfl. apply elem_of_app.
    apply elem_of_cons in Hin as [[= -> ->]|Hin].
    + left. destruct Hfl as (i & current & baseline & score & Hi & Hs & Hlt & ->).
      eapply (scan_series_complete _ _ _ _ _ _ _ 0 _ _ i);
        [exact Hout1|done|lia|exact Hi|exact Hs|exact Hlt].
    + right. by eapply IH.
Qed.

(** X2. The returned list holds exactly the records of the days that were
    scored strictly above the threshold: none is left out and none is
    added. *)
Theorem flagged_exactly_the_days_above_threshold (conn : connection)
    threshold window_days min_history (kpi_names : option (list string))
    (now : string) :
  ∃ out conn',
    recompute_anomalies conn threshold window_days min_history kpi_names now
      = Some (out, conn') ∧
    ∀ r, r ∈ out ↔
      ∃ name group,
        (name, group) ∈ groupby_kpi_name (read_kpi_frame conn kpi_names) ∧
        flagged_at threshold window_days min_history
          (_load_scenario_lookup conn) now name (sort_by date_leb group) r.
Proof.
  destruct (recompute_anomalies_is_Some conn threshold window_days min_history
              kpi_names now) as [[out conn'] Hrun].
  exists out, conn'. split; [done|].
  rewrite recompute_anomalies_unfold in Hrun.
  destruct (read_kpi_frame conn kpi_names) as [|row frame] eqn:Hframe.
  { injection Hrun as <- <-. intros r. split.
    - intros Hr. by apply elem_of_nil in Hr.
    - intros (name & group & Hin & _). by apply elem_of_nil in Hin. }
  destruct (scan_groups _ _ _ _ _ _) as [out'|] eqn:Hscan; [|done].
  injection Hrun as <- <-. intros r. split.
  - intros Hr. by eapply scan_groups_elem.
  - intros (name & group & Hin & Hfl). by eapply scan_groups_complete.
Qed.

(** *** Short windows *)

Lemma trailing_window_short window_days values idx :
  (Z.of_nat (length (trailing_window window_days values idx))
     ≤ Z.max 0 window_days)%Z.
Proof.
  unfold trailing_window, iloc_slice. rewrite length_take. lia.
Qed.

Lemma score_index_never_flags threshold window_days min_history lookup
    (now name : string) values idx current s :
  (window_days < min_history)%Z →
  score_index window_days min_history values idx current = Some s →
  flag threshold lookup now name current s = [].
Proof.
  intros Hshort. unfold score_index.
  destruct (_ <? _)%Z; [by intros [= <-]|].
  pose proof (trailing_window_short window_days values idx) as Hlen.
  destruct (Z.ltb_spec
    (Z.of_nat (length (trailing_window window_days values idx))) min_history);
    [by intros [= <-]|].
  assert (trailing_window window_days values idx = []) as ->.
  { apply length_zero_iff_nil. lia. }
  simpl. by intros [= <-].
Qed.

Lemma scan_series_never_flags threshold window_days min_history lookup
    (now name : string) values idx rest out :
  (window_days < min_history)%Z →
  scan_series threshold window_days min_history lookup now name values idx rest
    = Some out →
  out = [].
Proof.
  intros Hshort. revert idx out.
  induction rest as [|c rest IH]; intros idx out; simpl; [by intros [= <-]|].
  destruct (score_index _ _ _ idx c) as [s|] eqn:Hs; [|done]. simpl.
  destruct (scan_series _ _ _ _ _ _ _ _ _) as [out'|] eqn:Hout; [|done].
  simpl. intros [= <-].
  rewrite (score_index_never_flags _ _ _ _ _ _ _ _ _ _ Hshort Hs).
  by rewrite (IH _ _ Hout).
Qed.

Lemma scan_groups_never_flags threshold window_days min_history lookup
    (now : string) (groups : list (string * list kpi_row)) out :
  (window_days < min_history)%Z →
  scan_groups threshold window_days min_history lookup now groups = Some out →
  out = [].
Proof.
  intros Hshort. revert out.
  induction groups as [|[name group] groups IH]; intros out; simpl;
    [by intros [= <-]|].
  destruct (scan_series _ _ _ _ _ _ _ _ _) as [out1|] eqn:Hout1; [|done].
  simpl. destruct (scan_groups _ _ _ _ _ _) as [out2|] eqn:Hout2; [|done].
  simpl. intros [= <-].
  rewrite (scan_series_never_flags _ _ _ _ _ _ _ _ _ _ Hshort Hout1).
  by rewrite (IH _ eq_refl).
Qed.

(** X3. With a window shorter than the required history no day can ever be
    flagged: the call returns the empty list, and when it found KPI rows it
    still empties the anomaly table. The run endpoint calls with
    [min_history = max(8, window_days)], so a window of 7 days detects
    nothing. *)
Theorem window_shorter_than_history_flags_nothing (conn : connection)
    threshold window_days min_history (kpi_names : option (list string))
    (now : string) :
  (window_days < min_history)%Z →
  ∃ conn',
    recompute_anomalies conn threshold window_days min_history kpi_names now
      = Some ([], conn') ∧
    (read_kpi_frame conn kpi_names ≠ [] → anomalies conn' = []) ∧
    (read_kpi_frame conn kpi_names = [] → conn' = conn).
Proof.
  intros Hshort.
  destruct (recompute_anomalies_is_Some conn threshold window_days min_history
              kpi_names now) as [[out conn'] Hrun].
  rewrite Hrun. rewrite recompute_anomalies_unfold in Hrun.
  destruct (read_kpi_frame conn kpi_names) as [|row frame] eqn:Hframe.
  - injection Hrun as <- <-. exists conn. by split_and!.
  - destruct (scan_groups _ _ _ _ _ _) as [out'|] eqn:Hscan; [|done].
    injection Hrun as <- <-.
    rewrite (scan_groups_never_flags _ _ _ _ _ _ _ Hshort Hscan).
    eexists. split; [done|]. by split.
Qed.

End scorer_behaviour.

Section scorer_store.
Import Anomaly Spec Further.
Context `{Sqrt}.

Implicit Types (values rest group : list kpi_row) (current : kpi_row).
Implicit Types (threshold : Q) (window_days min_history : Z).
Implicit Types (lookup : gmap (string * Z) (option string)).




(** *** Records and observations *)

Lemma groupby_kpi_name_group (frame : list kpi_row) (name : string) group :
  (name, group) ∈ groupby_kpi_name frame →
  group = filter (λ r, kpi_name r = name) frame.
Proof.
  unfold groupby_kpi_name. intros Hin.
  by apply list_elem_of_fmap in Hin as (k & [= -> ->] & _).
Qed.

Lemma read_kpi_frame_elem (conn : connection)
    (kpi_names : option (list string)) (row : kpi_row) :
  row ∈ read_kpi_frame conn kpi_names →
  row ∈ fact_kpi_daily conn ∧
  ∀ n ns, kpi_names = Some (n :: ns) → kpi_name row ∈ n :: ns.
Proof.
  unfold read_kpi_frame. rewrite elem_of_sort_by.
  destruct kpi_names as [[|n ns]|].
  - intros Hrow. split; [done|]. by intros ?? [=].
  - intros [Hin Hrow]%list_elem_of_filter. split; [done|].
    by intros ?? [= <- <-].
  - intros Hrow. split; [done|]. by intros ?? [=].
Qed.

Lemma length_scan_series threshold window_days min_history lookup
    (now name : string) values idx rest out :
  scan_series threshold window_days min_history lookup now name values idx rest
    = Some out →
  length out ≤ length rest.
Proof.
  revert idx out. induction rest as [|c rest IH]; intros idx out; simpl.
  - by intros [= <-].
  - destruct (score_index _ _ _ idx c) as [s|] eqn:Hs; [|done]. simpl.
    destruct (scan_series _ _ _ _ _ _ _ _ _) as [out'|] eqn:Hout; [|done].
    simpl. intros [= <-]. rewrite length_app.
    apply IH in Hout.
    assert (length (flag threshold lookup now name c s) ≤ 1); [|lia].
    destruct s as [|b sc]; simpl; [lia|]. destruct (fgtb _ _); simpl; lia.
Qed.

Lemma length_scan_groups threshold window_days min_history lookup
    (now : string) (groups : list (string * list kpi_row)) out :
  scan_groups threshold window_days min_history lookup now groups = Some out →
  length out ≤ sum_list (length ∘ snd <$> groups).
Proof.
  revert out. induction groups as [|[name group] groups IH]; intros out; simpl.
  - by intros [= <-].
  - destruct (scan_series _ _ _ _ _ _ _ _ _) as [out1|] eqn:Hout1; [|done].
    simpl. destruct (scan_groups _ _ _ _ _ _) as [out2|] eqn:Hout2; [|done].
    simpl. intros [= <-]. rewrite length_app.
    apply length_scan_series in Hout1. rewrite sort_by_Permutation in Hout1.
    specialize (IH _ eq_refl).
    apply Nat.add_le_mono; [exact Hout1|exact IH].
Qed.

Lemma sum_length_filter_key {A} (key : A → string) (ks : list string)
    (l : list A) :
  NoDup ks →
  sum_list ((λ k, length (filter (λ r, key r = k) l)) <$> ks) ≤ length l.
Proof.
  intros Hks. revert l. induction Hks as [|k ks Hk Hks IH]; intros l.
  - simpl. lia.
  - rewrite fmap_cons. simpl.
    pose proof (filter_app_complement (λ r, key r = k) l) as Hsplit.
    apply Permutation_length in Hsplit. rewrite length_app in Hsplit.
    assert (((λ k', length (filter (λ r, key r = k') l)) <$> ks) =
            ((λ k', length (filter (λ r, key r = k')
                              (filter (λ r, ¬ key r = k) l))) <$> ks)) as Heq.
    { apply Forall_fmap_ext_1, Forall_forall. intros k' Hk'. f_equal.
      rewrite list_filter_filter. apply list_filter_iff.
      intros r. split; [|by intros [? _]].
      intros Hr. split; [done|]. intros Hrk. apply Hk. congruence. }
    pose proof (IH (filter (λ r, ¬ key r = k) l)) as Hrest.
    rewrite <- Heq in Hrest. lia.
Qed.

Lemma length_groupby_kpi_name (frame : list kpi_row) :
  sum_list (length ∘ snd <$> groupby_kpi_name frame) ≤ length frame.
Proof.
  unfold groupby_kpi_name. rewrite <- list_fmap_compose.
  apply (sum_length_filter_key kpi_name).
  rewrite sort_by_Permutation. apply NoDup_remove_dups.
Qed.

Lemma length_read_kpi_frame (conn : connection)
    (kpi_names : option (list string)) :
  length (read_kpi_frame conn kpi_names) ≤ length (fact_kpi_daily conn).
Proof.
  unfold read_kpi_frame. rewrite sort_by_Permutation.
  destruct kpi_names as [[|n ns]|]; [done|apply length_filter|done].
Qed.

(** X5. Every returned record stands for an observation of the KPI table that
    passed the filter: it carries that row's KPI name and date, its value
    rounded to four decimals, the status "open" and the clock reading of
    the run. There are never more records than observations. *)
Theorem records_are_observations (conn : connection) threshold window_days
    min_history (kpi_names : option (list string)) (now : string) :
  ∃ out conn',
    recompute_anomalies conn threshold window_days min_history kpi_names now
      = Some (out, conn') ∧
    (∀ r, r ∈ out →
       ∃ row, row ∈ fact_kpi_daily conn ∧
         kpi_name row = a_kpi_name r ∧
         date row = a_date r ∧
         a_value r = py_round (value row) 4 ∧
         a_status r = "open" ∧
         a_created_at r = now ∧
         ∀ n ns, kpi_names = Some (n :: ns) → a_kpi_name r ∈ n :: ns) ∧
    length out ≤ length (fact_kpi_daily conn).
Proof.
  destruct (recompute_anomalies_is_Some conn threshold window_days min_history
              kpi_names now) as [[out conn'] Hrun].
  exists out, conn'. split; [done|].
  rewrite recompute_anomalies_unfold in Hrun.
  destruct (read_kpi_frame conn kpi_names) as [|row0 frame] eqn:Hframe.
  { injection Hrun as <- <-. split; [|simpl; lia].
    intros r Hr. by apply elem_of_nil in Hr. }
  destruct (scan_groups _ _ _ _ _ _) as [out'|] eqn:Hscan; [|done].
  injection Hrun as <- <-. split.
  - intros r Hr.
    destruct (scan_groups_elem _ _ _ _ _ _ _ _ Hscan Hr)
      as (name & group & Hgroup & idx & current & baseline & score
          & Hidx & _ & _ & ->).
    apply groupby_kpi_name_group in Hgroup as ->.
    apply list_elem_of_lookup_2 in Hidx.
    rewrite elem_of_sort_by, list_elem_of_filter in Hidx.
    destruct Hidx as [Hname Hin]. rewrite <- Hframe in Hin.
    apply read_kpi_frame_elem in Hin as [Hin Hfilter].
    exists current. split_and!; try done.
    intros n ns Hnames. simpl. rewrite <- Hname. by eapply Hfilter.
  - etrans; [by eapply length_scan_groups|].
    etrans; [apply length_groupby_kpi_name|].
    rewrite <- Hframe. apply length_read_kpi_frame.
Qed.

End scorer_store.

Section scorer_order.
Import Anomaly Spec Further.
Context `{Sqrt}.

Implicit Types (values rest group : list kpi_row) (current : kpi_row).
Implicit Types (threshold : Q) (window_days min_history : Z).
Implicit Types (lookup : gmap (string * Z) (option string)).

Lemma StronglySorted_sublist {A} (R : relation A) (l1 l2 : list A) :
  l1 `sublist_of` l2 → StronglySorted R l2 → StronglySorted R l1.
Proof.
  induction 1 as [|x l1 l2 Hsub IH|x l1 l2 Hsub IH]; intros Hs.
  - constructor.
  - apply StronglySorted_inv in Hs as [Hs Hall]. constructor; [by apply IH|].
    apply Forall_forall. intros y Hy. rewrite Forall_forall in Hall.
    apply Hall. by eapply sublist_subseteq.
  - apply StronglySorted_inv in Hs as [Hs _]. by apply IH.
Qed.

Lemma StronglySorted_NoDup_strict {A} (R : relation A) (l : list A) :
  StronglySorted R l → NoDup l → StronglySorted (λ a b, R a b ∧ a ≠ b) l.
Proof.
  induction 1 as [|x l Hs IH Hall]; intros Hnd; [constructor|].
  apply NoDup_cons in Hnd as [Hx Hnd]. constructor; [by apply IH|].
  rewrite Forall_forall in Hall. apply Forall_forall. intros y Hy.
  split; [by apply Hall|]. intros ->. done.
Qed.

Lemma series_dates_sorted group :
  StronglySorted Z.le (date <$> sort_by date_leb group).
Proof.
  apply (StronglySorted_fmap date (λ a b, (date a ≤ date b)%Z) Z.le); [done|].
  apply Sorted_StronglySorted.
  { intros a b c. apply Z.le_trans. }
  eapply Sorted_weaken; [|apply (sort_by_Sorted date_leb)].
  - intros a b Hab. by apply Z.leb_le.
  - intros a b. unfold date_leb. rewrite !Z.leb_le. lia.
Qed.

Lemma group_names_sorted (frame : list kpi_row) :
  StronglySorted (λ a b, String.le a b ∧ a ≠ b)
    (fst <$> groupby_kpi_name frame).
Proof.
  unfold groupby_kpi_name. rewrite <- list_fmap_compose.
  rewrite (list_fmap_ext _ id) by done. rewrite list_fmap_id.
  apply StronglySorted_NoDup_strict.
  - apply Sorted_StronglySorted; [apply _|].
    eapply Sorted_weaken; [|apply (sort_by_Sorted String.leb)].
    + intros a b Hab. unfold String.le. by rewrite Hab.
    + apply String.leb_total.
  - rewrite sort_by_Permutation. apply NoDup_remove_dups.
Qed.

Lemma scan_series_dates threshold window_days min_history lookup
    (now name : string) values idx rest out :
  scan_series threshold window_days min_history lookup now name values idx rest
    = Some out →
  a_date <$> out `sublist_of` date <$> rest ∧
  Forall (λ r, a_kpi_name r = name) out.
Proof.
  revert idx out. induction rest as [|c rest IH]; intros idx out; simpl.
  - intros [= <-]. by split.
  - destruct (score_index _ _ _ idx c) as [s|] eqn:Hs; [|done]. simpl.
    destruct (scan_series _ _ _ _ _ _ _ _ _) as [out'|] eqn:Hout; [|done].
    simpl. intros [= <-]. destruct (IH _ _ Hout) as [Hsub Hall].
    destruct s as [|b sc]; simpl.
    + split; [by apply sublist_cons|done].
    + destruct (fgtb sc (Fin threshold)); simpl.
      * split; [by apply sublist_skip|by constructor].
      * split; [by apply sublist_cons|done].
Qed.

Lemma same_name_sorted (name : string) (out : list anomaly) :
  Forall (λ r, a_kpi_name r = name) out →
  StronglySorted Z.le (a_date <$> out) →
  StronglySorted reported_before out.
Proof.
  induction 1 as [|r out Hr Hall IH]; [constructor|].
  rewrite fmap_cons. intros [Hs Hle]%StronglySorted_inv.
  constructor; [by apply IH|].
  rewrite Forall_fmap in Hle.
  rewrite Forall_forall in Hall. rewrite Forall_forall in Hle.
  apply Forall_forall. intros r' Hr'.
  right. split; [by rewrite (Hall _ Hr')|exact (Hle _ Hr')].
Qed.

Lemma scan_groups_sorted threshold window_days min_history lookup
    (now : string) (groups : list (string * list kpi_row)) out :
  scan_groups threshold window_days min_history lookup now groups = Some out →
  StronglySorted (λ a b, String.le a b ∧ a ≠ b) (fst <$> groups) →
  StronglySorted reported_before out ∧
  Forall (λ r, a_kpi_name r ∈ fst <$> groups) out.
Proof.
  revert out. induction groups as [|[name group] groups IH]; intros out; simpl.
  - intros [= <-] _. split; constructor.
  - destruct (scan_series _ _ _ _ _ _ _ _ _) as [out1|] eqn:Hout1; [|done].
    simpl. destruct (scan_groups _ _ _ _ _ _) as [out2|] eqn:Hout2; [|done].
    simpl. intros [= <-] [Hnames Hfirst]%StronglySorted_inv.
    destruct (IH _ eq_refl Hnames) as [Hs2 Hin2].
    destruct (scan_series_dates _ _ _ _ _ _ _ _ _ _ Hout1) as [Hsub Hall1].
    split.
    + apply StronglySorted_app. split_and!; [|
        |done].
      * intros r1 r2 Hr1 Hr2. left.
        rewrite Forall_forall in Hall1. rewrite Forall_forall in Hin2.
        rewrite Forall_forall in Hfirst.
        rewrite (Hall1 _ Hr1). apply Hfirst. by apply Hin2.
      * apply (same_name_sorted name); [done|].
        eapply StronglySorted_sublist; [exact Hsub|].
        apply series_dates_sorted.
    + apply Forall_app. split.
      * eapply Forall_impl; [exact Hall1|]. intros r ->. by left.
      * eapply Forall_impl; [exact Hin2|]. intros r Hr. by right.
Qed.

(** X6. The returned records, and so the rows inserted into the anomaly table,
    come in ascending order of KPI name and, within a KPI, of date. *)
Theorem records_ordered_by_kpi_then_date (conn : connection) threshold
    window_days min_history (kpi_names : option (list string)) (now : string) :
  ∃ out conn',
    recompute_anomalies conn threshold window_days min_history kpi_names now
      = Some (out, conn') ∧
    StronglySorted reported_before out.
Proof.
  destruct (recompute_anomalies_is_Some conn threshold window_days min_history
              kpi_names now) as [[out conn'] Hrun].
  exists out, conn'. split; [done|].
  rewrite recompute_anomalies_unfold in Hrun.
  destruct (read_kpi_frame conn kpi_names) as [|row frame].
  { injection Hrun as <- <-. constructor. }
  destruct (scan_groups _ _ _ _ _ _) as [out'|] eqn:Hscan; [|done].
  injection Hrun as <- <-.
  by destruct (scan_groups_sorted _ _ _ _ _ _ _ Hscan
                 (group_names_sorted (row :: frame))).
Qed.

End scorer_order.

(** * Further properties of the attribution *)

Section attribution_rows.
Import Drivers DriverSpec.

Lemma Qsum_cons (x : Q) (l : list Q) : Qsum (x :: l) = (x + Qsum l)%Q.
Proof. done. Qed.

(** The rows of a dimension with the values they were made from. *)
Lemma _build_driver_rows_values (dimension : string)
    (anomaly_df baseline_df : list agg_row) (top_n : Z) :
  let merged := merge_frames anomaly_df baseline_df in
  let total := total_num_delta merged in
  ∃ vs,
    Forall2 (λ m v, row_computation total m = Some v) merged vs ∧
    _build_driver_rows dimension anomaly_df baseline_df top_n =
      Some (zip_with (row_dict dimension) merged vs,
            drop_driver_score <$>
              frame_head top_n
                (sort_values_desc
                   (λ r, [driver_score_col r; contribution_share r])
                   (data_frame (zip_with (row_dict dimension) merged vs)))).
Proof.
  intros merged total. rewrite _build_driver_rows_unfold. cbv zeta.
  fold merged. fold total.
  assert (∃ vs, Forall2 (λ m v, row_computation total m = Some v) merged vs ∧
                mapM (build_row dimension total) merged
                  = Some (zip_with (row_dict dimension) merged vs))
    as (vs & Hvs & ->); [|exists vs; split; [done|reflexivity]].
  clearbody total. clearbody merged.
  induction merged as [|m merged (vs & Hvs & IH)].
  - exists []. split; [constructor|done].
  - destruct (row_computation_Some total m) as (v & Hv & _).
    exists (v :: vs). split; [by constructor|].
    rewrite mapM_Some in IH. apply mapM_Some. simpl. constructor; [|done].
    unfold build_row. by rewrite Hv.
Qed.

Lemma shares_sum (total : Q) (merged : list merged_row) (vs : list row_values) :
  ¬ (total == 0)%Q →
  Forall2 (λ m v, row_computation total m = Some v) merged vs →
  (Qsum (v_contribution_share <$> vs) ==
   (Qsum (numerator_anomaly <$> merged) - Qsum (numerator_baseline <$> merged))
     / total)%Q.
Proof.
  intros Hnz. induction 1 as [|m v merged vs Hv Hall IH].
  - simpl. by field.
  - rewrite !fmap_cons, !Qsum_cons, IH.
    destruct (row_computation_Some total m)
      as (v' & Hv' & _ & _ & _ & _ & Hnd & Hcs).
    rewrite Hv in Hv'. injection Hv' as <-.
    rewrite Hcs, Hnd. rewrite (proj2 (Qeq_bool_false _ _) Hnz). by field.
Qed.

Lemma rounded_shares_sum (dimension : string) (merged : list merged_row)
    (vs : list row_values) :
  length merged = length vs →
  (Qabs (Qsum (contribution_share <$> zip_with (row_dict dimension) merged vs)
         - Qsum (v_contribution_share <$> vs))
   <= inject_Z (Z.of_nat (length vs)) * ((1 # 2) / pow10 6))%Q.
Proof.
  revert vs. induction merged as [|m merged IH]; intros [|v vs] Hlen;
    try done.
  - simpl in Hlen. injection Hlen as Hlen. specialize (IH _ Hlen).
    cbn [zip_with fmap list_fmap]. rewrite !Qsum_cons.
    cbn [row_dict contribution_share length].
    rewrite Nat2Z.inj_succ, <- Z.add_1_r, inject_Z_plus.
    pose proof (py_round_error (v_contribution_share v) 6) as Hone.
    set (a := py_round _ 6) in *. set (b := v_contribution_share v) in *.
    set (x := Qsum _) in *. set (y := Qsum _) in *.
    set (e := ((1 # 2) / pow10 6)%Q) in *.
    set (n := inject_Z _) in *. change (inject_Z 1) with 1%Q.
    apply Qabs_Qle_condition in IH as [IH1 IH2].
    apply Qabs_Qle_condition in Hone as [H1 H2].
    apply Qabs_Qle_condition. split; lra.
Qed.

(** X7. Within a dimension whose total numerator delta is not zero, the
    contribution shares computed for the segments add up to exactly 1; the
    shares stored in the rows are rounded to six decimals, so their sum is
    within half a millionth per row of 1. *)
Theorem contribution_shares_sum_to_one (dimension : string)
    (anomaly_df baseline_df : list agg_row) (top_n : Z) :
  let merged := merge_frames anomaly_df baseline_df in
  ¬ (total_num_delta merged == 0)%Q →
  ∃ vs rows top_rows,
    Forall2 (λ m v, row_computation (total_num_delta merged) m = Some v)
      merged vs ∧
    _build_driver_rows dimension anomaly_df baseline_df top_n
      = Some (rows, top_rows) ∧
    rows = zip_with (row_dict dimension) merged vs ∧
    (Qsum (v_contribution_share <$> vs) == 1)%Q ∧
    (Qabs (Qsum (contribution_share <$> rows) - 1)
     <= inject_Z (Z.of_nat (length rows)) * (1 # 2000000))%Q.
Proof.
  intros merged Hnz.
  destruct (_build_driver_rows_values dimension anomaly_df baseline_df top_n)
    as (vs & Hvs & Hrun). fold merged in Hvs, Hrun.
  eexists vs, _, _. split; [done|]. split; [exact Hrun|]. split; [done|].
  assert ((Qsum (v_contribution_share <$> vs) == 1)%Q) as Hsum.
  { rewrite (shares_sum _ _ _ Hnz Hvs). unfold total_num_delta in *.
    cbv zeta in *. by field. }
  split; [done|].
  pose proof (Forall2_length _ _ _ Hvs) as Hlen.
  pose proof (rounded_shares_sum dimension merged vs Hlen) as Hround.
  rewrite Hsum in Hround.
  rewrite length_zip_with, <- Hlen, Nat.min_id.
  by rewrite Hlen.
Qed.

Lemma driver_score_row (dimension : string) (m : merged_row)
    (v : row_values) :
  ∃ s, driver_score (row_dict dimension m v) = Some s ∧
       (0 <= s)%Q ∧
       ((s == 0)%Q ↔ (v_numerator_delta v == 0)%Q).
Proof.
  eexists. split; [done|].
  pose proof (Qabs_nonneg (v_numerator_delta v)) as Hnd.
  pose proof (Q.le_max_l 0.01 (Qabs (v_delta_abs v))) as Hfloor.
  set (a := Qabs (v_numerator_delta v)) in *.
  set (f := Qmax 0.01 _) in *.
  assert ((a * 0.01 <= a * f)%Q) as Hle.
  { rewrite !(Qmult_comm a). by apply Qmult_le_compat_r. }
  split; [lra|]. split.
  - intros Hz. apply Qmult_integral in Hz as [Hz|Hz]; [|lra].
    assert ((Qabs (v_numerator_delta v) <= 0)%Q) as Hab by (fold a; lra).
    apply Qabs_Qle_condition in Hab as [H1 H2]. lra.
  - intros Hz. unfold a. rewrite Hz. apply (Qmult_0_l f).
Qed.

(** X8. The ranking signal of every row of a dimension is present and never
    negative, and it is zero only for a segment whose numerator is the same
    on the anomaly day as in the baseline: the floor of 0.01 keeps a
    segment with a volume shift but no rate shift in the ranking. *)
Theorem driver_score_zero_iff_no_volume_shift (dimension : string)
    (anomaly_df baseline_df : list agg_row) (top_n : Z) :
  ∃ rows top_rows,
    _build_driver_rows dimension anomaly_df baseline_df top_n
      = Some (rows, top_rows) ∧
    Forall2
      (λ m r, ∃ s, driver_score r = Some s ∧
                   (0 <= s)%Q ∧
                   ((s == 0)%Q ↔
                    (numerator_anomaly m == numerator_baseline m)%Q))
      (merge_frames anomaly_df baseline_df) rows.
Proof.
  destruct (_build_driver_rows_values dimension anomaly_df baseline_df top_n)
    as (vs & Hvs & Hrun). cbv zeta in Hvs.
  eexists _, _. split; [exact Hrun|]. clear Hrun.
  set (total := total_num_delta _) in Hvs. clearbody total.
  induction Hvs as [|m v merged vs Hv Hall IH]; [constructor|].
  simpl. constructor; [|exact IH].
  destruct (row_computation_Some total m)
    as (v' & Hv' & _ & _ & _ & _ & Hnd & _).
  rewrite Hv in Hv'. injection Hv' as <-.
  destruct (driver_score_row dimension m v) as (s & Hs & Hpos & Hzero).
  exists s. split_and!; [done|done|].
  rewrite Hzero, Hnd. split; intros Heq; lra.
Qed.

End attribution_rows.

Section attribution_frames.
Import Drivers DriverSpec.

Lemma elem_of_frame_head {A} (n : Z) (l : list A) (x : A) :
  x ∈ frame_head n l → x ∈ l.
Proof.
  unfold frame_head. destruct (0 <=? n)%Z; apply sublist_subseteq, sublist_take.
Qed.

Lemma length_frame_head {A} (n : Z) (l : list A) :
  (0 ≤ n)%Z → length (frame_head n l) ≤ Z.to_nat n.
Proof.
  intros Hn. rewrite frame_head_nonneg by done. rewrite length_take. lia.
Qed.

Lemma length_frame_head_le {A} (n : Z) (l : list A) :
  length (frame_head n l) ≤ length l.
Proof.
  unfold frame_head. destruct (0 <=? n)%Z; rewrite length_take; lia.
Qed.

Lemma elem_of_sort_values_desc {A} (keys : A → list Q) (l : list A) (x : A) :
  x ∈ sort_values_desc keys l ↔ x ∈ l.
Proof. unfold sort_values_desc. apply elem_of_sort_by. Qed.

(** The frame of a list of rows holds every row as it reads back. *)
Lemma data_frame_read_back (rows : list driver_row) :
  data_frame rows = read_back rows <$> rows.
Proof.
  unfold data_frame, read_back, float_column. case_bool_decide; [done|].
  by rewrite list_fmap_id.
Qed.

Lemma elem_of_data_frame (rows : list driver_row) (d : driver_row) :
  d ∈ data_frame rows ↔ ∃ r, r ∈ rows ∧ d = read_back rows r.
Proof.
  rewrite data_frame_read_back, list_elem_of_fmap.
  split; intros (r & H1 & H2); by exists r.
Qed.

Lemma length_data_frame (rows : list driver_row) :
  length (data_frame rows) = length rows.
Proof. by rewrite data_frame_read_back, length_fmap. Qed.

(** Reading back changes nothing but a null [delta_pct]. *)
Lemma read_back_fields (rows : list driver_row) (r : driver_row) :
  dr_dimension (read_back rows r) = dr_dimension r ∧
  dr_segment (read_back rows r) = dr_segment r ∧
  delta_abs (read_back rows r) = delta_abs r ∧
  contribution_share (read_back rows r) = contribution_share r ∧
  supporting_stats (read_back rows r) = supporting_stats r ∧
  driver_score (read_back rows r) = driver_score r ∧
  delta_pct (read_back rows r) =
    match delta_pct r with
    | Some p => Some p
    | None => if bool_decide (float_column rows) then Some NaN else None
    end.
Proof.
  unfold read_back. case_bool_decide; simpl; split_and!; try done.
  - by destruct (delta_pct r).
  - by destruct (delta_pct r).
Qed.

(** What [_build_driver_rows] returns, row by row. *)
Lemma _build_driver_rows_shape (dimension : string)
    (anomaly_df baseline_df : list agg_row) (top_n : Z) rows top_rows :
  _build_driver_rows dimension anomaly_df baseline_df top_n
    = Some (rows, top_rows) →
  Forall (λ r, dr_dimension r = dimension ∧ is_Some (driver_score r)) rows ∧
  (∀ t, t ∈ top_rows →
        ∃ r, r ∈ rows ∧ t = drop_driver_score (read_back rows r)) ∧
  length top_rows ≤ length rows ∧
  ((0 ≤ top_n)%Z → length top_rows ≤ Z.to_nat top_n).
Proof.
  destruct (_build_driver_rows_values dimension anomaly_df baseline_df top_n)
    as (vs & Hvs & ->). intros [= <- <-]. split_and!.
  - apply Forall_forall. intros r Hr.
    apply list_elem_of_lookup_1 in Hr as [i Hr].
    apply lookup_zip_with_Some in Hr as (m & v & -> & _ & _).
    split; [done|]. by eexists.
  - intros t Ht. apply list_elem_of_fmap in Ht as (d & -> & Hd).
    apply elem_of_frame_head, elem_of_sort_values_desc in Hd.
    apply elem_of_data_frame in Hd as (r & Hr & ->). by exists r.
  - rewrite length_fmap. etrans; [apply length_frame_head_le|].
    unfold sort_values_desc. by rewrite sort_by_Permutation, length_data_frame.
  - intros Hn. rewrite length_fmap. by apply length_frame_head.
Qed.

(** *** The outer merge *)

Context {L G : Type} (key : L → string).

Lemma merge_outer_elem (left : list L) (right : list (string * G))
    (k : string) (a : option L) (g : option G) :
  (k, a, g) ∈ merge_outer key left right →
  (k ∈ key <$> left ∨ k ∈ fst <$> right) ∧
  g = snd <$> head (filter (λ p, fst p = k) right) ∧
  (match a with
   | Some r => r ∈ left ∧ key r = k
   | None => k ∉ key <$> left
   end).
Proof.
  unfold merge_outer. rewrite list_elem_of_In, in_flat_map.
  intros (k' & Hk' & Hin).
  apply list_elem_of_In in Hk'. apply list_elem_of_In in Hin.
  rewrite elem_of_sort_by, elem_of_remove_dups, elem_of_app in Hk'.
  destruct (filter (λ r, key r = k') left) as [|r rows] eqn:Hrows.
  - apply list_elem_of_singleton in Hin as [= -> -> ->].
    split_and!; [done|done|].
    intros (r & -> & Hr)%list_elem_of_fmap.
    assert (r ∈ filter (λ r', key r' = key r) left) as Hin
      by (by apply list_elem_of_filter).
    rewrite Hrows in Hin. by apply elem_of_nil in Hin.
  - apply list_elem_of_fmap in Hin as (r' & [= -> -> ->] & Hr').
    rewrite <- Hrows in Hr'. apply list_elem_of_filter in Hr' as [? ?].
    by split_and!.
Qed.

Lemma merge_outer_covers (left : list L) (right : list (string * G))
    (k : string) :
  k ∈ key <$> left ∨ k ∈ fst <$> right →
  ∃ a g, (k, a, g) ∈ merge_outer key left right.
Proof.
  intros Hk. unfold merge_outer.
  assert (k ∈ sort_by String.leb (remove_dups ((key <$> left) ++ (fst <$> right))))
    as Hin by (by rewrite elem_of_sort_by, elem_of_remove_dups, elem_of_app).
  destruct (filter (λ r, key r = k) left) as [|r rows] eqn:Hrows.
  - eexists None, _. rewrite list_elem_of_In, in_flat_map.
    exists k. split; [by apply list_elem_of_In|]. apply list_elem_of_In.
    rewrite Hrows. by apply list_elem_of_singleton.
  - eexists (Some r), _. rewrite list_elem_of_In, in_flat_map.
    exists k. split; [by apply list_elem_of_In|]. apply list_elem_of_In.
    rewrite Hrows. rewrite fmap_cons. by left.
Qed.

End attribution_frames.

Section attribution_segments.
Import Drivers DriverSpec.

Lemma groupby_mean_keys {R G} (key : R → string) (mean_of : list R → G)
    (df : list R) :
  fst <$> groupby_mean key mean_of df
    = sort_by String.leb (remove_dups (key <$> df)).
Proof.
  unfold groupby_mean. rewrite <- list_fmap_compose.
  induction (sort_by _ _) as [|k ks IH]; [done|].
  rewrite fmap_cons. by f_equal.
Qed.

Lemma elem_of_groupby_mean_keys {R G} (key : R → string)
    (mean_of : list R → G) (df : list R) (k : string) :
  k ∈ fst <$> groupby_mean key mean_of df ↔ k ∈ key <$> df.
Proof.
  by rewrite groupby_mean_keys, elem_of_sort_by, elem_of_remove_dups.
Qed.

Lemma filter_key_nil {G} (k : string) (l : list (string * G)) :
  k ∉ fst <$> l → filter (λ p, fst p = k) l = [].
Proof.
  intros Hk. induction l as [|p l IH]; [done|].
  rewrite fmap_cons, not_elem_of_cons in Hk. destruct Hk as [Hp Hl].
  rewrite filter_cons_False by (intros Heq; by apply Hp). by apply IH.
Qed.

(** The segments of the merged frame are those of either window. *)
Lemma elem_of_merge_frames_segments (anomaly_df baseline_df : list agg_row)
    (s : string) :
  s ∈ m_segment <$> merge_frames anomaly_df baseline_df ↔
  s ∈ segment_label <$> anomaly_df ∨ s ∈ segment_label <$> baseline_df.
Proof.
  unfold merge_frames. cbv zeta. rewrite <- list_fmap_compose. split.
  - intros ([[k a] g] & -> & Hm)%list_elem_of_fmap.
    apply merge_outer_elem in Hm as ([Hk|Hk] & _ & _); [by left|].
    right. by apply elem_of_groupby_mean_keys in Hk.
  - intros Hs.
    destruct (merge_outer_covers segment_label anomaly_df
                (groupby_mean segment_label
                   (λ g, (Qmean (numerator <$> g), Qmean (denominator <$> g)))
                   baseline_df) s) as (a & g & Hm).
    { destruct Hs as [Hs|Hs]; [by left|].
      right. by apply elem_of_groupby_mean_keys. }
    apply list_elem_of_fmap. by exists (s, a, g).
Qed.

(** A merged row of a segment without baseline rows has a zero baseline. *)
Lemma merge_frames_no_baseline (anomaly_df baseline_df : list agg_row)
    (m : merged_row) :
  m ∈ merge_frames anomaly_df baseline_df →
  m_segment m ∉ segment_label <$> baseline_df →
  numerator_baseline m = 0%Q ∧ denominator_baseline m = 0%Q.
Proof.
  unfold merge_frames. cbv zeta.
  intros ([[k a] g] & -> & Hm)%list_elem_of_fmap Hk.
  apply merge_outer_elem in Hm as (_ & -> & _). cbn [fill_zero m_segment] in Hk.
  rewrite filter_key_nil; [done|].
  by rewrite elem_of_groupby_mean_keys.
Qed.

Lemma segments_zip_with (dimension : string) (merged : list merged_row)
    (vs : list row_values) :
  length merged = length vs →
  dr_segment <$> zip_with (row_dict dimension) merged vs = m_segment <$> merged.
Proof.
  revert vs. induction merged as [|m merged IH]; intros [|v vs] Hlen; try done.
  cbn [zip_with]. rewrite !fmap_cons. f_equal. apply IH. by injection Hlen.
Qed.

(** X9. Every segment seen on the anomaly day or in the baseline window gets a
    row, whichever side it is missing from, and no other segment does; a
    null segment goes under the label "Unknown". *)
Theorem driver_rows_cover_both_windows (dimension : string)
    (anomaly_df baseline_df : list agg_row) (top_n : Z) :
  ∃ rows top_rows,
    _build_driver_rows dimension anomaly_df baseline_df top_n
      = Some (rows, top_rows) ∧
    ∀ s, s ∈ dr_segment <$> rows ↔
         s ∈ segment_label <$> anomaly_df ∨ s ∈ segment_label <$> baseline_df.
Proof.
  destruct (_build_driver_rows_values dimension anomaly_df baseline_df top_n)
    as (vs & Hvs & Hrun). cbv zeta in Hvs.
  eexists _, _. split; [exact Hrun|]. intros s.
  rewrite segments_zip_with by (by eapply Forall2_length).
  apply elem_of_merge_frames_segments.
Qed.

(** X10. A segment that has rows on the anomaly day but none in the baseline
    window is compared with a baseline of zero: its baseline numerator,
    denominator and rate are zero, and its relative change is null rather
    than a division by zero. In the row the loop writes the null is [None];
    in an evidence row, which is read back from the frame of the
    dimension's rows, it is [nan] when another row of the dimension has a
    number there, and [None] otherwise. *)
Theorem new_segment_has_null_relative_change (dimension : string)
    (anomaly_df baseline_df : list agg_row) (top_n : Z) :
  ∃ rows top_rows,
    _build_driver_rows dimension anomaly_df baseline_df top_n
      = Some (rows, top_rows) ∧
    (∀ r, r ∈ rows →
          dr_segment r ∉ segment_label <$> baseline_df →
          delta_pct r = None ∧
          ("baseline_numerator", py_round 0 4) ∈ supporting_stats r ∧
          ("baseline_denominator", py_round 0 4) ∈ supporting_stats r ∧
          ("baseline_rate", py_round 0 6) ∈ supporting_stats r) ∧
    (∀ t, t ∈ top_rows →
          dr_segment t ∉ segment_label <$> baseline_df →
          delta_pct t =
            (if bool_decide (float_column rows) then Some NaN else None) ∧
          ("baseline_numerator", py_round 0 4) ∈ supporting_stats t ∧
          ("baseline_denominator", py_round 0 4) ∈ supporting_stats t ∧
          ("baseline_rate", py_round 0 6) ∈ supporting_stats t).
Proof.
  destruct (_build_driver_rows_values dimension anomaly_df baseline_df top_n)
    as (vs & Hvs & Hrun). cbv zeta in Hvs.
  eexists _, _. split; [exact Hrun|].
  set (merged := merge_frames anomaly_df baseline_df) in *.
  set (total := total_num_delta merged) in *.
  set (rows := zip_with (row_dict dimension) merged vs).
  assert (∀ r, r ∈ rows →
               dr_segment r ∉ segment_label <$> baseline_df →
               delta_pct r = None ∧
               ("baseline_numerator", py_round 0 4) ∈ supporting_stats r ∧
               ("baseline_denominator", py_round 0 4) ∈ supporting_stats r ∧
               ("baseline_rate", py_round 0 6) ∈ supporting_stats r) as Hrows.
  { intros r Hr Hseg. apply list_elem_of_lookup_1 in Hr as [i Hr].
    apply lookup_zip_with_Some in Hr as (m & v & -> & Hm & Hv).
    pose proof (Forall2_lookup_lr _ _ _ _ _ _ Hvs Hm Hv) as Hcomp.
    destruct (merge_frames_no_baseline anomaly_df baseline_df m)
      as [Hnum Hden]; [by eapply list_elem_of_lookup_2|done|].
    destruct (row_computation_Some total m)
      as (v' & Hv' & _ & Hbr & _ & Hpct & _).
    rewrite Hcomp in Hv'. injection Hv' as <-.
    rewrite Hnum, Hden in Hbr. injection Hbr as Hbr.
    rewrite <- Hbr in Hpct.
    cbn [row_dict delta_pct supporting_stats]. rewrite Hpct, Hnum, Hden, <- Hbr.
    split; [done|]. split_and!; set_solver. }
  split; [exact Hrows|].
  intros t Ht Hseg.
  apply list_elem_of_fmap in Ht as (d & -> & Hd).
  apply elem_of_frame_head, elem_of_sort_values_desc in Hd.
  apply elem_of_data_frame in Hd as (r & Hr & ->).
  destruct (read_back_fields rows r) as (_ & Hs & _ & _ & Hstats & _ & Hpct).
  cbn [drop_driver_score dr_segment delta_pct supporting_stats] in *.
  rewrite Hs in Hseg. destruct (Hrows r Hr Hseg) as (Hnone & H1 & H2 & H3).
  rewrite Hpct, Hnone, Hstats. by split_and!.
Qed.

End attribution_segments.

Section attribution_results.
Import Drivers DriverSpec.

Lemma elem_of_ranking_pool (all_rows : list driver_row) (r : driver_row) :
  r ∈ ranking_pool all_rows → r ∈ all_rows.
Proof.
  unfold ranking_pool.
  destruct (filter _ all_rows) as [|p pool] eqn:Hpool; [done|].
  rewrite <- Hpool. intros Hr. by apply list_elem_of_filter in Hr as [_ Hr].
Qed.

Lemma elem_of_rank_drivers (all_rows : list driver_row) (top_n : Z)
    (d : driver_row) :
  d ∈ rank_drivers all_rows top_n →
  ∃ r, r ∈ all_rows ∧ d = read_back all_rows r.
Proof.
  unfold rank_drivers. cbv zeta. intros Hd.
  by apply elem_of_frame_head, elem_of_sort_values_desc,
    elem_of_ranking_pool, elem_of_data_frame in Hd.
Qed.

Lemma analyze_dimensions_shape (conn : connection)
    (target_date baseline_start baseline_end : Z)
    (cfgs : list DimensionQueryConfig) all_rows evidence :
  analyze_dimensions conn target_date baseline_start baseline_end cfgs
    = Some (all_rows, evidence) →
  Forall (λ r, is_Some (driver_score r) ∧
               dr_dimension r ∈ ev_dimension <$> evidence) all_rows ∧
  Forall (λ e, length (top_rows e) ≤ 5 ∧
               Forall (λ t, dr_dimension t = ev_dimension e ∧
                            driver_score t = None ∧
                            ∃ r, r ∈ all_rows ∧
                                 (t = drop_driver_score r ∨
                                  t = drop_driver_score (nan_delta_pct r)))
                 (top_rows e)) evidence.
Proof.
  revert all_rows evidence.
  induction cfgs as [|cfg cfgs IH]; intros all_rows evidence; simpl.
  - intros [= <- <-]. by split.
  - destruct (_build_driver_rows _ _ _ 5) as [[rows top]|] eqn:Hbuild;
      [|done].
    destruct (analyze_dimensions _ _ _ _ cfgs) as [[rows' ev']|]; [|done].
    simpl. intros [= <- <-].
    apply _build_driver_rows_shape in Hbuild as (Hrows & Htop & _ & Hlen).
    destruct (IH rows' ev' eq_refl) as [IHrows IHev].
    rewrite Forall_forall in Hrows. split.
    + apply Forall_app. split.
      * apply Forall_forall. intros r Hr. destruct (Hrows r Hr) as [Hd Hs].
        split; [done|]. rewrite fmap_cons. simpl. rewrite Hd. by left.
      * eapply Forall_impl; [exact IHrows|]. intros r [Hs Hd].
        split; [done|]. rewrite fmap_cons. by right.
    + constructor.
      * cbn [top_rows ev_dimension]. split; [by apply Hlen|].
        apply Forall_forall. intros t Ht.
        destruct (Htop t Ht) as (r & Hr & ->).
        destruct (Hrows r Hr) as [Hd _].
        destruct (read_back_fields rows r) as (Hdim & _).
        split_and!; [by rewrite <- Hd, <- Hdim|done|].
        exists r. split; [apply elem_of_app; by left|].
        unfold read_back. case_bool_decide; [by right|by left].
      * eapply Forall_impl; [exact IHev|]. intros e [Hlen' Hts].
        split; [done|]. eapply Forall_impl; [exact Hts|].
        intros t (Hd & Hs & r & Hr & Ht). split_and!; [done|done|].
        exists r. split; [|done]. apply elem_of_app. by right.
Qed.

(** X11. The result of the rate path, whatever [top_n] the caller asks for:
    every evidence entry lists at most five rows, all of the entry's own
    dimension and without the ranking signal, and each is a pooled row with
    that column dropped, in which a null percentage delta may read [nan];
    the drivers are pooled rows as they read back from the frame of all
    pooled rows, they still carry the ranking signal, each is of a
    dimension that has an evidence entry, and there are no more than
    [top_n] of them when [top_n] is not negative. *)
Theorem rate_result_shape (conn : connection) (kpi_name : string)
    (target_date baseline_days top_n : Z) :
  ∃ all_rows res,
    analyze_dimensions conn target_date (target_date - baseline_days)
      (target_date - 1) (_dimension_configs_for_kpi kpi_name)
      = Some (all_rows, evidence res) ∧
    _analyze_rate_kpi conn kpi_name target_date baseline_days top_n
      = Some res ∧
    Forall (λ e, length (top_rows e) ≤ 5 ∧
                 Forall (λ t, dr_dimension t = ev_dimension e ∧
                              driver_score t = None ∧
                              ∃ r, r ∈ all_rows ∧
                                   (t = drop_driver_score r ∨
                                    t = drop_driver_score (nan_delta_pct r)))
                   (top_rows e)) (evidence res) ∧
    Forall (λ d, (∃ r, r ∈ all_rows ∧ d = read_back all_rows r) ∧
                 is_Some (driver_score d) ∧
                 dr_dimension d ∈ ev_dimension <$> evidence res)
      (drivers res) ∧
    ((0 ≤ top_n)%Z → length (drivers res) ≤ Z.to_nat top_n).
Proof.
  destruct (analyze_dimensions_Some conn target_date
              (target_date - baseline_days) (target_date - 1)
              (_dimension_configs_for_kpi kpi_name))
    as (all_rows & ev & Hloop & _).
  exists all_rows,
    {| drivers := match all_rows with
                  | [] => []
                  | _ => rank_drivers all_rows top_n
                  end;
       evidence := ev |}.
  split_and!.
  - exact Hloop.
  - by apply _analyze_rate_kpi_unfold.
  - cbn [evidence]. by apply analyze_dimensions_shape in Hloop as [_ Hev].
  - cbn [drivers evidence].
    apply analyze_dimensions_shape in Hloop as [Hrows _].
    rewrite Forall_forall in Hrows.
    destruct all_rows as [|r0 rest]; [constructor|].
    apply Forall_forall. intros d Hd.
    apply elem_of_rank_drivers in Hd as (r & Hr & ->).
    destruct (Hrows r Hr) as [Hscore Hdim].
    destruct (read_back_fields (r0 :: rest) r)
      as (Hd1 & _ & _ & _ & _ & Hd2 & _).
    split_and!; [by exists r|by rewrite Hd2|by rewrite Hd1].
  - intros Hn. cbn [drivers]. destruct all_rows as [|r0 rest]; [simpl; lia|].
    unfold rank_drivers. cbv zeta. by apply length_frame_head.
Qed.

(** *** The data-quality path *)

Lemma dq_build_row_fields (row : dq_merged_row) (r : driver_row) :
  dq_build_row row = Some r →
  dr_dimension r = "site" ∧ dr_segment r = dq_m_segment row ∧
  driver_score r = None.
Proof.
  unfold dq_build_row.
  destruct (_safe_rate_Some (missing_delivered_anomaly row)
              (delivered_jobs_anomaly row)) as (ar & -> & _).
  destruct (_safe_rate_Some (missing_delivered_baseline row)
              (delivered_jobs_baseline row)) as (br & -> & _).
  cbn [mbind option_bind].
  set (bp := (br * 70 + duplicate_rate_baseline row * 30)%Q).
  set (da := (_ - bp)%Q).
  destruct (Qlt_bool 0 bp) eqn:Hbp.
  - apply Qlt_bool_iff in Hbp. rewrite py_div_Some.
    + cbn [mbind option_bind]. by intros [= <-].
    + intros Hz. rewrite Hz in Hbp. by apply Qlt_irrefl in Hbp.
  - cbn [mbind option_bind]. by intros [= <-].
Qed.

Lemma Qsum_nonneg (l : list Q) : Forall (λ x, (0 <= x)%Q) l → (0 <= Qsum l)%Q.
Proof.
  induction 1 as [|x l Hx _ IH]; [done|]. rewrite Qsum_cons. lra.
Qed.

Lemma Qsum_elem_le (l : list Q) (x : Q) :
  Forall (λ y, (0 <= y)%Q) l → x ∈ l → (x <= Qsum l)%Q.
Proof.
  induction 1 as [|y l Hy Hl IH]; [by intros ?%elem_of_nil|].
  rewrite Qsum_cons. intros [->|Hx]%elem_of_cons.
  - pose proof (Qsum_nonneg l Hl). lra.
  - specialize (IH Hx). lra.
Qed.

(** The share of one row among the non-negative parts of all deltas. *)
Lemma dq_share_bounds (rows : list driver_row) (item : driver_row) :
  item ∈ rows →
  let q := (Qmax 0 (delta_abs item) / dq_total_delta rows)%Q in
  (0 <= q)%Q ∧ (q <= 1)%Q ∧ ((delta_abs item <= 0)%Q → (q == 0)%Q).
Proof.
  intros Hitem. cbv zeta.
  set (parts := (λ r, Qmax 0 (delta_abs r)) <$> rows).
  assert (Forall (λ y, (0 <= y)%Q) parts) as Hparts.
  { apply Forall_fmap, Forall_forall. intros r _. apply Q.le_max_l. }
  assert ((Qmax 0 (delta_abs item) <= Qsum parts)%Q) as Hle.
  { apply Qsum_elem_le; [done|]. apply list_elem_of_fmap. by exists item. }
  pose proof (Q.le_max_l 0 (delta_abs item)) as Hpos.
  unfold dq_total_delta. cbv zeta. fold parts.
  set (x := Qmax 0 (delta_abs item)) in *.
  destruct (Qeq_bool (Qsum parts) 0) eqn:Hs.
  - apply Qeq_bool_iff in Hs.
    assert ((x == 0)%Q) as Hx by lra.
    assert ((x / 1 == 0)%Q) as Hq by (rewrite Hx; reflexivity).
    rewrite Hq. split_and!; [lra|lra|done].
  - apply Qeq_bool_false in Hs.
    assert ((0 < Qsum parts)%Q) as Hsum by lra.
    split_and!.
    + by apply Qdiv_nonneg.
    + apply Qle_shift_div_r; [done|]. lra.
    + intros Hneg. assert ((x == 0)%Q) as Hx.
      { unfold x. rewrite Q.max_l; [reflexivity|done]. }
      rewrite Hx. unfold Qdiv. apply Qmult_0_l.
Qed.

Lemma dq_share_rows_elem (rows shared : list driver_row) (s : driver_row) :
  dq_share_rows rows = Some shared → s ∈ shared →
  ∃ item, item ∈ rows ∧
    s = set_contribution_share
          (py_round (Qmax 0 (delta_abs item) / dq_total_delta rows) 6) item.
Proof.
  unfold dq_share_rows. cbv zeta. intros Hshared Hs.
  apply mapM_Some in Hshared.
  apply list_elem_of_lookup_1 in Hs as [i Hs].
  destruct (Forall2_lookup_r _ _ _ _ _ Hshared Hs) as (item & Hitem & Hrow).
  exists item. split; [by eapply list_elem_of_lookup_2|].
  rewrite py_div_Some in Hrow by apply dq_total_delta_nonzero.
  cbn [mbind option_bind] in Hrow. by injection Hrow.
Qed.

(** X12. On the data-quality path every driver is a site row without a ranking
    signal whose contribution share lies between 0 and 1 and is zero when
    the penalty did not rise; the single evidence entry lists exactly the
    drivers, so here the evidence does follow [top_n]. *)
Theorem data_quality_result_shape (conn : connection)
    (target_date baseline_days top_n : Z) :
  ∃ res,
    _analyze_data_quality conn target_date baseline_days top_n = Some res ∧
    (top_rows <$> evidence res) = [drivers res] ∧
    Forall (λ d, dr_dimension d = "site" ∧ driver_score d = None ∧
                 (0 <= contribution_share d)%Q ∧
                 (contribution_share d <= 1)%Q ∧
                 ((delta_abs d <= 0)%Q → (contribution_share d == 0)%Q))
      (drivers res) ∧
    ((0 ≤ top_n)%Z → length (drivers res) ≤ Z.to_nat top_n).
Proof.
  unfold _analyze_data_quality. cbv zeta.
  set (merged := dq_merge_frames _ _).
  destruct (mapM_is_Some_2 dq_build_row merged) as [rows Hrows].
  { apply Forall_forall. intros row _. apply dq_build_row_is_Some. }
  rewrite Hrows. cbn [mbind option_bind].
  destruct (dq_share_rows_is_Some rows) as [shared Hshared].
  rewrite Hshared. cbn [mbind option_bind].
  eexists. split; [done|]. cbn [drivers evidence]. split; [done|].
  split; [|by apply length_frame_head].
  apply Forall_forall. intros d Hd.
  apply elem_of_frame_head, elem_of_sort_values_desc, elem_of_data_frame in Hd.
  destruct Hd as (s & Hs & ->).
  destruct (read_back_fields shared s) as (-> & _ & -> & -> & _ & -> & _).
  destruct (dq_share_rows_elem rows shared s Hshared Hs) as (item & Hitem & ->).
  apply mapM_Some in Hrows.
  apply list_elem_of_lookup_1 in Hitem as [i Hi].
  destruct (Forall2_lookup_r _ _ _ _ _ Hrows Hi) as (row & _ & Hrow).
  apply dq_build_row_fields in Hrow as (Hdim & _ & Hscore).
  apply list_elem_of_lookup_2 in Hi.
  destruct (dq_share_bounds rows item Hi) as (H0 & H1 & Hz).
  set (q := (Qmax 0 (delta_abs item) / dq_total_delta rows)%Q) in *.
  cbn [set_contribution_share dr_dimension driver_score contribution_share
       delta_abs].
  assert ((inject_Z 0 / pow10 6 == 0)%Q) as E0 by reflexivity.
  assert ((inject_Z 1000000 / pow10 6 == 1)%Q) as E1 by reflexivity.
  split_and!; [done|done|by apply py_round_nonneg| |].
  - rewrite <- E1. apply py_round_le. by rewrite E1.
  - intros Hneg. specialize (Hz Hneg).
    pose proof (py_round_le q 6 0) as Hle.
    pose proof (py_round_ge q 6 0) as Hge.
    rewrite E0 in Hle, Hge. apply Qle_antisym; [apply Hle|apply Hge]; lra.
Qed.

End attribution_results.

(** ** The further properties on the sample stores *)

(** The run endpoint's arguments for a window of seven days. *)
Lemma window_shorter_than_history_flags_nothing_sample :
  ∃ conn',
    Anomaly.recompute_anomalies (H:=sqrt_down) Examples.sample_conn 3 7 8 None
      "2026-02-10T09:00:00+00:00" = Some ([], conn') ∧
    (Anomaly.read_kpi_frame Examples.sample_conn None ≠ [] →
     anomalies conn' = []) ∧
    (Anomaly.read_kpi_frame Examples.sample_conn None = [] →
     conn' = Examples.sample_conn).
Proof.
  apply (window_shorter_than_history_flags_nothing (H:=sqrt_down)
           Examples.sample_conn 3 7 8 None).
  lia.
Defined.

(** The frames of [Examples.attribution_conn]: the numerators rise from 2.5
    to 6. *)
Lemma contribution_shares_sum_to_one_sample :
  let anomaly_df :=
    [Examples.day_row (Some "NorthHaul") 5 10; Examples.day_row None 1 10] in
  let baseline_df :=
    [Examples.base_row 8 (Some "NorthHaul") 1 10;
     Examples.base_row 9 (Some "NorthHaul") 2 10;
     Examples.base_row 8 (Some "Dover") 1 0] in
  let merged := Drivers.merge_frames anomaly_df baseline_df in
  ∃ vs rows top_rows,
    Forall2 (λ m v, Drivers.row_computation (Drivers.total_num_delta merged) m
                      = Some v) merged vs ∧
    Drivers._build_driver_rows "site" anomaly_df baseline_df 5
      = Some (rows, top_rows) ∧
    rows = zip_with (Drivers.row_dict "site") merged vs ∧
    (Qsum (Drivers.v_contribution_share <$> vs) == 1)%Q ∧
    (Qabs (Qsum (Drivers.contribution_share <$> rows) - 1)
     <= inject_Z (Z.of_nat (length rows)) * (1 # 2000000))%Q.
Proof.
  apply (contribution_shares_sum_to_one "site"
           [Examples.day_row (Some "NorthHaul") 5 10;
            Examples.day_row None 1 10]
           [Examples.base_row 8 (Some "NorthHaul") 1 10;
            Examples.base_row 9 (Some "NorthHaul") 2 10;
            Examples.base_row 8 (Some "Dover") 1 0] 5).
  vm_compute. discriminate.
Defined.

(** * The callers *)

(** ** The snapshot of [ai/explain.py] *)

Section snapshot_properties.
Import Anomaly Explain Spec.
Context `{Sqrt}.

Lemma head_filter_None {A} (P : A → Prop) `{!∀ x, Decision (P x)}
    (l : list A) :
  head (filter P l) = None ↔ ∀ x, x ∈ l → ¬ P x.
Proof.
  rewrite head_None. split.
  - intros Hnil x Hx HP.
    assert (x ∈ filter P l) as Hin by (by apply list_elem_of_filter).
    rewrite Hnil in Hin. by apply elem_of_nil in Hin.
  - intros Hnone. apply elem_of_nil_inv. intros x [HP Hx]%list_elem_of_filter.
    by apply (Hnone x).
Qed.

Lemma value_row_None (conn : connection) (k : string) (d : Z) :
  value_row conn k d = None ↔
  ∀ row, row ∈ fact_kpi_daily conn → ¬ (kpi_name row = k ∧ date row = d).
Proof. apply head_filter_None. Qed.

Lemma value_row_Some (conn : connection) (k : string) (d : Z) (row : kpi_row) :
  value_row conn k d = Some row →
  row ∈ fact_kpi_daily conn ∧ kpi_name row = k ∧ date row = d.
Proof.
  unfold value_row. intros Hrow. apply head_Some_elem_of in Hrow.
  apply list_elem_of_filter in Hrow. tauto.
Qed.

Lemma score_desc_total (r1 r2 : anomaly) :
  score_desc r1 r2 = true ∨ score_desc r2 r1 = true.
Proof.
  unfold score_desc. destruct (a_score r1) as [x|], (a_score r2) as [y|];
    try tauto.
  rewrite !Qle_bool_iff. destruct (Qlt_le_dec x y) as [Hlt%Qlt_le_weak|Hle];
    tauto.
Qed.

Lemma score_desc_trans (r1 r2 r3 : anomaly) :
  score_desc r1 r2 = true → score_desc r2 r3 = true →
  score_desc r1 r3 = true.
Proof.
  unfold score_desc.
  destruct (a_score r1) as [x|], (a_score r2) as [y|], (a_score r3) as [z|];
    try done.
  rewrite !Qle_bool_iff. intros H1 H2. by apply (Qle_trans _ y).
Qed.

(** The row the anomaly query returns: a stored record of the KPI and the
    date, with no stored record of them scoring higher. *)
Lemma anomaly_row_Some (conn : connection) (k : string) (d : Z) (a : anomaly) :
  anomaly_row conn k d = Some a →
  a ∈ anomalies conn ∧ a_kpi_name a = k ∧ a_date a = d ∧
  ∀ a', a' ∈ anomalies conn → a_kpi_name a' = k → a_date a' = d →
        score_desc a a' = true.
Proof.
  unfold anomaly_row.
  set (rows := filter _ (anomalies conn)). intros Hhead.
  pose proof (sort_by_Sorted score_desc score_desc_total rows) as Hsorted.
  assert (∀ a', a' ∈ rows ↔
                a' ∈ anomalies conn ∧ a_kpi_name a' = k ∧ a_date a' = d)
    as Hrows.
  { intros a'. unfold rows. rewrite list_elem_of_filter. tauto. }
  pose proof (elem_of_sort_by score_desc) as Hperm.
  destruct (sort_by score_desc rows) as [|a0 sorted] eqn:Hs; [done|].
  injection Hhead as ->.
  assert (a ∈ rows) as Ha by (apply (Hperm a rows); rewrite Hs; by left).
  apply Hrows in Ha as (Ha & Hk & Hd). split_and!; [done|done|done|].
  intros a' Ha' Hk' Hd'.
  assert (a' ∈ a :: sorted) as Hin.
  { rewrite <- Hs. apply Hperm, Hrows. by split_and!. }
  apply Sorted_StronglySorted in Hsorted;
    [|intros x y z; apply score_desc_trans].
  apply StronglySorted_inv in Hsorted as [_ Hall].
  apply elem_of_cons in Hin as [->|Hin].
  - by destruct (score_desc_total a a).
  - rewrite Forall_forall in Hall. by apply Hall.
Qed.

Lemma anomaly_row_None (conn : connection) (k : string) (d : Z) :
  anomaly_row conn k d = None ↔
  ∀ a, a ∈ anomalies conn → ¬ (a_kpi_name a = k ∧ a_date a = d).
Proof.
  unfold anomaly_row. rewrite <- head_filter_None, !head_None. split.
  - intros Hs. apply Permutation_nil_r. by rewrite <- Hs, sort_by_Permutation.
  - by intros ->.
Qed.

Lemma read_kpi_frame_selected (conn : connection) (k : string) (row : kpi_row) :
  row ∈ fact_kpi_daily conn → kpi_name row = k →
  row ∈ read_kpi_frame conn (Some [k]).
Proof.
  intros Hrow Hk. unfold read_kpi_frame.
  rewrite elem_of_sort_by, list_elem_of_filter. split; [|done].
  rewrite Hk. by left.
Qed.

(** The records of a call filtered to one KPI. *)
Lemma recompute_one_kpi (conn : connection) threshold window_days min_history
    (k now : string) out conn' :
  recompute_anomalies conn threshold window_days min_history (Some [k]) now
    = Some (out, conn') →
  ∀ r, r ∈ out → a_kpi_name r = k ∧ a_created_at r = now.
Proof.
  rewrite recompute_anomalies_unfold. intros Hrun r Hr.
  destruct (read_kpi_frame conn (Some [k])) as [|row frame] eqn:Hframe.
  { injection Hrun as <- <-. by apply elem_of_nil in Hr. }
  destruct (scan_groups _ _ _ _ _ _) as [out'|] eqn:Hscan; [|done].
  injection Hrun as <- <-.
  destruct (scan_groups_elem _ _ _ _ _ _ _ _ Hscan Hr)
    as (name & group & Hgroup & idx & current & baseline & score & _ & _ & _
        & ->).
  split; [|done]. cbn [make_record a_kpi_name].
  apply groupby_kpi_name_elem in Hgroup as (row' & Hrow' & <-).
  rewrite <- Hframe in Hrow'. apply read_kpi_frame_filtered in Hrow'.
  by apply list_elem_of_singleton in Hrow'.
Qed.

(** X13. Asking for the snapshot of a KPI on a day for which no anomaly is
    stored runs the scorer for that KPI alone, which empties the anomaly
    table: afterwards the table holds only records of this KPI made by this
    call, and every record stored for another KPI is gone. The call itself
    returns a snapshot, and leaves the KPI table as it was. *)
Theorem snapshot_without_stored_anomaly_clears_table (conn : connection)
    (k : string) (d : Z) (now : string) :
  (∃ row, row ∈ fact_kpi_daily conn ∧ kpi_name row = k ∧ date row = d) →
  (∀ a, a ∈ anomalies conn → ¬ (a_kpi_name a = k ∧ a_date a = d)) →
  ∃ snap conn' stmts,
    _get_kpi_snapshot conn k d now = Some (Returned snap, conn') ∧
    executed conn conn' stmts ∧ DeleteFromAnomalies ∈ stmts ∧
    (∀ a, a ∈ anomalies conn' → a_kpi_name a = k ∧ a_created_at a = now) ∧
    (∀ a, a ∈ anomalies conn → a_kpi_name a ≠ k → a ∉ anomalies conn') ∧
    fact_kpi_daily conn' = fact_kpi_daily conn.
Proof.
  intros (row & Hrow & Hk & Hd) Hnone.
  unfold _get_kpi_snapshot.
  destruct (value_row conn k d) as [row'|] eqn:Hvalue.
  2: { rewrite value_row_None in Hvalue. by destruct (Hvalue row Hrow). }
  apply anomaly_row_None in Hnone. rewrite Hnone. cbv zeta.
  destruct (recompute_anomalies_is_Some conn 3 14 14 (Some [k]) now)
    as [[out conn'] Hrun].
  rewrite Hrun. cbn [mbind option_bind].
  pose proof (recompute_one_kpi _ _ _ _ _ _ _ _ Hrun) as Hout.
  rewrite recompute_anomalies_unfold in Hrun.
  destruct (read_kpi_frame conn (Some [k])) as [|row0 frame] eqn:Hframe.
  { pose proof (read_kpi_frame_selected conn k row Hrow Hk) as Hin.
    rewrite Hframe in Hin. by apply elem_of_nil in Hin. }
  destruct (scan_groups _ _ _ _ _ _) as [out'|] eqn:Hscan; [|done].
  injection Hrun as <- <-.
  eexists _, (replaced conn out'),
    (DeleteFromAnomalies ::
       match out' with
       | [] => [Commit]
       | _ => [InsertIntoAnomalies out'; Commit]
       end).
  split; [done|]. rewrite anomalies_replaced. split_and!.
  - unfold executed. destruct out'; simpl; by rewrite <- !app_assoc.
  - by left.
  - exact Hout.
  - intros a _ Hne Ha. by destruct (Hout a Ha).
  - by destruct out'.
Qed.

(** X14. The snapshot leaves the store alone in the two other cases: without a
    KPI value for the day it raises the error before anything is written,
    and with a stored anomaly for the KPI and the day it reports a stored
    record, one that no other stored record of that KPI and day outscores. *)
Theorem snapshot_reads_only_when_anomaly_stored (conn : connection)
    (k : string) (d : Z) (now : string) :
  (∀ row, row ∈ fact_kpi_daily conn → ¬ (kpi_name row = k ∧ date row = d)) ∨
  (∃ a, a ∈ anomalies conn ∧ a_kpi_name a = k ∧ a_date a = d) →
  ∃ res,
    _get_kpi_snapshot conn k d now = Some (res, conn) ∧
    (res = ValueError ↔
     ∀ row, row ∈ fact_kpi_daily conn → ¬ (kpi_name row = k ∧ date row = d)) ∧
    (∀ snap, res = Returned snap →
       ∃ row a,
         row ∈ fact_kpi_daily conn ∧ kpi_name row = k ∧ date row = d ∧
         s_value snap = value row ∧
         a ∈ anomalies conn ∧ a_kpi_name a = k ∧ a_date a = d ∧
         anomaly_score snap = Some (a_score a) ∧
         anomaly_baseline snap = Some (a_baseline a) ∧
         anomaly_status snap = Some (a_status a) ∧
         s_scenario_tag snap = a_scenario_tag a ∧
         ∀ a', a' ∈ anomalies conn → a_kpi_name a' = k → a_date a' = d →
               score_desc a a' = true).
Proof.
  intros Hcase. unfold _get_kpi_snapshot.
  destruct (value_row conn k d) as [row|] eqn:Hvalue.
  - destruct Hcase as [Hnone|(a0 & Ha0 & Hk0 & Hd0)].
    { apply value_row_None in Hnone. by rewrite Hnone in Hvalue. }
    destruct (anomaly_row conn k d) as [a|] eqn:Hrow.
    2: { rewrite anomaly_row_None in Hrow. by destruct (Hrow a0 Ha0). }
    cbv zeta. cbn [mbind option_bind]. eexists. split; [done|]. split.
    + split; [done|]. intros Hnone. apply value_row_None in Hnone.
      by rewrite Hnone in Hvalue.
    + intros snap [= <-]. cbn.
      apply value_row_Some in Hvalue as (Hin & Hk & Hd).
      apply anomaly_row_Some in Hrow as (Ha & Hka & Hda & Hbest).
      exists row, a. by split_and!.
  - exists ValueError. split; [done|]. split; [|done].
    split; [|done]. intros _. by apply value_row_None.
Qed.

End snapshot_properties.

(** ** The expected impact of [ai/explain.py] *)

Section impact_properties.
Import Drivers Explain.

(** X15. Whatever the driver, the impact promised for acting on it stays in
    a fixed range: an improvement between 5 and 45 percent, between 2 and
    11.25 hours saved, between 84 and 472.50 pounds saved; and the pounds
    are 42 times the hours up to the rounding to two decimals. *)
Theorem expected_impact_within_fixed_range (driver : driver_row) :
  let impact := _expected_impact_from_driver driver in
  (5 <= expected_kpi_improvement_pct impact <= 45)%Q ∧
  (2 <= expected_hours_saved impact <= 11.25)%Q ∧
  (84 <= expected_gbp_saved impact <= 472.5)%Q ∧
  (Qabs (expected_gbp_saved impact - expected_hours_saved impact * 42)
   <= 0.005)%Q.
Proof.
  unfold _expected_impact_from_driver. cbv zeta.
  cbn [expected_kpi_improvement_pct expected_hours_saved expected_gbp_saved].
  set (m := (Qabs (delta_abs driver) * 18
             + Qabs (contribution_share driver) * 28)%Q).
  set (pct := Qmax 5 (Qmin 45 m)).
  assert ((5 <= pct)%Q ∧ (pct <= 45)%Q) as [Hp5 Hp45].
  { split; [apply Q.le_max_l|].
    apply Q.max_lub; [done|apply Q.le_min_l]. }
  set (x := Qmax 2 (pct * 0.25)).
  assert ((2 <= x)%Q ∧ (x <= 11.25)%Q) as [Hx2 Hx11].
  { split; [apply Q.le_max_l|]. apply Q.max_lub; [done|]. lra. }
  set (hours := py_round x 2).
  assert ((inject_Z 500 / pow10 2 == 5)%Q) as E5 by reflexivity.
  assert ((inject_Z 4500 / pow10 2 == 45)%Q) as E45 by reflexivity.
  assert ((inject_Z 200 / pow10 2 == 2)%Q) as E2 by reflexivity.
  assert ((inject_Z 1125 / pow10 2 == 11.25)%Q) as E11 by reflexivity.
  assert ((inject_Z 8400 / pow10 2 == 84)%Q) as E84 by reflexivity.
  assert ((inject_Z 47250 / pow10 2 == 472.5)%Q) as E472 by reflexivity.
  assert ((2 <= hours)%Q ∧ (hours <= 11.25)%Q) as [Hh2 Hh11].
  { split.
    - rewrite <- E2. apply py_round_ge. by rewrite E2.
    - rewrite <- E11. apply py_round_le. by rewrite E11. }
  split_and!.
  - rewrite <- E5. apply py_round_ge. by rewrite E5.
  - rewrite <- E45. apply py_round_le. by rewrite E45.
  - done.
  - done.
  - rewrite <- E84. apply py_round_ge. rewrite E84. lra.
  - rewrite <- E472. apply py_round_le. rewrite E472. lra.
  - pose proof (py_round_error (hours * 42) 2) as Herr.
    assert (((1 # 2) / pow10 2 == 0.005)%Q) as E by reflexivity.
    by rewrite E in Herr.
Qed.

End impact_properties.

(** ** The segment filters of [api/routes/automations.py] *)

Section filter_properties.
Import Drivers DriverSpec Automations.
Context {Any : Type} (str : Any → string) (lower : string → string).

Lemma compute_top_drivers_is_Some (conn : connection) (kpi_name : string)
    (target_date baseline_days top_n : Z) :
  is_Some (compute_top_drivers conn kpi_name target_date baseline_days top_n).
Proof.
  unfold compute_top_drivers. case_bool_decide.
  - destruct (analyze_dimensions_Some conn target_date
                (target_date - baseline_days) (target_date - 1)
                (_dimension_configs_for_kpi kpi_name))
      as (all_rows & ev & Hloop & _).
    rewrite (_analyze_rate_kpi_unfold _ _ _ _ _ _ _ Hloop). by eauto.
  - case_bool_decide; [|by eauto].
    destruct (_analyze_data_quality_Some conn target_date baseline_days top_n)
      as (res & -> & _). by eauto.
Qed.

Lemma by_dimension_of_foldl (drivers : list driver_row)
    (acc : gmap string (gset string)) (k s : string) :
  s ∈ default ∅
        (foldl
           (λ by_dimension item,
              let k := lower (dr_dimension item) in
              <[k := default ∅ (by_dimension !! k)
                       ∪ {[lower (dr_segment item)]}]> by_dimension)
           acc drivers !! k) ↔
  s ∈ default ∅ (acc !! k) ∨
  ∃ item, item ∈ drivers ∧ lower (dr_dimension item) = k ∧
          lower (dr_segment item) = s.
Proof.
  revert acc. induction drivers as [|d drivers IH]; intros acc.
  - simpl. split; [by left|]. intros [?|(item & Hin & _)]; [done|].
    by apply elem_of_nil in Hin.
  - cbn [foldl]. rewrite IH. cbv zeta.
    destruct (decide (lower (dr_dimension d) = k)) as [<-|Hne].
    + rewrite lookup_insert_eq. simpl. rewrite elem_of_union.
      rewrite elem_of_singleton. split.
      * intros [[Hacc | ->] | (item & Hin & Hk & Hs)].
        -- by left.
        -- right. exists d. split; [by left|done].
        -- right. exists item. split; [by right|done].
      * intros [Hacc|(item & [->|Hin]%elem_of_cons & Hk & Hs)].
        -- left. by left.
        -- left. by right.
        -- right. by exists item.
    + rewrite lookup_insert_ne by done. split.
      * intros [Hacc|(item & Hin & Hk & Hs)]; [by left|].
        right. exists item. split; [by right|done].
      * intros [Hacc|(item & [->|Hin]%elem_of_cons & Hk & Hs)];
          [by left|done|].
        right. by exists item.
Qed.

Lemma elem_of_by_dimension_of (drivers : list driver_row) (k s : string) :
  s ∈ default ∅ (by_dimension_of lower drivers !! k) ↔
  ∃ item, item ∈ drivers ∧ lower (dr_dimension item) = k ∧
          lower (dr_segment item) = s.
Proof.
  unfold by_dimension_of. rewrite by_dimension_of_foldl.
  rewrite lookup_empty. cbn [default]. split; [|by right].
  intros [Hempty|Hitem]; [|done]. by apply elem_of_empty in Hempty.
Qed.

Lemma filters_loop_true (by_dimension : gmap string (gset string))
    (filters : list (string * Any)) :
  filters_loop str lower by_dimension filters = true ↔
  ∀ key expected, (key, expected) ∈ filters →
    lower (str expected)
      ∈ default ∅ (by_dimension !! filter_dimension lower key).
Proof.
  induction filters as [|[key expected] filters IH].
  - split; [|done]. intros _ key expected Hin. by apply elem_of_nil in Hin.
  - cbn [filters_loop]. cbv zeta. fold (filter_dimension lower key).
    case_bool_decide as Hin.
    + split; [done|]. intros Hall. exfalso. apply Hin, Hall. by left.
    + rewrite IH. split.
      * intros Hall key' expected' [[= -> ->]|Hin']%elem_of_cons; [done|].
        by apply Hall.
      * intros Hall key' expected' Hin'. apply Hall. by right.
Qed.

(** X16. The call returns, and it returns [True] exactly when every filter names
    a segment of one of the fifteen top drivers of the anomaly's KPI and
    day, under the dimension its key stands for; dimension and segment are
    compared in lower case. Without filters that is always the case. *)
Theorem segment_filters_match_iff_drivers_named (conn : connection)
    (anomaly : anomaly) (filters : list (string * Any)) :
  ∃ res b,
    compute_top_drivers conn (a_kpi_name anomaly) (a_date anomaly) 14 15
      = Some res ∧
    _segment_filters_match str lower conn anomaly filters = Some b ∧
    (b = true ↔
     ∀ key expected, (key, expected) ∈ filters →
       ∃ item, item ∈ drivers res ∧
               lower (dr_dimension item) = filter_dimension lower key ∧
               lower (dr_segment item) = lower (str expected)).
Proof.
  destruct (compute_top_drivers_is_Some conn (a_kpi_name anomaly)
              (a_date anomaly) 14 15) as [res Hres].
  exists res. unfold _segment_filters_match. rewrite Hres.
  cbn [mbind option_bind]. cbv zeta.
  destruct filters as [|f filters].
  - exists true. split_and!; [done|done|]. split; [|done].
    intros _ key expected Hin. by apply elem_of_nil in Hin.
  - eexists. split_and!; [done|done|].
    rewrite filters_loop_true.
    split; intros Hall key expected Hin;
      apply elem_of_by_dimension_of; by apply Hall.
Qed.

(** X17. An automation that filters on segments can only fire for a KPI the
    attribution supports: for any other KPI there are no drivers, and a
    condition with at least one segment filter never matches. *)
Theorem segment_filters_never_match_unsupported_kpi (conn : connection)
    (anomaly : anomaly) (filters : list (string * Any)) :
  ¬ supported (a_kpi_name anomaly) →
  filters ≠ [] →
  _segment_filters_match str lower conn anomaly filters = Some false.
Proof.
  intros Hno Hfilters. unfold _segment_filters_match, compute_top_drivers.
  rewrite bool_decide_eq_false_2 by (intros Hrate; apply Hno; by left).
  rewrite bool_decide_eq_false_2 by (intros Hdq; apply Hno; by right).
  destruct filters as [|[key expected] filters]; [done|].
  cbn [mbind option_bind drivers]. cbv zeta.
  cbn [filters_loop by_dimension_of foldl]. cbv zeta.
  rewrite lookup_empty. cbn [default].
  by rewrite bool_decide_eq_true_2 by apply not_elem_of_empty.
Qed.

End filter_properties.

(** ** The callers on the sample store *)

(** The sample store holds one anomaly, of the exception rate; asking for
    the snapshot of the SLA breach rate on day 4 erases it. *)
Lemma snapshot_without_stored_anomaly_clears_table_sample :
  ∃ snap conn' stmts,
    Explain._get_kpi_snapshot (H:=sqrt_down) Examples.sample_conn
      "sla_breach_rate_pct" 4 "2026-02-10T09:00:00+00:00"
      = Some (Explain.Returned snap, conn') ∧
    Spec.executed Examples.sample_conn conn' stmts ∧
    DeleteFromAnomalies ∈ stmts ∧
    (∀ a, a ∈ anomalies conn' →
          a_kpi_name a = "sla_breach_rate_pct" ∧
          a_created_at a = "2026-02-10T09:00:00+00:00") ∧
    (∀ a, a ∈ anomalies Examples.sample_conn →
          a_kpi_name a ≠ "sla_breach_rate_pct" → a ∉ anomalies conn') ∧
    fact_kpi_daily conn' = fact_kpi_daily Examples.sample_conn.
Proof.
  apply (snapshot_without_stored_anomaly_clears_table (H:=sqrt_down)
           Examples.sample_conn "sla_breach_rate_pct" 4).
  - exists (Examples.obs "sla_breach_rate_pct" 4 10).
    split; [|by split]. simpl. do 3 right. by left.
  - simpl. intros a Ha [Hk _]. apply list_elem_of_singleton in Ha.
    rewrite Ha in Hk. discriminate.
Defined.

(** The stored anomaly of the exception rate on day 3 is reported as it
    is. *)
Lemma snapshot_reads_only_when_anomaly_stored_sample :
  ∃ res,
    Explain._get_kpi_snapshot (H:=sqrt_down) Examples.sample_conn
      "exception_rate_per_100_jobs" 3 "2026-02-10T09:00:00+00:00"
      = Some (res, Examples.sample_conn) ∧
    (res = Explain.ValueError ↔
     ∀ row, row ∈ fact_kpi_daily Examples.sample_conn →
            ¬ (kpi_name row = "exception_rate_per_100_jobs" ∧ date row = 3%Z)) ∧
    (∀ snap, res = Explain.Returned snap →
       ∃ row a,
         row ∈ fact_kpi_daily Examples.sample_conn ∧
         kpi_name row = "exception_rate_per_100_jobs" ∧ date row = 3%Z ∧
         Explain.s_value snap = value row ∧
         a ∈ anomalies Examples.sample_conn ∧
         a_kpi_name a = "exception_rate_per_100_jobs" ∧ a_date a = 3%Z ∧
         Explain.anomaly_score snap = Some (a_score a) ∧
         Explain.anomaly_baseline snap = Some (a_baseline a) ∧
         Explain.anomaly_status snap = Some (a_status a) ∧
         Explain.s_scenario_tag snap = a_scenario_tag a ∧
         ∀ a', a' ∈ anomalies Examples.sample_conn →
               a_kpi_name a' = "exception_rate_per_100_jobs" →
               a_date a' = 3%Z →
               Explain.score_desc a a' = true).
Proof.
  apply (snapshot_reads_only_when_anomaly_stored (H:=sqrt_down)
           Examples.sample_conn "exception_rate_per_100_jobs" 3).
  right. exists Examples.stale. split; [|by split]. simpl. by left.
Defined.

(** A filter on the site of an anomaly of the cost leakage estimate. *)
Lemma segment_filters_never_match_unsupported_kpi_sample :
  Automations._segment_filters_match (Any:=string) id id Examples.sample_conn
    {| a_kpi_name := "cost_leakage_estimate_gbp";
       a_date := 4;
       a_value := 1200;
       a_baseline := Fin 800;
       a_score := Fin 4;
       a_status := "open";
       a_scenario_tag := None;
       a_created_at := "2026-02-10T09:00:00+00:00" |}
    [("site", "Leeds")]
  = Some false.
Proof.
  apply (segment_filters_never_match_unsupported_kpi (Any:=string) id id).
  - simpl. intros [Hrate|Hdq]; [|discriminate].
    apply elem_of_rate_kpis in Hrate as [Hk|Hk]; discriminate.
  - discriminate.
Defined.

(** * Further properties of the stored records *)

Section stored_records.
Import Anomaly Further Spec.
Context `{Sqrt}.

Lemma recompute_anomalies_elem (conn : connection) threshold window_days
    min_history (kpi_names : option (list string)) (now : string) out conn' r :
  recompute_anomalies conn threshold window_days min_history kpi_names now
    = Some (out, conn') →
  r ∈ out →
  ∃ name current baseline score,
    (threshold < score)%Q ∧
    r = make_record (_load_scenario_lookup conn) now name current baseline
          (Fin score).
Proof.
  rewrite recompute_anomalies_unfold. intros Hrun Hr.
  destruct (read_kpi_frame conn kpi_names) as [|row frame].
  { injection Hrun as <- <-. by apply elem_of_nil in Hr. }
  destruct (scan_groups _ _ _ _ _ _) as [out'|] eqn:Hscan; [|done].
  injection Hrun as <- <-.
  destruct (scan_groups_elem _ _ _ _ _ _ _ _ Hscan Hr)
    as (name & group & _ & idx & current & baseline & score & _ & _ & Hlt
        & ->).
  by exists name, current, baseline, score.
Qed.

(** X18. Every returned record carries the scenario tag of the last registry row
    for its KPI and its date, and no tag when the registry has no such row
    or that row's tag is NULL. *)
Theorem records_carry_last_registry_tag (conn : connection) threshold
    window_days min_history (kpi_names : option (list string)) (now : string) :
  ∃ out conn',
    recompute_anomalies conn threshold window_days min_history kpi_names now
      = Some (out, conn') ∧
    ∀ r, r ∈ out →
      a_scenario_tag r =
      if bool_decide (a_kpi_name r = "") then None
      else default None
             (last (sr_scenario_tag <$>
                      registry_rows_for conn (a_kpi_name r) (a_date r))).
Proof.
  destruct (recompute_anomalies_is_Some conn threshold window_days min_history
              kpi_names now) as [[out conn'] Hrun].
  exists out, conn'. split; [done|]. intros r Hr.
  destruct (recompute_anomalies_elem _ _ _ _ _ _ _ _ _ Hrun Hr)
    as (name & current & baseline & score & _ & ->).
  cbn [make_record a_scenario_tag a_kpi_name a_date].
  unfold lookup_get, _load_scenario_lookup, registry_rows_for.
  rewrite scenario_lookup_foldl. by case_bool_decide.
Qed.

(** X19. The score stored with a record is the computed score rounded to four
    decimals. For a threshold that has itself at most four decimals, which
    is what the run request guarantees, the stored score is never below the
    threshold. *)
Theorem stored_score_not_below_threshold (conn : connection) (threshold : Q)
    (z : Z) window_days min_history (kpi_names : option (list string))
    (now : string) :
  (threshold == inject_Z z / pow10 4)%Q →
  ∃ out conn',
    recompute_anomalies conn threshold window_days min_history kpi_names now
      = Some (out, conn') ∧
    ∀ r, r ∈ out → ∃ s, a_score r = Fin s ∧ (threshold <= s)%Q.
Proof.
  intros Hz.
  destruct (recompute_anomalies_is_Some conn threshold window_days min_history
              kpi_names now) as [[out conn'] Hrun].
  exists out, conn'. split; [done|]. intros r Hr.
  destruct (recompute_anomalies_elem _ _ _ _ _ _ _ _ _ Hrun Hr)
    as (name & current & baseline & score & Hlt & ->).
  cbn [make_record a_score fround]. eexists. split; [done|].
  rewrite Hz. apply py_round_ge. rewrite <- Hz. by apply Qlt_le_weak.
Qed.

End stored_records.

(** A threshold of 3 on the sample store. *)
Lemma stored_score_not_below_threshold_sample :
  ∃ out conn',
    Anomaly.recompute_anomalies (H:=sqrt_down) Examples.sample_conn 3 2 2 None
      "2026-02-10T09:00:00+00:00" = Some (out, conn') ∧
    ∀ r, r ∈ out → ∃ s, a_score r = Fin s ∧ (3 <= s)%Q.
Proof.
  apply (stored_score_not_below_threshold (H:=sqrt_down) Examples.sample_conn
           3 30000 2 2 None).
  reflexivity.
Defined.

(** * The filter of the scorer *)

Section sort_filter.
Context {A : Type} (leb : A → A → bool).
Context (P : A → Prop) `{!∀ x, Decision (P x)}.
Hypothesis leb_total : ∀ x y, leb x y = true ∨ leb y x = true.
Hypothesis leb_trans : ∀ x y z, leb x y = true → leb y z = true → leb x z = true.

Lemma insert_by_first (x : A) (l : list A) :
  Forall (λ y, leb x y = true) l → insert_by leb x l = x :: l.
Proof. intros Hall. destruct Hall as [|y l Hy _]; simpl; [done|]. by rewrite Hy. Qed.

Lemma filter_insert_by (x : A) (s : list A) :
  StronglySorted (λ a b, leb a b = true) s →
  filter P (insert_by leb x s) =
  if decide (P x) then insert_by leb x (filter P s) else filter P s.
Proof.
  induction 1 as [|y s Hs IH Hall]; simpl.
  - rewrite filter_cons, filter_nil. by destruct (decide (P x)).
  - destruct (leb x y) eqn:Hxy.
    + rewrite (filter_cons P x). destruct (decide (P x)); [|done].
      rewrite insert_by_first; [done|].
      apply Forall_forall. intros y' [_ Hy']%list_elem_of_filter.
      apply elem_of_cons in Hy' as [->|Hy']; [done|].
      rewrite Forall_forall in Hall. by apply (leb_trans x y y'), Hall.
    + rewrite (filter_cons P y (insert_by leb x s)), (filter_cons P y s), IH.
      destruct (decide (P x)), (decide (P y)); simpl; try done.
      by rewrite Hxy.
Qed.

Lemma sort_by_StronglySorted (l : list A) :
  StronglySorted (λ a b, leb a b = true) (sort_by leb l).
Proof.
  apply Sorted_StronglySorted; [intros x y z; apply leb_trans|].
  by apply sort_by_Sorted.
Qed.

(** A stable sort and a filter can be taken in either order. *)
Lemma filter_sort_by (l : list A) :
  filter P (sort_by leb l) = sort_by leb (filter P l).
Proof.
  induction l as [|x l IH]; [done|].
  change (sort_by leb (x :: l)) with (insert_by leb x (sort_by leb l)).
  rewrite filter_insert_by by apply sort_by_StronglySorted.
  rewrite filter_cons, IH. by destruct (decide (P x)).
Qed.

End sort_filter.

Section filtered_run.
Import Anomaly Spec.
Context `{Sqrt}.

Lemma String_leb_trans (x y z : string) :
  String.leb x y = true → String.leb y z = true → String.leb x z = true.
Proof.
  intros Hxy Hyz.
  assert (String.le x z) as Hxz.
  { transitivity y; unfold String.le; [by rewrite Hxy|by rewrite Hyz]. }
  unfold String.le in Hxz. by destruct (String.leb x z).
Qed.

Lemma String_compare_refl (s : string) : String.compare s s = Eq.
Proof.
  pose proof (String.compare_antisym s s) as Hs.
  by destruct (String.compare s s).
Qed.

Lemma kpi_date_leb_spec (r1 r2 : kpi_row) :
  kpi_date_leb r1 r2 = true ↔
  (String.leb (kpi_name r1) (kpi_name r2) = true ∧ kpi_name r1 ≠ kpi_name r2) ∨
  (kpi_name r1 = kpi_name r2 ∧ (date r1 ≤ date r2)%Z).
Proof.
  unfold kpi_date_leb, String.leb.
  destruct (String.compare (kpi_name r1) (kpi_name r2)) eqn:Hc.
  - apply String.compare_eq_iff in Hc. rewrite Z.leb_le. split.
    + intros Hd. by right.
    + by intros [[_ Hne]|[_ Hd]].
  - split; [|done]. intros _. left. split; [done|].
    intros Heq. rewrite Heq, String_compare_refl in Hc. done.
  - split; [done|]. intros [[Hle _]|[Heq _]]; [done|].
    rewrite Heq, String_compare_refl in Hc. done.
Qed.

Lemma kpi_date_leb_total (r1 r2 : kpi_row) :
  kpi_date_leb r1 r2 = true ∨ kpi_date_leb r2 r1 = true.
Proof.
  rewrite !kpi_date_leb_spec.
  destruct (decide (kpi_name r1 = kpi_name r2)) as [Heq|Hne].
  - destruct (Z.le_ge_cases (date r1) (date r2)); [left|right]; right; done.
  - destruct (String.leb_total (kpi_name r1) (kpi_name r2));
      [left|right]; left; done.
Qed.

Lemma kpi_date_leb_trans (r1 r2 r3 : kpi_row) :
  kpi_date_leb r1 r2 = true → kpi_date_leb r2 r3 = true →
  kpi_date_leb r1 r3 = true.
Proof.
  rewrite !kpi_date_leb_spec.
  intros [[H12 Hne12]|[Heq12 Hd12]] [[H23 Hne23]|[Heq23 Hd23]].
  - left. split; [by eapply String_leb_trans|].
    intros Heq. rewrite <- Heq in H23. apply Hne12.
    by apply String.leb_antisym.
  - left. by rewrite <- Heq23.
  - left. by rewrite Heq12.
  - right. split; [congruence|lia].
Qed.

Lemma fmap_filter_key {A} (key : A → string) (Q : string → Prop)
    `{!∀ k, Decision (Q k)} (l : list A) :
  key <$> filter (λ r, Q (key r)) l = filter Q (key <$> l).
Proof.
  induction l as [|x l IH]; [done|].
  rewrite fmap_cons, !filter_cons. destruct (decide (Q (key x))); [|done].
  rewrite fmap_cons. by f_equal.
Qed.

Lemma remove_dups_filter (Q : string → Prop) `{!∀ k, Decision (Q k)}
    (l : list string) :
  remove_dups (filter Q l) = filter Q (remove_dups l).
Proof.
  induction l as [|x l IH]; [done|].
  rewrite filter_cons. cbn [remove_dups].
  destruct (decide (Q x)) as [Hx|Hx].
  - cbn [remove_dups].
    destruct (decide_rel elem_of x l) as [Hin|Hin],
      (decide_rel elem_of x (filter Q l)) as [Hf|Hf].
    + done.
    + exfalso. apply Hf. by apply list_elem_of_filter.
    + exfalso. by apply list_elem_of_filter in Hf as [_ ?].
    + rewrite filter_cons_True by done. by f_equal.
  - destruct (decide_rel elem_of x l); [done|].
    by rewrite filter_cons_False.
Qed.

Lemma filter_all {A} (P : A → Prop) `{!∀ x, Decision (P x)} (l : list A) :
  Forall P l → filter P l = l.
Proof.
  induction 1 as [|x l Hx _ IH]; [done|].
  rewrite filter_cons_True by done. by f_equal.
Qed.

Lemma filter_none {A} (P : A → Prop) `{!∀ x, Decision (P x)} (l : list A) :
  Forall (λ x, ¬ P x) l → filter P l = [].
Proof.
  induction 1 as [|x l Hx _ IH]; [done|]. by rewrite filter_cons_False.
Qed.

(** The frame read under a filter is the filtered frame. *)
Lemma read_kpi_frame_filter (conn : connection) (n : string)
    (ns : list string) :
  read_kpi_frame conn (Some (n :: ns)) =
  filter (λ r, kpi_name r ∈ n :: ns) (read_kpi_frame conn None).
Proof.
  unfold read_kpi_frame. symmetry. apply filter_sort_by.
  - apply kpi_date_leb_total.
  - apply kpi_date_leb_trans.
Qed.

Lemma scan_groups_restrict threshold window_days min_history lookup
    (now : string) (ks : list string) (frame : list kpi_row)
    (names : list string) out_all :
  scan_groups threshold window_days min_history lookup now
    ((λ k, (k, filter (λ r, kpi_name r = k) frame)) <$> names)
    = Some out_all →
  scan_groups threshold window_days min_history lookup now
    ((λ k, (k, filter (λ r, kpi_name r = k)
                 (filter (λ r, kpi_name r ∈ ks) frame)))
       <$> filter (λ k, k ∈ ks) names)
    = Some (filter (λ r, a_kpi_name r ∈ ks) out_all).
Proof.
  revert out_all. induction names as [|k names IH]; intros out_all.
  - simpl. by intros [= <-].
  - rewrite fmap_cons. cbn [scan_groups]. cbv zeta.
    destruct (scan_series _ _ _ _ _ k _ _ _) as [out1|] eqn:Hout1; [|done].
    cbn [mbind option_bind].
    destruct (scan_groups _ _ _ _ _ _) as [out2|] eqn:Hout2; [|done].
    cbn [mbind option_bind]. intros [= <-].
    specialize (IH out2 eq_refl). rewrite filter_app.
    apply scan_series_dates in Hout1 as Hnames. destruct Hnames as [_ Hnames].
    rewrite filter_cons. destruct (decide (k ∈ ks)) as [Hk|Hk].
    + rewrite fmap_cons. cbn [scan_groups]. cbv zeta.
      rewrite (list_filter_filter_l (λ r, kpi_name r = k)) by (by intros r ->).
      rewrite Hout1, IH. cbn [mbind option_bind]. do 2 f_equal.
      symmetry. apply filter_all.
      eapply Forall_impl; [exact Hnames|]. by intros r ->.
    + rewrite IH, (filter_none _ out1); [done|].
      eapply Forall_impl; [exact Hnames|]. by intros r ->.
Qed.

Lemma recompute_anomalies_scan (conn : connection) threshold window_days
    min_history (kpi_names : option (list string)) (now : string) out conn' :
  recompute_anomalies conn threshold window_days min_history kpi_names now
    = Some (out, conn') →
  scan_groups threshold window_days min_history (_load_scenario_lookup conn)
    now (groupby_kpi_name (read_kpi_frame conn kpi_names)) = Some out.
Proof.
  rewrite recompute_anomalies_unfold.
  destruct (read_kpi_frame conn kpi_names) as [|row frame].
  - by intros [= <- <-].
  - destruct (scan_groups _ _ _ _ _ _) as [out'|]; [|done].
    by intros [= <- <-].
Qed.

(** X20. A run filtered to some KPIs returns exactly the records the unfiltered
    run returns for those KPIs, in the same order: the records of a KPI do
    not depend on which other KPIs are scored with it. *)
Theorem filtered_run_is_restriction_of_full_run (conn : connection) threshold
    window_days min_history (n : string) (ns : list string) (now : string) :
  ∃ out_all conn1 out conn2,
    recompute_anomalies conn threshold window_days min_history None now
      = Some (out_all, conn1) ∧
    recompute_anomalies conn threshold window_days min_history
      (Some (n :: ns)) now = Some (out, conn2) ∧
    out = filter (λ r, a_kpi_name r ∈ n :: ns) out_all.
Proof.
  destruct (recompute_anomalies_is_Some conn threshold window_days min_history
              None now) as [[out_all conn1] Hall].
  destruct (recompute_anomalies_is_Some conn threshold window_days min_history
              (Some (n :: ns)) now) as [[out conn2] Hsel].
  exists out_all, conn1, out, conn2. split; [done|]. split; [done|].
  apply recompute_anomalies_scan in Hall, Hsel.
  rewrite read_kpi_frame_filter in Hsel.
  set (frame := read_kpi_frame conn None) in *.
  unfold groupby_kpi_name in Hall, Hsel.
  pose proof (fmap_filter_key kpi_name (λ k, k ∈ n :: ns) frame) as Hkeys.
  cbv beta in Hkeys. rewrite Hkeys in Hsel.
  rewrite remove_dups_filter in Hsel.
  rewrite <- (filter_sort_by String.leb) in Hsel;
    [|apply String.leb_total|apply String_leb_trans].
  apply (scan_groups_restrict _ _ _ _ _ (n :: ns)) in Hall.
  rewrite Hall in Hsel. by injection Hsel.
Qed.

End filtered_run.
